(** * Ansible log analyzer ([opt/ansible/log-analyzer.py])

    A shallow embedding of [AnsibleLogAnalyzer] and [main]: the values that
    [json.loads] hands to the aggregator, the statistics dictionary that
    [_process_entry] mutates, the loader loop of [parse_log], the printed
    report of [generate_report] and the exit status of [main]. *)

From Stdlib Require Import ZArith NArith List String Ascii Bool Lia.
From Stdlib Require Import DecimalString Decimal.
From Stdlib.Floats Require Import SpecFloat.
From stdpp Require Import base option list gmap.

Set Warnings "-register-all".
Local Open Scope Z_scope.

(** ** Python values *)

(** A Python [str] is a sequence of Unicode code points. *)
Abbreviation str := (list N).

(** ASCII literals of the source, as [str]. *)
Definition lit (s : string) : str :=
  map N_of_ascii (list_ascii_of_string s).
Arguments lit s%_string.

(** What [json.loads] returns: [None], [bool], [int], [float], [str],
    [list] and [dict] with [str] keys. *)
Inductive json :=
  | JNull
  | JBool (b : bool)
  | JInt (n : Z)
  | JFloat (f : spec_float)
  | JStr (s : str)
  | JList (l : list json)
  | JDict (d : gmap str json).

(** The exceptions the program can meet.  [TypeError] and [AttributeError]
    carry the value the failing operation was applied to,
    [UnicodeEncodeError] the text that standard output could not encode;
    [OtherError] stands for whatever [open], the line iterator or
    [json.loads] raise that is not a [JSONDecodeError]. *)
Inductive exn :=
  | TypeError (culprit : json)
  | AttributeError (culprit : json)
  | KeyError (key : str)
  | ZeroDivisionError
  | OverflowError
  | UnicodeEncodeError (text : str)
  | OtherError (msg : str).

Inductive result (A : Type) :=
  | Ok (a : A)
  | Raise (e : exn).
Arguments Ok {A} a.
Arguments Raise {A} e.

(** *** Numbers and equality of hashable values *)

(** The exact value of a Python number: [m * 2^e], an infinity or NaN. *)
Inductive num :=
  | NFin (m e : Z)
  | NInf (neg : bool)
  | NNan.

Definition num_of_float (f : spec_float) : num :=
  match f with
  | S754_zero _ => NFin 0 0
  | S754_infinity s => NInf s
  | S754_nan => NNan
  | S754_finite s m e => NFin (if s then Z.neg m else Z.pos m) e
  end.

Definition num_of (v : json) : option num :=
  match v with
  | JBool b => Some (NFin (if b then 1 else 0) 0)
  | JInt n => Some (NFin n 0)
  | JFloat f => Some (num_of_float f)
  | _ => None
  end.

(** Numbers compare by value ([True == 1 == 1.0]).  The only NaN that
    [json.loads] produces is the decoder's one constant object, and a set
    looks an element up by identity before [==], so NaN counts as equal to
    itself here. *)
Definition num_eqb (a b : num) : bool :=
  match a, b with
  | NFin m1 e1, NFin m2 e2 =>
      let k := Z.min e1 e2 in
      m1 * 2 ^ (e1 - k) =? m2 * 2 ^ (e2 - k)
  | NInf s1, NInf s2 => Bool.eqb s1 s2
  | NNan, NNan => true
  | _, _ => false
  end.

Definition str_eqb (a b : str) : bool := bool_decide (a = b).

(** [a == b] for the hashable values ([None], numbers and strings); a
    [list] or a [dict] never gets into a set. *)
Definition hash_eq (a b : json) : bool :=
  match a, b with
  | JNull, JNull => true
  | JStr s, JStr t => str_eqb s t
  | _, _ =>
      match num_of a, num_of b with
      | Some x, Some y => num_eqb x y
      | _, _ => false
      end
  end.

Definition hashable (v : json) : bool :=
  match v with
  | JList _ | JDict _ => false
  | _ => true
  end.

(** [value == 'literal'] for a string literal on the right. *)
Definition eq_str (v : json) (s : str) : bool :=
  match v with
  | JStr t => str_eqb t s
  | _ => false
  end.

(** Truth value of a decoded value, as [if] tests it. *)
Definition truthy (v : json) : bool :=
  match v with
  | JNull => false
  | JBool b => b
  | JInt n => negb (n =? 0)
  | JFloat (S754_zero _) => false
  | JFloat _ => true
  | JStr s => negb (bool_decide (s = []))
  | JList l => negb (bool_decide (l = []))
  | JDict d => negb (bool_decide (d = ∅))
  end.

(** *** Containers *)

Fixpoint starts_with (p s : str) : bool :=
  match p, s with
  | [], _ => true
  | _ :: _, [] => false
  | a :: p', b :: s' => (a =? b)%N && starts_with p' s'
  end.

(** [p in s] for two strings: [p] occurs in [s] as a substring. *)
Fixpoint substring (p s : str) : bool :=
  starts_with p s ||
  match s with
  | [] => false
  | _ :: s' => substring p s'
  end.

(** ['key' in v]. *)
Definition contains (key : str) (v : json) : result bool :=
  match v with
  | JDict d => Ok (bool_decide (is_Some (d !! key)))
  | JList l => Ok (existsb (fun x => eq_str x key) l)
  | JStr s => Ok (substring key s)
  | _ => Raise (TypeError v)
  end.

(** [v['key']]. *)
Definition getitem (v : json) (key : str) : result json :=
  match v with
  | JDict d =>
      match d !! key with
      | Some x => Ok x
      | None => Raise (KeyError key)
      end
  | _ => Raise (TypeError v)
  end.

(** [v.get('key', default)]. *)
Definition dict_get (v : json) (key : str) (dflt : json) : result json :=
  match v with
  | JDict d => Ok (default dflt (d !! key))
  | _ => Raise (AttributeError v)
  end.

(** ** The aggregate state *)

(** One entry of [stats['failed_details']]. *)
Record failure := Failure {
  task : json;
  host : json;
  error : json
}.

(** [self.stats].  [hosts] is a Python [set], kept here as the list of its
    elements in the order they were first added. *)
Record stats := Stats {
  total_tasks : Z;
  changed_tasks : Z;
  failed_tasks : Z;
  skipped_tasks : Z;
  ok_tasks : Z;
  execution_time : Z;
  hosts : list json;
  failed_details : list failure
}.

(** [__init__]. *)
Definition init_stats : stats :=
  {| total_tasks := 0; changed_tasks := 0; failed_tasks := 0;
     skipped_tasks := 0; ok_tasks := 0; execution_time := 0;
     hosts := []; failed_details := [] |}.

(** *** State and exceptions

    A method body either returns or raises, and in both cases leaves behind
    the [stats] it has mutated so far. *)
Definition M (A : Type) : Type := stats -> result A * stats.

Definition ret {A} (a : A) : M A := fun s => (Ok a, s).

Definition bind {A B} (c : M A) (k : A -> M B) : M B :=
  fun s =>
    match c s with
    | (Ok a, s') => k a s'
    | (Raise e, s') => (Raise e, s')
    end.

Definition lift {A} (r : result A) : M A := fun s => (r, s).

Definition modify (f : stats -> stats) : M unit := fun s => (Ok tt, f s).

Notation "x <- c ;; k" := (bind c (fun x => k))
  (at level 63, c at next level, right associativity).
Notation "c ;;; k" := (bind c (fun _ => k))
  (at level 63, right associativity).

(** [stats[field] += 1] for each counter. *)
Definition incr_total (s : stats) : stats :=
  Stats (total_tasks s + 1) (changed_tasks s) (failed_tasks s)
        (skipped_tasks s) (ok_tasks s) (execution_time s)
        (hosts s) (failed_details s).
Definition incr_changed (s : stats) : stats :=
  Stats (total_tasks s) (changed_tasks s + 1) (failed_tasks s)
        (skipped_tasks s) (ok_tasks s) (execution_time s)
        (hosts s) (failed_details s).
Definition incr_failed (s : stats) : stats :=
  Stats (total_tasks s) (changed_tasks s) (failed_tasks s + 1)
        (skipped_tasks s) (ok_tasks s) (execution_time s)
        (hosts s) (failed_details s).
Definition incr_skipped (s : stats) : stats :=
  Stats (total_tasks s) (changed_tasks s) (failed_tasks s)
        (skipped_tasks s + 1) (ok_tasks s) (execution_time s)
        (hosts s) (failed_details s).
Definition incr_ok (s : stats) : stats :=
  Stats (total_tasks s) (changed_tasks s) (failed_tasks s)
        (skipped_tasks s) (ok_tasks s + 1) (execution_time s)
        (hosts s) (failed_details s).

(** [set.add]: nothing changes when an equal element is already there. *)
Definition set_add (v : json) (l : list json) : list json :=
  if existsb (hash_eq v) l then l else l ++ [v].

(** [stats['hosts'].add(v)]; an unhashable [v] raises [TypeError]. *)
Definition hosts_add (v : json) : M unit :=
  if hashable v then
    modify (fun s =>
      Stats (total_tasks s) (changed_tasks s) (failed_tasks s)
            (skipped_tasks s) (ok_tasks s) (execution_time s)
            (set_add v (hosts s)) (failed_details s))
  else lift (Raise (TypeError v)).

(** [stats['failed_details'].append(f)]. *)
Definition failed_details_append (f : failure) : M unit :=
  modify (fun s =>
    Stats (total_tasks s) (changed_tasks s) (failed_tasks s)
          (skipped_tasks s) (ok_tasks s) (execution_time s)
          (hosts s) (failed_details s ++ [f])).

(** ** The aggregator *)

Definition event_data_key : str := lit "event_data".
Definition remote_addr_key : str := lit "remote_addr".
Definition event_key : str := lit "event".
Definition changed_key : str := lit "changed".
Definition task_key : str := lit "task".
Definition msg_key : str := lit "msg".
Definition runner_on_ok : str := lit "runner_on_ok".
Definition runner_on_failed : str := lit "runner_on_failed".
Definition runner_on_skipped : str := lit "runner_on_skipped".
Definition Unknown : json := JStr (lit "Unknown").
Definition No_error_message : json := JStr (lit "No error message").

(** [AnsibleLogAnalyzer._process_entry]. *)
Definition _process_entry (entry : json) : M unit :=
  has_event_data <- lift (contains event_data_key entry) ;;
  if negb has_event_data then ret tt
  else
    event_data <- lift (getitem entry event_data_key) ;;
    has_remote_addr <- lift (contains remote_addr_key event_data) ;;
    (if has_remote_addr then
       addr <- lift (getitem event_data remote_addr_key) ;;
       hosts_add addr
     else ret tt) ;;;
    event <- lift (dict_get entry event_key JNull) ;;
    if eq_str event runner_on_ok then
      modify incr_total ;;;
      modify incr_ok ;;;
      changed <- lift (dict_get event_data changed_key (JBool false)) ;;
      if truthy changed then modify incr_changed else ret tt
    else if eq_str event runner_on_failed then
      modify incr_total ;;;
      modify incr_failed ;;;
      t <- lift (dict_get event_data task_key Unknown) ;;
      h <- lift (dict_get event_data remote_addr_key Unknown) ;;
      e <- lift (dict_get event_data msg_key No_error_message) ;;
      failed_details_append (Failure t h e)
    else if eq_str event runner_on_skipped then
      modify incr_skipped
    else ret tt.

(** The aggregator run over a sequence of decoded records, stopping at the
    first one that raises. *)
Fixpoint process_all (entries : list json) : M unit :=
  match entries with
  | [] => ret tt
  | entry :: rest => _process_entry entry ;;; process_all rest
  end.

(** A [dict] written out as its items. *)
Definition obj (kvs : list (str * json)) : json := JDict (list_to_map kvs).

(** ** The loader *)

(** [str.isspace] for one code point: the characters [str.strip()]
    removes. *)
Definition isspace (c : N) : bool :=
  ((9 <=? c) && (c <=? 13) || (28 <=? c) && (c <=? 32) ||
   (c =? 133) || (c =? 160) || (c =? 5760) ||
   (8192 <=? c) && (c <=? 8202) ||
   (c =? 8232) || (c =? 8233) || (c =? 8239) || (c =? 8287) ||
   (c =? 12288))%N.

Fixpoint lstrip (s : str) : str :=
  match s with
  | [] => []
  | c :: s' => if isspace c then lstrip s' else s
  end.

Definition rstrip (s : str) : str := rev (lstrip (rev s)).

(** [s.strip()]. *)
Definition strip (s : str) : str := rstrip (lstrip s).

(** What [json.loads] does with a text: a value, a [JSONDecodeError], or
    some other exception. *)
Inductive decoded :=
  | Decoded (v : json)
  | JSONDecodeError
  | DecodeRaises (e : exn).

(** What is found at the path: nothing ([os.path.exists] is false), a file
    that [open] refuses, or a file whose iteration yields [lines] and then
    either ends or raises. *)
Inductive file :=
  | Missing
  | Unopenable (e : exn)
  | Content (lines : list str) (failure : option exn).

Definition concat_str (l : list str) : str := List.concat l.

(** [str(n)] for an [int]. *)
Definition str_of_int (n : Z) : str :=
  lit (NilZero.string_of_int (Z.to_int n)).

(** ["c" * n]. *)
Definition repeat_str (c : str) (n : nat) : str :=
  concat_str (repeat c n).

(** ** Floating point (binary64) *)

Definition prec : Z := 53.
Definition emax : Z := 1024.

(** [a / b] for two [int]s: the correctly rounded quotient;
    [ZeroDivisionError] for [b == 0], [OverflowError] when the quotient is
    too large for a [float]. *)
Definition int_as_float (n : Z) : spec_float :=
  match n with
  | Z0 => S754_zero false
  | Zpos p => S754_finite false p 0
  | Zneg p => S754_finite true p 0
  end.

Definition true_div (a b : Z) : result spec_float :=
  if b =? 0 then Raise ZeroDivisionError
  else if a =? 0 then Ok (S754_zero (b <? 0))
  else
    match SFdiv prec emax (int_as_float a) (int_as_float b) with
    | S754_infinity _ => Raise OverflowError
    | q => Ok q
    end.

(** [x * n] for a [float] and a small [int]. *)
Definition float_mul_int (x : spec_float) (n : Z) : spec_float :=
  SFmul prec emax x (binary_normalize prec emax n 0 false).

(** [m * 2^e * 10] rounded to the nearest integer, ties to even. *)
Definition round_tenths (m : positive) (e : Z) : Z :=
  let n := Z.pos m * 10 in
  if 0 <=? e then n * 2 ^ e
  else
    let d := 2 ^ (- e) in
    let q := n / d in
    let r := n mod d in
    match 2 * r ?= d with
    | Lt => q
    | Gt => q + 1
    | Eq => if Z.even q then q else q + 1
    end.

(** [f"{x:.1f}"]. *)
Definition fmt_1f (x : spec_float) : str :=
  match x with
  | S754_nan => lit "nan"
  | S754_infinity s => if s then lit "-inf" else lit "inf"
  | S754_zero s => if s then lit "-0.0" else lit "0.0"
  | S754_finite s m e =>
      let k := round_tenths m e in
      (if s then lit "-" else []) ++
      str_of_int (k / 10) ++ lit "." ++ str_of_int (k mod 10)
  end.

(** [(ok / total) * 100], as [generate_report] computes it. *)
Definition success_rate (ok total : Z) : result spec_float :=
  match true_div ok total with
  | Ok q => Ok (float_mul_int q 100)
  | Raise e => Raise e
  end.

(** ** Loader, reporter and entry point

    [json.loads], the text that an exception or a decoded value prints as,
    the clock and the encoder of standard output belong to the Python
    runtime: they are parameters here. *)
Section Analyzer.

(** [json.loads]. *)
Variable loads : str -> decoded.
(** [str(e)] for an exception [e]. *)
Variable exn_str : exn -> str.
(** [str(v)] for a decoded value [v], as an f-string inserts it. *)
Variable py_str : json -> str.
(** [datetime.now().strftime('%Y-%m-%d %H:%M:%S')]. *)
Variable now : str.
(** Whether the encoder of [sys.stdout] takes a text.  The encoding and
    its error handler come from the locale and the environment; under
    UTF-8 with the default handler every text that holds a surrogate
    code point is refused. *)
Variable encodes : str -> bool.

(** [print(text)] for each of the texts in turn: what reaches standard
    output, and the exception of the first text that the encoder
    refuses, after which nothing more is printed. *)
Fixpoint print_all (texts : list str) : list str * option exn :=
  match texts with
  | [] => ([], None)
  | text :: rest =>
      if encodes text then
        let (out, failure) := print_all rest in (text :: out, failure)
      else ([], Some (UnicodeEncodeError text))
  end.

(** The body of [for line in f] in [parse_log], over the lines the file
    yields: a line that does not decode is skipped, one that decodes goes
    to [_process_entry], any other exception leaves the loop. *)
Fixpoint read_lines (lines : list str) : M unit :=
  match lines with
  | [] => ret tt
  | line :: rest =>
      match loads (strip line) with
      | Decoded log_entry => _process_entry log_entry ;;; read_lines rest
      | JSONDecodeError => read_lines rest
      | DecodeRaises e => lift (Raise e)
      end
  end.

(** The [with open(...)] block: the loop, then the end of the file or
    the exception that the iteration ends with. *)
Definition read_file (lines : list str) (failure : option exn) : M unit :=
  read_lines lines ;;;
  match failure with
  | None => ret tt
  | Some e => lift (Raise e)
  end.

(** [AnsibleLogAnalyzer.parse_log]: the returned flag or the exception
    that ended the method, what was printed, and the statistics left
    behind.  The message for a missing file holds the path as it was
    given, and its [print], outside the [try], can raise.  The message
    of the handler holds [str(e)] for an exception raised by the
    interpreter or by [json]: a text of the interpreter's own, in which
    a file name is quoted with what could not be decoded escaped; its
    [print] is taken to succeed. *)
Definition parse_log (log_file : str) (f : file) (s : stats)
  : result bool * list str * stats :=
  match f with
  | Missing =>
      match print_all
              [lit "Error: Log file " ++ log_file ++ lit " not found"] with
      | (out, None) => (Ok false, out, s)
      | (out, Some e) => (Raise e, out, s)
      end
  | Unopenable e =>
      (Ok false, [lit "Error reading log file: " ++ exn_str e], s)
  | Content lines failure =>
      match read_file lines failure s with
      | (Ok _, s') => (Ok true, [], s')
      | (Raise e, s') =>
          (Ok false, [lit "Error reading log file: " ++ exn_str e], s')
      end
  end.

(** The lines printed for one entry of [failed_details]. *)
Definition failure_lines (f : failure) : list str :=
  [ lit "Task: " ++ py_str (task f);
    lit "Host: " ++ py_str (host f);
    lit "Error: " ++ py_str (error f);
    [] ].

Definition report_header (log_file : str) : list str :=
  [ lit "ANSIBLE EXECUTION REPORT";
    repeat_str (lit "=") 50;
    lit "Timestamp: " ++ now;
    lit "Log file: " ++ log_file;
    [] ].

Definition report_statistics (s : stats) : list str :=
  [ lit "EXECUTION STATISTICS:";
    repeat_str (lit "-") 30;
    lit "Total tasks: " ++ str_of_int (total_tasks s);
    lit "Successful tasks: " ++ str_of_int (ok_tasks s);
    lit "Changed tasks: " ++ str_of_int (changed_tasks s);
    lit "Failed tasks: " ++ str_of_int (failed_tasks s);
    lit "Skipped tasks: " ++ str_of_int (skipped_tasks s);
    lit "Managed hosts: " ++ str_of_int (Z.of_nat (length (hosts s)));
    [] ].

Definition report_failures (s : stats) : list str :=
  if 0 <? failed_tasks s then
    [ lit "FAILED TASKS DETAILS:"; repeat_str (lit "-") 30 ] ++
    List.concat (map failure_lines (failed_details s))
  else [].

(** The texts that [generate_report] sets out to print, in order. *)
Definition report_texts (log_file : str) (s : stats) : list str :=
  report_header log_file ++ report_statistics s ++ report_failures s ++
  (if 0 <? total_tasks s then
     match success_rate (ok_tasks s) (total_tasks s) with
     | Ok rate => [lit "Success rate: " ++ fmt_1f rate ++ lit "%"]
     | Raise _ => []
     end
   else []).

(** [AnsibleLogAnalyzer.generate_report]: what was printed, and the
    returned flag or the exception that ended the method: that of a
    [print] whose text the encoder refused, or that of the division. *)
Definition generate_report (log_file : str) (s : stats)
  : list str * result bool :=
  match print_all (report_header log_file ++ report_statistics s ++
                   report_failures s) with
  | (out, Some e) => (out, Raise e)
  | (out, None) =>
      if 0 <? total_tasks s then
        match success_rate (ok_tasks s) (total_tasks s) with
        | Ok rate =>
            match print_all
                    [lit "Success rate: " ++ fmt_1f rate ++ lit "%"] with
            | (out', Some e) => (out ++ out', Raise e)
            | (out', None) => (out ++ out', Ok (failed_tasks s =? 0))
            end
        | Raise e => (out, Raise e)
        end
      else (out, Ok (failed_tasks s =? 0))
  end.

(** The analyzer on the file found at [log_file]: standard output and
    exit status.  An exception that nothing catches ends the process
    with status 1 (its traceback goes to standard error). *)
Definition run (log_file : str) (f : file) : list str * Z :=
  match parse_log log_file f init_stats with
  | (Ok true, out, s) =>
      match generate_report log_file s with
      | (out', Ok success) => (out ++ out', if success then 0 else 1)
      | (out', Raise _) => (out ++ out', 1)
      end
  | (Ok false, out, _) => (out, 1)
  | (Raise _, out, _) => (out, 1)
  end.


End Analyzer.

(** ** Vocabulary of the properties *)

(** A record that carries [event_data] and whose [event] is [kind]. *)
Definition is_event (kind : str) (entry : json) : bool :=
  match entry with
  | JDict d =>
      bool_decide (is_Some (d !! event_data_key)) &&
      eq_str (default JNull (d !! event_key)) kind
  | _ => false
  end.

Fixpoint count_events (kind : str) (entries : list json) : Z :=
  match entries with
  | [] => 0
  | entry :: rest =>
      (if is_event kind entry then 1 else 0) + count_events kind rest
  end.

(** The [remote_addr] inside the [event_data] of a record, if any. *)
Definition remote_addr_of (entry : json) : option json :=
  match entry with
  | JDict d =>
      match d !! event_data_key with
      | Some (JDict event_data) => event_data !! remote_addr_key
      | _ => None
      end
  | _ => None
  end.

Definition remote_addrs (entries : list json) : list json :=
  omap remote_addr_of entries.

(** The number of distinct values in a list: an element counts when no
    equal one follows it. *)
Fixpoint count_distinct (l : list json) : nat :=
  match l with
  | [] => 0
  | x :: l' => (if existsb (hash_eq x) l' then 0 else 1) + count_distinct l'
  end.

(** The counters are consistent. *)
Definition counters_ok (s : stats) : Prop :=
  total_tasks s = ok_tasks s + failed_tasks s /\
  0 <= changed_tasks s <= ok_tasks s /\
  0 <= failed_tasks s /\ 0 <= skipped_tasks s.

(** The entry that a [runner_on_failed] record with this [event_data]
    adds to [failed_details]. *)
Definition failure_of (event_data : gmap str json) : failure :=
  {| task := default Unknown (event_data !! task_key);
     host := default Unknown (event_data !! remote_addr_key);
     error := default No_error_message (event_data !! msg_key) |}.

(** The [event_data] of a record, when it is a [dict]. *)
Definition event_data_of (entry : json) : option (gmap str json) :=
  match entry with
  | JDict d =>
      match d !! event_data_key with
      | Some (JDict event_data) => Some event_data
      | _ => None
      end
  | _ => None
  end.

(** The failure entries that a sequence of records describes, in order. *)
Fixpoint failures_of (entries : list json) : list failure :=
  match entries with
  | [] => []
  | entry :: rest =>
      match event_data_of entry with
      | Some event_data =>
          if is_event runner_on_failed entry
          then failure_of event_data :: failures_of rest
          else failures_of rest
      | None => failures_of rest
      end
  end.

(** A record of the shape the log format describes: a [dict] whose
    [event_data], when present, is a [dict] whose [remote_addr], when
    present, is hashable. *)
Definition log_record (entry : json) : bool :=
  match entry with
  | JDict d =>
      match d !! event_data_key with
      | None => true
      | Some (JDict event_data) =>
          match event_data !! remote_addr_key with
          | None => true
          | Some addr => hashable addr
          end
      | Some _ => false
      end
  | _ => false
  end.

(** [hosts] after adding the values of [addrs] one by one. *)
Definition add_all (addrs : list json) (h : list json) : list json :=
  fold_left (fun h a => set_add a h) addrs h.

(** In a set no element equals an earlier one. *)
Fixpoint distinct (h : list json) : Prop :=
  match h with
  | [] => True
  | x :: h' => existsb (hash_eq x) h' = false /\ distinct h'
  end.

(** A text with no whitespace at either end. *)
Definition trimmed (s : str) : bool :=
  match s with
  | [] => true
  | c :: _ => negb (isspace c)
  end &&
  match rev s with
  | [] => true
  | c :: _ => negb (isspace c)
  end.

(** The values of the lines that decode, in order. *)
Definition decoded_records (loads : str -> decoded) (lines : list str)
  : list json :=
  omap (fun line => match loads (strip line) with
                    | Decoded v => Some v
                    | _ => None
                    end) lines.

(** A printed line that begins like the success-rate line. *)
Definition is_rate_line (line : str) : bool :=
  starts_with (lit "Success rate: ") line.


(** A surrogate code point. *)
Definition is_surrogate (c : N) : bool := ((55296 <=? c) && (c <=? 57343))%N.

(** What UTF-8 with the [strict] error handler encodes: every text
    without a surrogate. *)
Definition utf8_strict (s : str) : bool :=
  forallb (fun c => negb (is_surrogate c)) s.

(** ** A sample log

    The three-line log of the documentation, a line holding the number 5,
    and stand-ins for the runtime: a decoder that knows these lines and
    fails on every other text. *)

Definition quoted (s : string) : str := [34%N] ++ lit s ++ [34%N].
Arguments quoted s%_string.

Definition sample_ok_line : str :=
  lit "{" ++ quoted "event" ++ lit ":" ++ quoted "runner_on_ok" ++ lit "," ++
  quoted "event_data" ++ lit ":{" ++ quoted "remote_addr" ++ lit ":" ++
  quoted "10.0.0.1" ++ lit "," ++ quoted "changed" ++ lit ":true}}".

Definition sample_failed_line : str :=
  lit "{" ++ quoted "event" ++ lit ":" ++ quoted "runner_on_failed" ++
  lit "," ++ quoted "event_data" ++ lit ":{" ++ quoted "remote_addr" ++
  lit ":" ++ quoted "10.0.0.2" ++ lit "," ++ quoted "task" ++ lit ":" ++
  quoted "install pkg" ++ lit "," ++ quoted "msg" ++ lit ":" ++
  quoted "timeout" ++ lit "}}".

Definition sample_ok : json :=
  obj [(event_key, JStr runner_on_ok);
       (event_data_key, obj [(remote_addr_key, JStr (lit "10.0.0.1"));
                             (changed_key, JBool true)])].

Definition sample_failed_data : gmap str json :=
  list_to_map [(remote_addr_key, JStr (lit "10.0.0.2"));
               (task_key, JStr (lit "install pkg"));
               (msg_key, JStr (lit "timeout"))].

Definition sample_failed : json :=
  obj [(event_key, JStr runner_on_failed);
       (event_data_key, JDict sample_failed_data)].

Definition sample_skipped : json :=
  obj [(event_key, JStr runner_on_skipped);
       (event_data_key, obj [(changed_key, JBool true)])].

Definition sample_loads (text : str) : decoded :=
  if str_eqb text sample_ok_line then Decoded sample_ok
  else if str_eqb text sample_failed_line then Decoded sample_failed
  else if str_eqb text (lit "5") then Decoded (JInt 5)
  else JSONDecodeError.

Definition sample_exn_str (e : exn) : str :=
  match e with
  | TypeError _ => lit "TypeError"
  | AttributeError _ => lit "AttributeError"
  | KeyError k => k
  | ZeroDivisionError => lit "division by zero"
  | OverflowError => lit "integer division result too large for a float"
  | UnicodeEncodeError _ => lit "surrogates not allowed"
  | OtherError msg => msg
  end.

Definition sample_py_str (v : json) : str :=
  match v with
  | JStr s => s
  | JNull => lit "None"
  | JBool true => lit "True"
  | JBool false => lit "False"
  | JInt n => str_of_int n
  | _ => lit "..."
  end.

Definition sample_now : str := lit "2024-01-01 00:00:00".

Definition newline : str := [10%N].

Definition sample_lines : list str :=
  [sample_ok_line ++ newline; sample_failed_line ++ newline;
   lit "not json" ++ newline].

(** The statistics that the sample log leaves behind. *)
Definition sample_stats : stats :=
  {| total_tasks := 2; changed_tasks := 1; failed_tasks := 1;
     skipped_tasks := 0; ok_tasks := 1; execution_time := 0;
     hosts := [JStr (lit "10.0.0.1"); JStr (lit "10.0.0.2")];
     failed_details := [failure_of sample_failed_data] |}.

(** ** Vocabulary of the further properties *)

(** A [runner_on_ok] record whose [event_data] is a [dict] with a true
    [changed]. *)
Definition is_changed (entry : json) : bool :=
  is_event runner_on_ok entry &&
  match event_data_of entry with
  | Some event_data =>
      truthy (default (JBool false) (event_data !! changed_key))
  | None => false
  end.

(** The number of records that satisfy [p]. *)
Fixpoint count_where (p : json -> bool) (entries : list json) : Z :=
  match entries with
  | [] => 0
  | entry :: rest => (if p entry then 1 else 0) + count_where p rest
  end.

(** The statistics [s'] hold everything that [s] holds: no counter is
    lower, [hosts] and [failed_details] begin with the old ones, and
    [execution_time] is the same. *)
Definition grows (s s' : stats) : Prop :=
  total_tasks s <= total_tasks s' /\
  changed_tasks s <= changed_tasks s' /\
  failed_tasks s <= failed_tasks s' /\
  skipped_tasks s <= skipped_tasks s' /\
  ok_tasks s <= ok_tasks s' /\
  execution_time s' = execution_time s /\
  hosts s `prefix_of` hosts s' /\
  failed_details s `prefix_of` failed_details s'.

(** The printed line that opens the list of failures. *)
Definition is_failures_heading (line : str) : bool :=
  starts_with (lit "FAILED TASKS DETAILS:") line.



(** The float 100.0. *)
Definition hundred : spec_float := S754_finite false 7036874417766400 (-46).

(** A line that carries no event data: its text does not decode, or it
    decodes to a value in which ['event_data'] does not occur. *)
Definition without_event_data (loads : str -> decoded) (line : str) : bool :=
  match loads (strip line) with
  | JSONDecodeError => true
  | Decoded v =>
      match contains event_data_key v with
      | Ok false => true
      | _ => false
      end
  | DecodeRaises _ => false
  end.

(** ** Further sample records *)

(** A record of an event that is not counted. *)
Definition sample_unreachable : json :=
  obj [(event_key, JStr (lit "runner_on_unreachable"));
       (event_data_key, obj [(remote_addr_key, JStr (lit "10.0.0.3"))])].

(** The members of a failed record whose [event_data] is a text. *)
Definition sample_text_data : gmap str json :=
  list_to_map [(event_key, JStr runner_on_failed);
               (event_data_key, JStr (lit "none"))].

(** The members of a successful record whose [changed] is the text
    ["false"]. *)
Definition sample_changed_text : gmap str json :=
  list_to_map [(changed_key, JStr (lit "false"))].

Definition sample_ok_text : gmap str json :=
  list_to_map [(event_key, JStr runner_on_ok);
               (event_data_key, JDict sample_changed_text)].

(** A decoder that gives up on every text with an error of its own. *)
Definition sample_failing_loads (text : str) : decoded :=
  DecodeRaises (OtherError (lit "maximum recursion depth exceeded")).

(** A record whose [remote_addr] is an array. *)
Definition sample_list_addr : json :=
  obj [(event_key, JStr runner_on_ok);
       (event_data_key,
        obj [(remote_addr_key, JList [JStr (lit "10.0.0.1")])])].

(** A failed record whose message is a lone surrogate, as [json.loads]
    decodes the escape [\ud800]. *)
Definition sample_surrogate_data : gmap str json :=
  list_to_map [(task_key, JStr (lit "install pkg"));
               (msg_key, JStr [55296%N])].

Definition sample_surrogate : json :=
  obj [(event_key, JStr runner_on_failed);
       (event_data_key, JDict sample_surrogate_data)].

Definition sample_text_line : str :=
  lit "{" ++ quoted "event" ++ lit ":" ++ quoted "runner_on_failed" ++
  lit "," ++ quoted "event_data" ++ lit ":" ++ quoted "none" ++ lit "}".

Definition sample_list_addr_line : str :=
  lit "{" ++ quoted "event" ++ lit ":" ++ quoted "runner_on_ok" ++ lit "," ++
  quoted "event_data" ++ lit ":{" ++ quoted "remote_addr" ++ lit ":[" ++
  quoted "10.0.0.1" ++ lit "]}}".

Definition sample_surrogate_line : str :=
  lit "{" ++ quoted "event" ++ lit ":" ++ quoted "runner_on_failed" ++
  lit "," ++ quoted "event_data" ++ lit ":{" ++ quoted "task" ++ lit ":" ++
  quoted "install pkg" ++ lit "," ++ quoted "msg" ++ lit ":" ++
  quoted "\ud800" ++ lit "}}".

(** The sample decoder, knowing these lines too. *)
Definition sample_loads_more (text : str) : decoded :=
  if str_eqb text sample_text_line then Decoded (JDict sample_text_data)
  else if str_eqb text sample_list_addr_line then Decoded sample_list_addr
  else if str_eqb text sample_surrogate_line then Decoded sample_surrogate
  else sample_loads text.


(** * Properties *)

(** ** The aggregator *)

Ltac unfold_step :=
  unfold _process_entry, hosts_add, failed_details_append, bind, lift, ret,
    modify, contains, getitem, dict_get in *.

Ltac step_cases :=
  unfold_step; simpl in *;
  repeat (case_match; simplify_eq; simpl in * ); simplify_eq; simpl in *.

Ltac step_done :=
  repeat match goal with
  | H : context [bool_decide ?P] |- _ => destruct (bool_decide P); simpl in *
  end;
  try discriminate; try lia.

Lemma eq_str_true v s : eq_str v s = true -> v = JStr s.
Proof.
  destruct v; simpl; try discriminate.
  unfold str_eqb. intros H. apply bool_decide_eq_true in H. congruence.
Qed.

(** The three event names are different strings. *)
Lemma event_kinds_distinct v :
  (eq_str v runner_on_ok = true ->
     eq_str v runner_on_failed = false /\ eq_str v runner_on_skipped = false) /\
  (eq_str v runner_on_failed = true ->
     eq_str v runner_on_ok = false /\ eq_str v runner_on_skipped = false) /\
  (eq_str v runner_on_skipped = true ->
     eq_str v runner_on_ok = false /\ eq_str v runner_on_failed = false).
Proof.
  split; [|split]; intros H; apply eq_str_true in H; subst v; split; reflexivity.
Qed.

(** Whatever a step does, and whether it returns or raises, it keeps the
    counters consistent. *)
Lemma process_entry_counters entry s :
  counters_ok s -> counters_ok (snd (_process_entry entry s)).
Proof.
  unfold counters_ok. intros H. step_cases; lia.
Qed.

Lemma process_all_cons entry rest s :
  process_all (entry :: rest) s =
  match _process_entry entry s with
  | (Ok _, s') => process_all rest s'
  | (Raise e, s') => (Raise e, s')
  end.
Proof. reflexivity. Qed.

Lemma process_all_counters entries : forall s,
  counters_ok s -> counters_ok (snd (process_all entries s)).
Proof.
  induction entries as [|entry rest IH]; intros s Hs; [exact Hs|].
  rewrite process_all_cons.
  pose proof (process_entry_counters entry s Hs) as Hstep.
  destruct (_process_entry entry s) as [[[]|e] s']; simpl in *; auto.
Qed.

Lemma init_counters : counters_ok init_stats.
Proof. unfold counters_ok; simpl; lia. Qed.

(** The effect of a step that returns on the four task counters. *)
Lemma process_entry_counts entry s s' :
  _process_entry entry s = (Ok tt, s') ->
  ok_tasks s' = ok_tasks s + (if is_event runner_on_ok entry then 1 else 0) /\
  failed_tasks s' =
    failed_tasks s + (if is_event runner_on_failed entry then 1 else 0) /\
  skipped_tasks s' =
    skipped_tasks s + (if is_event runner_on_skipped entry then 1 else 0) /\
  total_tasks s' =
    total_tasks s + (if is_event runner_on_ok entry then 1 else 0)
                  + (if is_event runner_on_failed entry then 1 else 0).
Proof.
  intros H. unfold is_event.
  destruct entry as [| | | | |l|d];
    try (step_cases; lia).
  destruct (event_kinds_distinct (default JNull (d !! event_key)))
    as (Hok & Hfailed & Hskipped).
  unfold_step; simpl in H.
  set (ev := default JNull (d !! event_key)) in *.
  destruct (eq_str ev runner_on_ok) eqn:E1.
  { destruct (Hok eq_refl) as [-> ->]. clearbody ev. step_cases; step_done. }
  destruct (eq_str ev runner_on_failed) eqn:E2.
  { destruct (Hfailed eq_refl) as [_ ->]. clearbody ev. step_cases; step_done. }
  destruct (eq_str ev runner_on_skipped) eqn:E3; clearbody ev;
    step_cases; step_done.
Qed.

Lemma process_all_counts entries : forall s s',
  process_all entries s = (Ok tt, s') ->
  ok_tasks s' = ok_tasks s + count_events runner_on_ok entries /\
  failed_tasks s' = failed_tasks s + count_events runner_on_failed entries /\
  skipped_tasks s' = skipped_tasks s + count_events runner_on_skipped entries /\
  total_tasks s' =
    total_tasks s + count_events runner_on_ok entries
                  + count_events runner_on_failed entries.
Proof.
  induction entries as [|entry rest IH]; intros s s' H.
  - injection H as <-. simpl. lia.
  - rewrite process_all_cons in H.
    destruct (_process_entry entry s) as [[[]|e] s1] eqn:Hstep; [|discriminate].
    apply process_entry_counts in Hstep. apply IH in H. simpl. lia.
Qed.

(** A [runner_on_skipped] record leaves [total_tasks] alone, and a record
    that is not a [runner_on_ok] event leaves [changed_tasks] alone, even
    when the step raises. *)
Lemma process_entry_untouched entry s :
  (is_event runner_on_skipped entry = true ->
   total_tasks (snd (_process_entry entry s)) = total_tasks s) /\
  (is_event runner_on_ok entry = false ->
   changed_tasks (snd (_process_entry entry s)) = changed_tasks s).
Proof.
  unfold is_event.
  destruct entry as [| | | | |l|d]; try (split; intros _; step_cases; lia).
  destruct (event_kinds_distinct (default JNull (d !! event_key)))
    as (Hok & Hfailed & Hskipped).
  unfold_step; simpl.
  set (ev := default JNull (d !! event_key)) in *.
  split; intros H.
  - apply andb_true_iff in H as [_ H]. destruct (Hskipped H) as [-> ->].
    clearbody ev. step_cases; step_done.
  - destruct (eq_str ev runner_on_ok) eqn:E1; clearbody ev;
      step_cases; step_done.
Qed.

(** The effect of a step that returns on [failed_details]. *)
Lemma process_entry_details entry s s' :
  _process_entry entry s = (Ok tt, s') ->
  failed_details s' = failed_details s ++ failures_of [entry].
Proof.
  intros H. unfold failures_of, event_data_of, is_event, failure_of.
  destruct entry as [| | | | |l|d];
    try (step_cases; rewrite ?app_nil_r; reflexivity).
  destruct (event_kinds_distinct (default JNull (d !! event_key)))
    as (Hok & Hfailed & Hskipped).
  unfold_step; simpl in H.
  set (ev := default JNull (d !! event_key)) in *.
  destruct (eq_str ev runner_on_ok) eqn:E1.
  { destruct (Hok eq_refl) as [-> _]. clearbody ev.
    step_cases; rewrite ?andb_false_r, ?app_nil_r; reflexivity. }
  destruct (eq_str ev runner_on_failed) eqn:E2; clearbody ev;
    step_cases; rewrite ?andb_false_r, ?app_nil_r; try reflexivity.
  match goal with H : _ !! remote_addr_key = _ |- _ => rewrite H end.
  reflexivity.
Qed.

Lemma process_all_details entries : forall s s',
  process_all entries s = (Ok tt, s') ->
  failed_details s' = failed_details s ++ failures_of entries.
Proof.
  induction entries as [|entry rest IH]; intros s s' H.
  - injection H as <-. simpl. rewrite app_nil_r. reflexivity.
  - rewrite process_all_cons in H.
    destruct (_process_entry entry s) as [[[]|e] s1] eqn:Hstep; [|discriminate].
    apply process_entry_details in Hstep. apply IH in H.
    rewrite H, Hstep, <- app_assoc. f_equal.
    simpl. repeat case_match; reflexivity.
Qed.

Lemma process_all_failed_length entries : forall s s',
  process_all entries s = (Ok tt, s') ->
  failed_tasks s = Z.of_nat (length (failed_details s)) ->
  failed_tasks s' = Z.of_nat (length (failed_details s')).
Proof.
  induction entries as [|entry rest IH]; intros s s' H Hs.
  - injection H as <-. exact Hs.
  - rewrite process_all_cons in H.
    destruct (_process_entry entry s) as [[[]|e] s1] eqn:Hstep; [|discriminate].
    apply (IH s1 s' H).
    destruct (process_entry_counts _ _ _ Hstep) as (_ & Hf & _).
    rewrite Hf, (process_entry_details _ _ _ Hstep), length_app, Hs.
    clear - Hstep. unfold failures_of, event_data_of, is_event in *.
    destruct entry as [| | | | |l|d]; simpl; try lia.
    destruct (d !! event_data_key) as [[| | | | |l|ed]|] eqn:Hed;
      simpl; try lia.
    all: destruct (eq_str (default JNull (d !! event_key)) runner_on_failed)
      eqn:Hev; simpl; try lia.
    all: exfalso; apply eq_str_true in Hev; unfold_step; simpl in *;
      rewrite Hed in Hstep; simpl in Hstep; rewrite ?Hev in Hstep;
      simpl in *; step_cases.
Qed.

(** On a record of the documented shape the step returns. *)
Lemma process_entry_returns entry s :
  log_record entry = true -> fst (_process_entry entry s) = Ok tt.
Proof.
  unfold log_record. intros H.
  destruct entry as [| | | | |l|d]; try discriminate.
  unfold_step; simpl.
  destruct (d !! event_data_key) as [[| | | | |l|ed]|] eqn:Hed;
    try discriminate; simpl; [|reflexivity].
  destruct (ed !! remote_addr_key) as [addr|] eqn:Haddr; simpl.
  - rewrite H. simpl. repeat (case_match; simpl); reflexivity.
  - repeat (case_match; simpl); reflexivity.
Qed.

Lemma process_all_returns entries : forall s,
  forallb log_record entries = true -> fst (process_all entries s) = Ok tt.
Proof.
  induction entries as [|entry rest IH]; intros s H; [reflexivity|].
  simpl in H. apply andb_true_iff in H as [He Hr].
  rewrite process_all_cons.
  pose proof (process_entry_returns entry s He) as Hstep.
  destruct (_process_entry entry s) as [[[]|e] s1]; [|discriminate].
  apply IH, Hr.
Qed.

(** ** Equality of hashable values *)

(** Two finite numbers are equal at one common exponent exactly when they
    are equal at any smaller one. *)
Lemma fin_eq_shift m1 e1 m2 e2 k k' :
  k <= k' -> k' <= e1 -> k' <= e2 ->
  (m1 * 2 ^ (e1 - k) = m2 * 2 ^ (e2 - k) <->
   m1 * 2 ^ (e1 - k') = m2 * 2 ^ (e2 - k')).
Proof.
  intros Hk H1 H2.
  replace (e1 - k) with ((e1 - k') + (k' - k)) by lia.
  replace (e2 - k) with ((e2 - k') + (k' - k)) by lia.
  rewrite !Z.pow_add_r by lia.
  assert (0 < 2 ^ (k' - k)) by (apply Z.pow_pos_nonneg; lia).
  split; intros H0; nia.
Qed.

Lemma num_eqb_refl x : num_eqb x x = true.
Proof.
  destruct x as [m e|s|]; simpl; auto.
  - apply Z.eqb_refl.
  - destruct s; reflexivity.
Qed.

Lemma num_eqb_sym x y : num_eqb x y = num_eqb y x.
Proof.
  destruct x as [m1 e1|s1|], y as [m2 e2|s2|]; simpl; auto.
  - rewrite (Z.min_comm e2 e1). apply Z.eqb_sym.
  - destruct s1, s2; reflexivity.
Qed.

Lemma num_eqb_trans x y z :
  num_eqb x y = true -> num_eqb y z = true -> num_eqb x z = true.
Proof.
  destruct x as [m1 e1|s1|], y as [m2 e2|s2|], z as [m3 e3|s3|];
    simpl; try discriminate; auto.
  - rewrite !Z.eqb_eq. intros H12 H23.
    set (k := Z.min e1 (Z.min e2 e3)).
    apply (fin_eq_shift m1 e1 m2 e2 k) in H12; [|lia..].
    apply (fin_eq_shift m2 e2 m3 e3 k) in H23; [|lia..].
    apply (fin_eq_shift m1 e1 m3 e3 k); [lia..|]. congruence.
  - destruct s1, s2, s3; simpl; auto.
Qed.

(** Equal values are of the same sort: both [None], the same string, or
    two numbers of the same value. *)
Lemma hash_eq_cases a b :
  hash_eq a b = true ->
  (a = JNull /\ b = JNull) \/
  (exists s, a = JStr s /\ b = JStr s) \/
  (exists x y, num_of a = Some x /\ num_of b = Some y /\ num_eqb x y = true).
Proof.
  destruct a, b; simpl; try discriminate; intros H;
    try (right; right; eauto; fail); auto.
  right; left. apply bool_decide_eq_true in H. subst. eauto.
Qed.

Lemma hash_eq_refl a : hashable a = true -> hash_eq a a = true.
Proof.
  destruct a as [|b|n|f|s|l|d]; try discriminate; intros _.
  - reflexivity.
  - apply (num_eqb_refl (NFin (if b then 1 else 0) 0)).
  - apply (num_eqb_refl (NFin n 0)).
  - apply (num_eqb_refl (num_of_float f)).
  - apply bool_decide_eq_true. reflexivity.
Qed.

Lemma hash_eq_sym a b : hash_eq a b = hash_eq b a.
Proof.
  destruct a as [|b1|n1|f1|s1|l1|d1], b as [|b2|n2|f2|s2|l2|d2];
    try reflexivity;
    try (unfold hash_eq, num_of; apply num_eqb_sym).
  unfold hash_eq, str_eqb. apply bool_decide_ext. split; congruence.
Qed.

Lemma hash_eq_trans a b c :
  hash_eq a b = true -> hash_eq b c = true -> hash_eq a c = true.
Proof.
  intros Hab Hbc.
  destruct (hash_eq_cases _ _ Hab) as [[-> ->]|[(s & -> & ->)|(x & y & Hx & Hy & Hxy)]];
    auto.
  destruct (hash_eq_cases _ _ Hbc) as [[-> ->]|[(s & -> & ->)|(y' & z & Hy' & Hz & Hyz)]];
    try discriminate.
  assert (y' = y) by congruence. subst y'.
  pose proof (num_eqb_trans _ _ _ Hxy Hyz) as Hxz.
  destruct a, c; simpl in *; try discriminate;
    inversion Hx; inversion Hz; subst; exact Hxz.
Qed.

(** ** The host set *)

Lemma existsb_hash_eq_app x l1 l2 :
  existsb (hash_eq x) (l1 ++ l2) =
  existsb (hash_eq x) l1 || existsb (hash_eq x) l2.
Proof. apply existsb_app. Qed.

Lemma distinct_snoc h x :
  distinct h -> existsb (hash_eq x) h = false -> distinct (h ++ [x]).
Proof.
  induction h as [|y h IH]; simpl; intros Hd Hx; [auto|].
  destruct Hd as [Hy Hd]. apply orb_false_iff in Hx as [Hxy Hx].
  split; [|auto].
  rewrite existsb_hash_eq_app, Hy. simpl.
  rewrite hash_eq_sym, Hxy. reflexivity.
Qed.

Lemma set_add_distinct x h : distinct h -> distinct (set_add x h).
Proof.
  unfold set_add. intros Hd.
  destruct (existsb (hash_eq x) h) eqn:E; auto using distinct_snoc.
Qed.

Lemma add_all_distinct addrs : forall h, distinct h -> distinct (add_all addrs h).
Proof.
  induction addrs as [|a addrs IH]; intros h Hd; [exact Hd|].
  apply IH, set_add_distinct, Hd.
Qed.

Lemma existsb_hash_eq_ext x y l :
  hash_eq x y = true -> existsb (hash_eq x) l = existsb (hash_eq y) l.
Proof.
  intros Hxy. induction l as [|z l IH]; [reflexivity|]. simpl. rewrite IH.
  f_equal.
  destruct (hash_eq x z) eqn:Hxz, (hash_eq y z) eqn:Hyz; auto.
  - rewrite hash_eq_sym in Hxy.
    rewrite (hash_eq_trans _ _ _ Hxy Hxz) in Hyz. discriminate.
  - rewrite (hash_eq_trans _ _ _ Hxy Hyz) in Hxz. discriminate.
Qed.

(** Taking every value equal to [a] out of a list lowers its number of
    distinct values by one when there was such a value, by none
    otherwise. *)
Lemma count_distinct_remove a l :
  (count_distinct (List.filter (fun x => negb (hash_eq x a)) l) +
   (if existsb (hash_eq a) l then 1 else 0) = count_distinct l)%nat.
Proof.
  induction l as [|x l IH]; [reflexivity|].
  simpl. rewrite (hash_eq_sym a x).
  destruct (hash_eq x a) eqn:Hxa; simpl.
  - rewrite <- (existsb_hash_eq_ext x a l Hxa) in IH.
    destruct (existsb (hash_eq x) l) eqn:Hx; simpl in *; lia.
  - assert (existsb (hash_eq x)
              (List.filter (fun y => negb (hash_eq y a)) l) =
            existsb (hash_eq x) l) as ->.
    { clear IH. induction l as [|y l IHl]; [reflexivity|]. simpl.
      destruct (hash_eq y a) eqn:Hya; simpl; rewrite IHl; [|reflexivity].
      destruct (hash_eq x y) eqn:Hxy; [|reflexivity].
      rewrite (hash_eq_trans _ _ _ Hxy Hya) in Hxa. discriminate. }
    lia.
Qed.

Lemma filter_not_in_snoc h a l :
  List.filter (fun x => negb (existsb (hash_eq x) (h ++ [a]))) l =
  List.filter (fun x => negb (hash_eq x a))
    (List.filter (fun x => negb (existsb (hash_eq x) h)) l).
Proof.
  induction l as [|x l IH]; [reflexivity|]. simpl.
  rewrite existsb_hash_eq_app. simpl. rewrite orb_false_r.
  destruct (existsb (hash_eq x) h); simpl; [exact IH|].
  destruct (hash_eq x a); simpl; rewrite IH; reflexivity.
Qed.

(** The size of the set grows by the number of distinct new values. *)
Lemma add_all_length addrs : forall h,
  length (add_all addrs h) =
  (length h +
   count_distinct
     (List.filter (fun x => negb (existsb (hash_eq x) h)) addrs))%nat.
Proof.
  induction addrs as [|a addrs IH]; intros h; [simpl; lia|].
  unfold add_all in *. simpl. rewrite IH. unfold set_add.
  destruct (existsb (hash_eq a) h) eqn:Ha; simpl; [reflexivity|].
  rewrite length_app, filter_not_in_snoc. simpl.
  pose proof (count_distinct_remove a
    (List.filter (fun x => negb (existsb (hash_eq x) h)) addrs)) as H.
  set (F := List.filter (fun x => negb (existsb (hash_eq x) h)) addrs) in *.
  destruct (existsb (hash_eq a) F); lia.
Qed.

Lemma filter_all {A} (f : A -> bool) (l : list A) :
  (forall x, f x = true) -> List.filter f l = l.
Proof.
  intros Hf. induction l as [|x l IH]; [reflexivity|].
  simpl. rewrite Hf, IH. reflexivity.
Qed.

Lemma add_all_length_empty addrs :
  length (add_all addrs []) = count_distinct addrs.
Proof.
  rewrite add_all_length. simpl. rewrite filter_all; auto.
Qed.

(** Every member of the set is an old member or one of the added values,
    and every hashable added value has an equal member. *)
Lemma add_all_members addrs : forall h x,
  In x (add_all addrs h) -> In x h \/ In x addrs.
Proof.
  induction addrs as [|a addrs IH]; intros h x H; [auto|].
  apply IH in H as [H|H]; [|right; right; exact H].
  unfold set_add in H. destruct (existsb (hash_eq a) h); [auto|].
  apply in_app_or in H as [H|[H|[]]]; [auto|]. right; left; exact H.
Qed.

Lemma add_all_keeps addrs : forall h x,
  existsb (hash_eq x) h = true -> existsb (hash_eq x) (add_all addrs h) = true.
Proof.
  induction addrs as [|a addrs IH]; intros h x H; [exact H|].
  apply IH. unfold set_add. destruct (existsb (hash_eq a) h); [exact H|].
  rewrite existsb_hash_eq_app, H. reflexivity.
Qed.

Lemma add_all_represents addrs : forall h x,
  In x addrs -> hashable x = true ->
  existsb (hash_eq x) (add_all addrs h) = true.
Proof.
  induction addrs as [|a addrs IH]; intros h x Hx Hh; [destruct Hx|].
  destruct Hx as [Hx|Hx].
  - subst a. apply (add_all_keeps addrs (set_add x h)).
    destruct (existsb (hash_eq x) h) eqn:E; unfold set_add; rewrite E;
      [exact E|].
    rewrite existsb_hash_eq_app, E. simpl.
    rewrite (hash_eq_refl x Hh). reflexivity.
  - apply IH; assumption.
Qed.

(** The effect of a step that returns on [hosts]. *)
Lemma process_entry_hosts entry s s' :
  _process_entry entry s = (Ok tt, s') ->
  hosts s' = add_all (remote_addrs [entry]) (hosts s) /\
  Forall (fun a => hashable a = true) (remote_addrs [entry]).
Proof.
  intros H. unfold remote_addrs, remote_addr_of. simpl.
  destruct entry as [| | | | |l|d]; step_cases; auto.
Qed.

Lemma remote_addrs_cons entry rest :
  remote_addrs (entry :: rest) = remote_addrs [entry] ++ remote_addrs rest.
Proof.
  unfold remote_addrs. simpl. destruct (remote_addr_of entry); reflexivity.
Qed.

Lemma process_all_hosts entries : forall s s',
  process_all entries s = (Ok tt, s') ->
  hosts s' = add_all (remote_addrs entries) (hosts s) /\
  Forall (fun a => hashable a = true) (remote_addrs entries).
Proof.
  induction entries as [|entry rest IH]; intros s s' H.
  - injection H as <-. split; [reflexivity|constructor].
  - rewrite process_all_cons in H.
    destruct (_process_entry entry s) as [[[]|e] s1] eqn:Hstep; [|discriminate].
    apply process_entry_hosts in Hstep as [Hh1 Hf1].
    apply IH in H as [Hh Hf].
    rewrite remote_addrs_cons. split.
    + rewrite Hh, Hh1. unfold add_all. rewrite fold_left_app. reflexivity.
    + apply Forall_app. split; assumption.
Qed.

(** ** The loader *)

Lemma lstrip_spaces ws s :
  forallb isspace ws = true -> lstrip (ws ++ s) = lstrip s.
Proof.
  induction ws as [|c ws IH]; simpl; intros H; [reflexivity|].
  apply andb_true_iff in H as [-> H]. auto.
Qed.

Lemma lstrip_all_spaces ws : forallb isspace ws = true -> lstrip ws = [].
Proof.
  intros H. rewrite <- (app_nil_r ws). rewrite lstrip_spaces; auto.
Qed.

Lemma lstrip_head c s : isspace c = false -> lstrip (c :: s) = c :: s.
Proof. simpl. intros ->. reflexivity. Qed.

Lemma forallb_rev {A} (f : A -> bool) l :
  forallb f (rev l) = forallb f l.
Proof.
  induction l as [|x l IH]; [reflexivity|]. simpl.
  rewrite forallb_app, IH. simpl. rewrite andb_true_r, andb_comm. reflexivity.
Qed.

(** Stripping removes the whitespace around a text that has none at its
    ends, and nothing else. *)
Lemma strip_surrounded ws1 body ws2 :
  forallb isspace ws1 = true -> forallb isspace ws2 = true ->
  trimmed body = true ->
  strip (ws1 ++ body ++ ws2) = body.
Proof.
  intros H1 H2 Hb. unfold strip, rstrip. rewrite lstrip_spaces by exact H1.
  unfold trimmed in Hb. apply andb_true_iff in Hb as [Hfirst Hlast].
  destruct body as [|c body].
  - simpl. rewrite (lstrip_all_spaces ws2 H2). reflexivity.
  - apply negb_true_iff in Hfirst.
    rewrite <- app_comm_cons, lstrip_head by exact Hfirst.
    rewrite app_comm_cons, rev_app_distr.
    rewrite lstrip_spaces by (rewrite forallb_rev; exact H2).
    destruct (rev (c :: body)) as [|c' b'] eqn:Hrev.
    + apply (f_equal (@rev N)) in Hrev. rewrite rev_involutive in Hrev.
      discriminate.
    + apply negb_true_iff in Hlast. rewrite lstrip_head by exact Hlast.
      rewrite <- Hrev. apply rev_involutive.
Qed.

Lemma strip_trimmed body : trimmed body = true -> strip body = body.
Proof.
  intros H. pose proof (strip_surrounded [] body [] eq_refl eq_refl H) as E.
  rewrite app_nil_r in E. exact E.
Qed.

Lemma strip_spaces ws : forallb isspace ws = true -> strip ws = [].
Proof.
  intros H. pose proof (strip_surrounded ws [] [] H eq_refl eq_refl) as E.
  rewrite app_nil_r in E. exact E.
Qed.

Section Loader.

Variable loads : str -> decoded.

(** Two lines that strip to the same text are read alike. *)
Lemma read_lines_same_text line1 line2 rest :
  strip line1 = strip line2 ->
  read_lines loads (line1 :: rest) = read_lines loads (line2 :: rest).
Proof. simpl. intros ->. reflexivity. Qed.

(** A line whose text does not decode leaves no trace. *)
Lemma read_lines_skip before line after :
  loads (strip line) = JSONDecodeError ->
  read_lines loads (before ++ line :: after) =
  read_lines loads (before ++ after).
Proof.
  intros H. induction before as [|l before IH]; simpl.
  - rewrite H. reflexivity.
  - rewrite IH. reflexivity.
Qed.

Variable exn_str : exn -> str.
Variable py_str : json -> str.
Variable now : str.
Variable encodes : str -> bool.

Lemma run_skip log_file before line after failure :
  loads (strip line) = JSONDecodeError ->
  parse_log loads exn_str encodes log_file
    (Content (before ++ line :: after) failure) =
  parse_log loads exn_str encodes log_file (Content (before ++ after) failure) /\
  run loads exn_str py_str now encodes log_file
    (Content (before ++ line :: after) failure) =
  run loads exn_str py_str now encodes log_file (Content (before ++ after) failure).
Proof.
  intros H. unfold run, parse_log, read_file.
  rewrite (read_lines_skip _ _ _ H). auto.
Qed.

(** When no line makes [json.loads] raise anything but a
    [JSONDecodeError], the loop is the aggregator run over the values
    of the lines that decode. *)
Lemma read_lines_process_all lines :
  forallb (fun line => match loads (strip line) with
                       | DecodeRaises _ => false
                       | _ => true
                       end) lines = true ->
  read_lines loads lines =
  process_all (omap (fun line => match loads (strip line) with
                                 | Decoded v => Some v
                                 | _ => None
                                 end) lines).
Proof.
  induction lines as [|line lines IH]; simpl; intros H; [reflexivity|].
  apply andb_true_iff in H as [H1 H2].
  destruct (loads (strip line)); try discriminate; simpl; rewrite IH; auto.
Qed.

End Loader.

(** ** The quotient of two counters is a float *)

Lemma digits2_bound p : forall k, Z.pos p < 2 ^ k -> Z.pos (digits2_pos p) <= k.
Proof.
  induction p as [p IH|p IH|]; intros k H.
  - assert (0 < k) by (destruct (Z.le_gt_cases k 0) as [Hk|Hk]; [|lia];
      assert (2 ^ k <= 2 ^ 0) by (destruct (Z.le_gt_cases 0 k);
        [apply Z.pow_le_mono_r; lia | rewrite Z.pow_neg_r; lia]); simpl in *; lia).
    replace k with (Z.succ (k - 1)) in H by lia.
    rewrite Z.pow_succ_r in H by lia.
    specialize (IH (k - 1)). simpl. lia.
  - assert (0 < k) by (destruct (Z.le_gt_cases k 0) as [Hk|Hk]; [|lia];
      assert (2 ^ k <= 2 ^ 0) by (destruct (Z.le_gt_cases 0 k);
        [apply Z.pow_le_mono_r; lia | rewrite Z.pow_neg_r; lia]); simpl in *; lia).
    replace k with (Z.succ (k - 1)) in H by lia.
    rewrite Z.pow_succ_r in H by lia.
    specialize (IH (k - 1)). simpl. lia.
  - assert (0 < k); [|simpl; lia].
    destruct (Z.le_gt_cases k 0) as [Hk|Hk]; [|lia].
    assert (2 ^ k <= 2 ^ 0) by (destruct (Z.le_gt_cases 0 k);
        [apply Z.pow_le_mono_r; lia | rewrite Z.pow_neg_r; lia]).
    simpl in *; lia.
Qed.

Lemma Zdigits2_bound m k : 0 <= m < 2 ^ k -> 0 <= k -> Zdigits2 m <= k.
Proof.
  intros [H0 H] Hk. destruct m as [|p|p]; simpl; [lia| |lia].
  apply digits2_bound, H.
Qed.

Lemma shr_1_bound mrs :
  0 <= shr_m mrs -> 0 <= shr_m (shr_1 mrs) <= shr_m mrs.
Proof.
  destruct mrs as [m r s]. simpl.
  destruct m as [|[p|p|]|[p|p|]]; simpl; lia.
Qed.

Lemma iter_shr_1_bound p : forall mrs,
  0 <= shr_m mrs -> 0 <= shr_m (SpecFloat.iter_pos shr_1 p mrs) <= shr_m mrs.
Proof.
  induction p as [p IH|p IH|]; intros mrs H; simpl.
  - pose proof (shr_1_bound mrs H).
    pose proof (IH (shr_1 mrs) ltac:(lia)).
    pose proof (IH (SpecFloat.iter_pos shr_1 p (shr_1 mrs)) ltac:(lia)). lia.
  - pose proof (IH mrs H).
    pose proof (IH (SpecFloat.iter_pos shr_1 p mrs) ltac:(lia)). lia.
  - apply shr_1_bound, H.
Qed.

Lemma shr_record_of_loc_m m l : shr_m (shr_record_of_loc m l) = m.
Proof. destruct l as [|[]]; reflexivity. Qed.

(** Shifting a mantissa to its format exponent does not make it larger,
    and leaves it at the larger of the two exponents. *)
Lemma shr_fexp_bound m e l :
  0 <= m ->
  0 <= shr_m (fst (shr_fexp prec emax m e l)) <= m /\
  snd (shr_fexp prec emax m e l) =
    Z.max e (fexp prec emax (Zdigits2 m + e)).
Proof.
  intros Hm. unfold shr_fexp, shr.
  destruct (fexp prec emax (Zdigits2 m + e) - e) as [|p|p] eqn:Hn; simpl.
  - rewrite shr_record_of_loc_m. lia.
  - pose proof (iter_shr_1_bound p (shr_record_of_loc m l)) as H.
    rewrite shr_record_of_loc_m in H. specialize (H Hm). lia.
  - rewrite shr_record_of_loc_m. lia.
Qed.

Lemma round_nearest_even_bound m l :
  0 <= m -> 0 <= round_nearest_even m l <= m + 1.
Proof.
  intros H. unfold round_nearest_even.
  destruct l as [|[]]; try destruct (Z.even m); lia.
Qed.

Lemma fexp_eq e : fexp prec emax e = Z.max (e - 53) (-1074).
Proof. reflexivity. Qed.

(** Rounding a mantissa of at most [2^s] at exponent [-s] stays within the
    finite floats. *)
Lemma round_aux_not_inf sx m s l sg :
  0 <= m <= 2 ^ s -> 0 <= s <= 1074 ->
  binary_round_aux prec emax sx m (- s) l <> S754_infinity sg.
Proof.
  intros Hm Hs. unfold binary_round_aux.
  destruct (shr_fexp_bound m (- s) l) as [Hm1 He1]; [lia|].
  destruct (shr_fexp prec emax m (- s) l) as [mrs1 e1]. simpl in Hm1, He1.
  set (mr := round_nearest_even (shr_m mrs1) (loc_of_shr_record mrs1)).
  assert (0 <= mr <= shr_m mrs1 + 1) as Hmr
    by (apply round_nearest_even_bound; lia).
  destruct (shr_fexp_bound mr e1 loc_Exact) as [Hm2 He2]; [lia|].
  destruct (shr_fexp prec emax mr e1 loc_Exact) as [mrs2 e2].
  simpl in Hm2, He2.
  destruct (shr_m mrs2) as [|p|p]; try discriminate.
  destruct (e2 <=? emax - prec) eqn:Hle; [discriminate|].
  exfalso. apply Z.leb_gt in Hle. change (emax - prec) with 971 in Hle.
  rewrite fexp_eq in He1, He2.
  assert (2 ^ s < 2 ^ (s + 1)) by (apply Z.pow_lt_mono_r; lia).
  assert (2 ^ (s + 1) < 2 ^ (s + 2)) by (apply Z.pow_lt_mono_r; lia).
  assert (0 < 2 ^ s) by (apply Z.pow_pos_nonneg; lia).
  assert (Zdigits2 m <= s + 1) by (apply Zdigits2_bound; lia).
  assert (Zdigits2 mr <= s + 2) by (apply Zdigits2_bound; lia).
  lia.
Qed.

Lemma div_eucl_div a b q r : Z.div_eucl a b = (q, r) -> q = a / b.
Proof. unfold Z.div. intros ->. reflexivity. Qed.

(** The quotient of two positive integers, the first no larger than the
    second, does not overflow. *)
Lemma div_no_overflow pa pb sg :
  Z.pos pa <= Z.pos pb ->
  SFdiv prec emax (S754_finite false pa 0) (S754_finite false pb 0)
  <> S754_infinity sg.
Proof.
  intros Hab. unfold SFdiv, SFdiv_core_binary.
  set (e' := Z.min _ (0 - 0)).
  assert (-1074 <= e' <= 0) as He'.
  { subst e'. rewrite fexp_eq. lia. }
  set (s := 0 - 0 - e'). assert (s = - e') as Hs by lia.
  set (m' := match s with Z0 => Z.pos pa | Zpos _ => Z.shiftl (Z.pos pa) s
             | Zneg _ => 0 end).
  assert (m' = Z.pos pa * 2 ^ s) as Hm'.
  { subst m'. destruct s as [|p|p] eqn:E; [simpl; lia| |lia].
    apply Z.shiftl_mul_pow2. lia. }
  destruct (Z.div_eucl m' (Z.pos pb)) as [q r] eqn:Hdiv.
  apply div_eucl_div in Hdiv.
  replace e' with (- s) by lia.
  apply round_aux_not_inf; [|lia].
  assert (0 < 2 ^ s) by (apply Z.pow_pos_nonneg; lia).
  subst q. split.
  - apply Z.div_pos; lia.
  - apply Z.div_le_upper_bound; [lia|]. rewrite Hm'. nia.
Qed.

(** For counters [0 <= a <= b] with [b] positive, [a / b] is a float. *)
Lemma true_div_returns a b :
  0 <= a <= b -> 0 < b -> exists q, true_div a b = Ok q.
Proof.
  intros Ha Hb. unfold true_div.
  destruct (b =? 0) eqn:Eb; [apply Z.eqb_eq in Eb; lia|].
  destruct (a =? 0) eqn:Ea; [eauto|].
  apply Z.eqb_neq in Ea.
  destruct a as [|pa|pa]; try lia. destruct b as [|pb|pb]; try lia.
  simpl int_as_float.
  pose proof (fun sg => div_no_overflow pa pb sg ltac:(lia)) as H.
  destruct (SFdiv prec emax _ _) as [sz|si| |sf mf ef]; eauto.
  destruct (H si eq_refl).
Qed.

(** ** Formatting with one decimal *)



(** ** Loader and aggregator together *)

Section Runs.

Variable loads : str -> decoded.
Variable exn_str : exn -> str.
Variable py_str : json -> str.
Variable now : str.
Variable encodes : str -> bool.

Lemma read_lines_cons line rest s :
  read_lines loads (line :: rest) s =
  match loads (strip line) with
  | Decoded log_entry =>
      match _process_entry log_entry s with
      | (Ok _, s') => read_lines loads rest s'
      | (Raise e, s') => (Raise e, s')
      end
  | JSONDecodeError => read_lines loads rest s
  | DecodeRaises e => (Raise e, s)
  end.
Proof. simpl. destruct (loads (strip line)); reflexivity. Qed.

(** However the loop ends, the counters stay consistent. *)
Lemma read_lines_counters lines : forall s,
  counters_ok s -> counters_ok (snd (read_lines loads lines s)).
Proof.
  induction lines as [|line rest IH]; intros s Hs; [exact Hs|].
  rewrite read_lines_cons.
  destruct (loads (strip line)) as [v| |e]; simpl; auto.
  pose proof (process_entry_counters v s Hs) as Hstep.
  destruct (_process_entry v s) as [[[]|e] s']; simpl in *; auto.
Qed.

(** A loop that ends normally has run the aggregator over the decoded
    records, and every one of them returned. *)
Lemma read_lines_ok lines : forall s s',
  read_lines loads lines s = (Ok tt, s') ->
  process_all (decoded_records loads lines) s = (Ok tt, s').
Proof.
  unfold decoded_records.
  induction lines as [|line rest IH]; intros s s' H; [exact H|].
  rewrite read_lines_cons in H. simpl.
  destruct (loads (strip line)) as [v| |e]; simpl; auto; [|discriminate].
  unfold bind.
  destruct (_process_entry v s) as [[[]|e] s1]; [auto|discriminate].
Qed.

Lemma read_file_counters lines failure s :
  counters_ok s -> counters_ok (snd (read_file loads lines failure s)).
Proof.
  intros Hs. unfold read_file, bind.
  pose proof (read_lines_counters lines s Hs) as H.
  destruct (read_lines loads lines s) as [[[]|e] s']; simpl in *; auto.
  destruct failure; exact H.
Qed.

(** The statistics that [parse_log] leaves behind are consistent. *)
Lemma parse_log_counters log_file f :
  counters_ok (snd (parse_log loads exn_str encodes log_file f init_stats)).
Proof.
  destruct f as [|e|lines failure]; simpl.
  - destruct (encodes _); apply init_counters.
  - apply init_counters.
  - pose proof (read_file_counters lines failure init_stats init_counters)
      as H.
    destruct (read_file loads lines failure init_stats) as [[[]|e] s'];
      exact H.
Qed.

(** ** Printing *)

Lemma print_all_app a b :
  print_all encodes (a ++ b) =
  match print_all encodes a with
  | (out, None) =>
      let (out', failure) := print_all encodes b in (out ++ out', failure)
  | (out, Some e) => (out, Some e)
  end.
Proof.
  induction a as [|text a IH]; simpl.
  - destruct (print_all encodes b); reflexivity.
  - destruct (encodes text); [|reflexivity]. rewrite IH.
    destruct (print_all encodes a) as [out [e|]]; [reflexivity|].
    destruct (print_all encodes b); reflexivity.
Qed.

(** Texts that the encoder takes are all printed. *)
Lemma print_all_full texts :
  forallb encodes texts = true -> print_all encodes texts = (texts, None).
Proof.
  induction texts as [|text texts IH]; simpl; intros H; [reflexivity|].
  apply andb_true_iff in H as [-> H]. rewrite (IH H). reflexivity.
Qed.

(** When no [print] raises, everything was printed and the encoder took
    every text. *)
Lemma print_all_none texts : forall out,
  print_all encodes texts = (out, None) ->
  out = texts /\ forallb encodes texts = true.
Proof.
  induction texts as [|text texts IH]; simpl; intros out H.
  - injection H as <-. auto.
  - destruct (encodes text); [|discriminate].
    destruct (print_all encodes texts) as [out' r].
    injection H as <- ->. destruct (IH out' eq_refl) as [-> ->]. auto.
Qed.

(** When a [print] raises, what was printed are the texts before the
    first one that the encoder refuses. *)
Lemma print_all_some texts : forall out e,
  print_all encodes texts = (out, Some e) ->
  exists text rest,
    texts = out ++ text :: rest /\ e = UnicodeEncodeError text /\
    encodes text = false /\ forallb encodes out = true.
Proof.
  induction texts as [|text texts IH]; simpl; intros out e H;
    [discriminate|].
  destruct (encodes text) eqn:E.
  - destruct (print_all encodes texts) as [out' r].
    injection H as <- ->.
    destruct (IH out' e eq_refl) as (t & rest & -> & -> & Ht & Hout).
    exists t, rest. simpl. rewrite E. auto.
  - injection H as <- <-. exists text, texts. auto.
Qed.

(** ** The reporter *)


(** On consistent statistics the division does not raise: the report
    is the printing of its texts, and the method returns when all of
    them were printed. *)
Lemma generate_report_prints log_file s :
  0 <= ok_tasks s <= total_tasks s ->
  generate_report py_str now encodes log_file s =
  match print_all encodes (report_texts py_str now log_file s) with
  | (out, None) => (out, Ok (failed_tasks s =? 0))
  | (out, Some e) => (out, Raise e)
  end.
Proof.
  intros H. unfold generate_report, report_texts, success_rate.
  assert (forall tail,
    report_header now log_file ++ report_statistics s ++
    report_failures py_str s ++ tail =
    (report_header now log_file ++ report_statistics s ++
     report_failures py_str s) ++ tail) as Hassoc
    by (intros tail; rewrite <- !app_assoc; reflexivity).
  rewrite Hassoc. clear Hassoc.
  set (body := report_header now log_file ++ report_statistics s ++
               report_failures py_str s).
  rewrite (print_all_app body).
  destruct (print_all encodes body) as [out [e|]]; [reflexivity|].
  destruct (0 <? total_tasks s) eqn:Ht.
  - apply Z.ltb_lt in Ht.
    destruct (true_div_returns (ok_tasks s) (total_tasks s) H Ht) as [q ->].
    destruct (print_all encodes [_]) as [out' [e|]]; reflexivity.
  - simpl. rewrite app_nil_r. reflexivity.
Qed.

(** When the encoder takes every text, the report is printed in full
    and the method returns. *)
Lemma generate_report_full log_file s :
  0 <= ok_tasks s <= total_tasks s ->
  forallb encodes (report_texts py_str now log_file s) = true ->
  generate_report py_str now encodes log_file s =
    (report_texts py_str now log_file s, Ok (failed_tasks s =? 0)).
Proof.
  intros H Henc. rewrite (generate_report_prints _ _ H).
  rewrite (print_all_full _ Henc). reflexivity.
Qed.

(** The method returns only after the whole report was printed, and
    then it returns [failed_tasks == 0]. *)
Lemma generate_report_ok log_file s out b :
  0 <= ok_tasks s <= total_tasks s ->
  generate_report py_str now encodes log_file s = (out, Ok b) ->
  out = report_texts py_str now log_file s /\
  b = (failed_tasks s =? 0) /\
  forallb encodes (report_texts py_str now log_file s) = true.
Proof.
  intros H Hg. rewrite (generate_report_prints _ _ H) in Hg.
  destruct (print_all encodes _) as [out' [e|]] eqn:Hp; [discriminate|].
  injection Hg as <- <-.
  destruct (print_all_none _ _ Hp) as [-> Henc]. auto.
Qed.

(** It raises only when the encoder refuses one of the texts, and then
    the texts before that one were printed. *)
Lemma generate_report_raise log_file s out e :
  0 <= ok_tasks s <= total_tasks s ->
  generate_report py_str now encodes log_file s = (out, Raise e) ->
  exists text rest,
    report_texts py_str now log_file s = out ++ text :: rest /\
    e = UnicodeEncodeError text /\ encodes text = false /\
    forallb encodes out = true.
Proof.
  intros H Hg. rewrite (generate_report_prints _ _ H) in Hg.
  destruct (print_all encodes _) as [out' [e'|]] eqn:Hp; [|discriminate].
  injection Hg as <- <-. apply (print_all_some _ _ _ Hp).
Qed.

End Runs.

(** * Further properties of the aggregator *)

(** The effect of a step that returns on [changed_tasks]. *)
Lemma process_entry_changed entry s s' :
  _process_entry entry s = (Ok tt, s') ->
  changed_tasks s' = changed_tasks s + (if is_changed entry then 1 else 0).
Proof.
  intros H. unfold is_changed, is_event, event_data_of.
  destruct entry as [| | | | |l|d]; step_cases; lia.
Qed.

Lemma process_all_changed entries : forall s s',
  process_all entries s = (Ok tt, s') ->
  changed_tasks s' = changed_tasks s + count_where is_changed entries.
Proof.
  induction entries as [|entry rest IH]; intros s s' H.
  - injection H as <-. simpl. lia.
  - rewrite process_all_cons in H.
    destruct (_process_entry entry s) as [[[]|e] s1] eqn:Hstep; [|discriminate].
    apply process_entry_changed in Hstep. apply IH in H. simpl. lia.
Qed.

Lemma set_add_prefix v h :
  h `prefix_of` set_add v h /\ (length (set_add v h) <= length h + 1)%nat.
Proof.
  unfold set_add. destruct (existsb (hash_eq v) h).
  - split; [exists []; symmetry; apply app_nil_r|lia].
  - split; [exists [v]; reflexivity|rewrite length_app; simpl; lia].
Qed.

(** Whatever a step does, it only adds to the statistics, and it counts
    the record at most once. *)
Lemma process_entry_grows entry s :
  let s' := snd (_process_entry entry s) in
  grows s s' /\
  total_tasks s' + skipped_tasks s' <= total_tasks s + skipped_tasks s + 1 /\
  (length (hosts s') <= length (hosts s) + 1)%nat /\
  (length (failed_details s') <= length (failed_details s) + 1)%nat.
Proof.
  unfold grows.
  step_cases; rewrite ?length_app; simpl;
    repeat split; try lia; try reflexivity;
    try apply set_add_prefix;
    try (eexists; symmetry; apply app_nil_r);
    try (eexists; reflexivity).
Qed.
Lemma grows_refl s : grows s s.
Proof. unfold grows. repeat split; try lia; reflexivity. Qed.

Lemma grows_trans s1 s2 s3 : grows s1 s2 -> grows s2 s3 -> grows s1 s3.
Proof.
  unfold grows.
  intros (?&?&?&?&?&?&Hh1&Hd1) (?&?&?&?&?&?&Hh2&Hd2).
  repeat split; try lia; try congruence.
  - transitivity (hosts s2); assumption.
  - transitivity (failed_details s2); assumption.
Qed.

Lemma process_all_grows entries : forall s,
  let s' := snd (process_all entries s) in
  grows s s' /\
  total_tasks s' + skipped_tasks s' <=
    total_tasks s + skipped_tasks s + Z.of_nat (length entries) /\
  (length (hosts s') <= length (hosts s) + length entries)%nat /\
  (length (failed_details s') <=
     length (failed_details s) + length entries)%nat.
Proof.
  induction entries as [|entry rest IH]; intros s.
  - simpl. split; [apply grows_refl|lia].
  - cbv zeta. rewrite process_all_cons.
    pose proof (process_entry_grows entry s) as Hstep. cbv zeta in Hstep.
    destruct (_process_entry entry s) as [[[]|e] s1]; simpl in Hstep.
    + specialize (IH s1). cbv zeta in IH.
      destruct Hstep as (Hg1 & ? & ? & ?), IH as (Hg2 & ? & ? & ?).
      split; [exact (grows_trans _ _ _ Hg1 Hg2)|].
      simpl length. lia.
    + simpl. destruct Hstep as (Hg1 & ? & ? & ?).
      split; [exact Hg1|]. lia.
Qed.

(** Aggregating two sequences one after the other is aggregating their
    concatenation. *)
Lemma process_all_app a b s :
  process_all (a ++ b) s =
  match process_all a s with
  | (Ok _, s') => process_all b s'
  | (Raise e, s') => (Raise e, s')
  end.
Proof.
  revert s. induction a as [|entry a IH]; intros s; [reflexivity|].
  simpl app. rewrite !process_all_cons.
  destruct (_process_entry entry s) as [[[]|e] s1]; [apply IH|reflexivity].
Qed.

(** Whether a step returns or raises, and what it raises, depends on the
    record alone. *)
Lemma process_entry_outcome entry s1 s2 :
  fst (_process_entry entry s1) = fst (_process_entry entry s2).
Proof. step_cases; reflexivity. Qed.

Lemma process_all_outcome entries : forall s1 s2,
  fst (process_all entries s1) = fst (process_all entries s2).
Proof.
  induction entries as [|entry rest IH]; intros s1 s2; [reflexivity|].
  rewrite !process_all_cons.
  pose proof (process_entry_outcome entry s1 s2) as H.
  destruct (_process_entry entry s1) as [[[]|e1] t1],
           (_process_entry entry s2) as [[[]|e2] t2];
    simpl in H; try discriminate; [apply IH|exact H].
Qed.
(** A sequence is aggregated to its end exactly when every record of it
    is one that the step accepts. *)
Lemma process_all_returns_iff entries : forall s,
  fst (process_all entries s) = Ok tt <->
  Forall (fun entry => fst (_process_entry entry init_stats) = Ok tt) entries.
Proof.
  induction entries as [|entry rest IH]; intros s.
  - split; [constructor|reflexivity].
  - rewrite process_all_cons, Forall_cons.
    pose proof (process_entry_outcome entry s init_stats) as H.
    destruct (_process_entry entry s) as [[[]|e] s1]; simpl in H.
    + rewrite IH, <- H. tauto.
    + rewrite <- H. simpl. split; [discriminate|intros [? _]; discriminate].
Qed.

(** ** Counting does not depend on the order *)

Lemma count_events_where kind entries :
  count_events kind entries = count_where (is_event kind) entries.
Proof. induction entries as [|e l IH]; simpl; congruence. Qed.

Lemma count_where_perm p l1 l2 :
  Permutation l1 l2 -> count_where p l1 = count_where p l2.
Proof. induction 1; simpl; lia. Qed.

Lemma existsb_hash_eq_perm x l1 l2 :
  Permutation l1 l2 -> existsb (hash_eq x) l1 = existsb (hash_eq x) l2.
Proof.
  induction 1; simpl; try congruence.
  destruct (hash_eq x y), (hash_eq x x0); reflexivity.
Qed.

Lemma count_distinct_perm l1 l2 :
  Permutation l1 l2 -> count_distinct l1 = count_distinct l2.
Proof.
  induction 1 as [|x l1 l2 Hp IH|x y l|l1 l2 l3 _ IH1 _ IH2]; simpl.
  - reflexivity.
  - rewrite (existsb_hash_eq_perm x l1 l2 Hp), IH. reflexivity.
  - rewrite (hash_eq_sym y x).
    destruct (hash_eq x y) eqn:Hxy; simpl.
    + rewrite (existsb_hash_eq_ext x y l Hxy). reflexivity.
    + destruct (existsb (hash_eq y) l), (existsb (hash_eq x) l); reflexivity.
  - congruence.
Qed.

Lemma count_distinct_app_r l1 l2 :
  (count_distinct l2 <= count_distinct (l1 ++ l2))%nat.
Proof. induction l1 as [|x l1 IH]; simpl; lia. Qed.

Lemma count_distinct_without h : forall l,
  (count_distinct
     (List.filter (fun x => negb (existsb (hash_eq x) h)) l)
   <= count_distinct l)%nat.
Proof.
  induction h as [|a h IH] using rev_ind; intros l.
  - simpl. rewrite filter_all; auto.
  - rewrite filter_not_in_snoc.
    pose proof (count_distinct_remove a
      (List.filter (fun x => negb (existsb (hash_eq x) h)) l)) as H.
    specialize (IH l). lia.
Qed.

Lemma remote_addrs_app a b :
  remote_addrs (a ++ b) = remote_addrs a ++ remote_addrs b.
Proof. unfold remote_addrs. apply omap_app. Qed.

Lemma remote_addrs_perm l1 l2 :
  Permutation l1 l2 -> Permutation (remote_addrs l1) (remote_addrs l2).
Proof.
  unfold remote_addrs.
  induction 1 as [|x l1 l2 Hp IH|x y l|l1 l2 l3 _ IH1 _ IH2]; simpl.
  - constructor.
  - destruct (remote_addr_of x); [constructor|]; exact IH.
  - destruct (remote_addr_of x), (remote_addr_of y);
      try reflexivity. apply perm_swap.
  - etransitivity; eassumption.
Qed.

Lemma failures_of_app a b :
  failures_of (a ++ b) = failures_of a ++ failures_of b.
Proof.
  induction a as [|x a IH]; [reflexivity|]. simpl.
  destruct (event_data_of x); [|exact IH].
  destruct (is_event runner_on_failed x); [|exact IH].
  simpl. rewrite IH. reflexivity.
Qed.

Lemma failures_of_perm l1 l2 :
  Permutation l1 l2 -> Permutation (failures_of l1) (failures_of l2).
Proof.
  induction 1 as [|x l1 l2 Hp IH|x y l|l1 l2 l3 _ IH1 _ IH2].
  - constructor.
  - change (x :: l1) with ([x] ++ l1). change (x :: l2) with ([x] ++ l2).
    rewrite !failures_of_app. apply Permutation_app_head, IH.
  - change (y :: x :: l) with ([y] ++ [x] ++ l).
    change (x :: y :: l) with ([x] ++ [y] ++ l).
    rewrite !failures_of_app, !app_assoc.
    apply Permutation_app_tail, Permutation_app_comm.
  - etransitivity; eassumption.
Qed.

(** * Further properties of the loader and the reporter *)

Section MoreRuns.

Variable loads : str -> decoded.
Variable exn_str : exn -> str.
Variable py_str : json -> str.
Variable now : str.
Variable encodes : str -> bool.

(** Reading two runs of lines one after the other is reading their
    concatenation. *)
Lemma read_lines_app a b s :
  read_lines loads (a ++ b) s =
  match read_lines loads a s with
  | (Ok _, s') => read_lines loads b s'
  | (Raise e, s') => (Raise e, s')
  end.
Proof.
  revert s. induction a as [|line a IH]; intros s; [reflexivity|].
  simpl app. rewrite !read_lines_cons.
  destruct (loads (strip line)) as [v| |e]; [|apply IH|reflexivity].
  destruct (_process_entry v s) as [[[]|e] s1]; [apply IH|reflexivity].
Qed.

Lemma read_lines_grows lines : forall s,
  let s' := snd (read_lines loads lines s) in
  grows s s' /\
  total_tasks s' + skipped_tasks s' <=
    total_tasks s + skipped_tasks s + Z.of_nat (length lines) /\
  (length (hosts s') <= length (hosts s) + length lines)%nat /\
  (length (failed_details s') <=
     length (failed_details s) + length lines)%nat.
Proof.
  induction lines as [|line rest IH]; intros s.
  - simpl. split; [apply grows_refl|lia].
  - cbv zeta. rewrite read_lines_cons.
    destruct (loads (strip line)) as [v| |e].
    + pose proof (process_entry_grows v s) as Hstep. cbv zeta in Hstep.
      destruct (_process_entry v s) as [[[]|e] s1]; simpl in Hstep.
      * specialize (IH s1). cbv zeta in IH.
        destruct Hstep as (Hg1 & ? & ? & ?), IH as (Hg2 & ? & ? & ?).
        split; [exact (grows_trans _ _ _ Hg1 Hg2)|].
        simpl length. lia.
      * simpl. destruct Hstep as (Hg1 & ? & ? & ?).
        split; [exact Hg1|]. lia.
    + specialize (IH s). cbv zeta in IH. destruct IH as (Hg & ? & ? & ?).
      split; [exact Hg|]. simpl length. lia.
    + simpl. split; [apply grows_refl|lia].
Qed.

(** The statistics that [parse_log] leaves for a file with lines are
    those of the loop, whatever ends it. *)
Lemma parse_log_stats log_file lines failure s :
  snd (parse_log loads exn_str encodes log_file (Content lines failure) s) =
  snd (read_lines loads lines s).
Proof.
  unfold parse_log, read_file, bind, lift, ret.
  destruct (read_lines loads lines s) as [[[]|e] s1]; simpl;
    [destruct failure|]; reflexivity.
Qed.

(** [parse_log] returns [True] exactly for a file that is read to its
    end with every decoded record accepted. *)
Lemma parse_log_true log_file f s out s' :
  parse_log loads exn_str encodes log_file f s = (Ok true, out, s') <->
  exists lines,
    f = Content lines None /\ out = [] /\
    read_lines loads lines s = (Ok tt, s').
Proof.
  split.
  - destruct f as [|e|lines failure]; simpl; try discriminate.
    { destruct (encodes _); discriminate. }
    unfold read_file, bind, lift, ret.
    destruct (read_lines loads lines s) as [[[]|e] s1] eqn:Hr;
      [|discriminate].
    destruct failure; [discriminate|].
    intros H. injection H as <- <-. eauto.
  - intros (lines & -> & -> & H). unfold parse_log, read_file, bind, ret.
    rewrite H. reflexivity.
Qed.

(** ** The texts of the report *)

Lemma failure_lines_no_heading l :
  Forall (fun line => is_failures_heading line = false)
    (List.concat (map (failure_lines py_str) l)).
Proof.
  induction l as [|f l IH]; [constructor|].
  simpl. repeat (constructor; [reflexivity|]). exact IH.
Qed.

Lemma existsb_false_Forall {A} (p : A -> bool) l :
  Forall (fun x => p x = false) l -> existsb p l = false.
Proof.
  induction 1 as [|x l Hx _ IH]; [reflexivity|].
  simpl. rewrite Hx, IH. reflexivity.
Qed.

(** The heading of the failure list is among the texts of the report
    exactly when [failed_tasks] is positive. *)
Lemma report_heading log_file s :
  existsb is_failures_heading (report_texts py_str now log_file s)
  = (0 <? failed_tasks s).
Proof.
  unfold report_texts. rewrite !existsb_app.
  rewrite (existsb_false_Forall _ (report_header now log_file))
    by (repeat constructor).
  rewrite (existsb_false_Forall _ (report_statistics s))
    by (repeat constructor).
  assert (existsb is_failures_heading
            (if 0 <? total_tasks s
             then match success_rate (ok_tasks s) (total_tasks s) with
                  | Ok rate =>
                      [lit "Success rate: " ++ fmt_1f rate ++ lit "%"]
                  | Raise _ => []
                  end
             else []) = false) as ->.
  { destruct (0 <? total_tasks s); [|reflexivity].
    destruct (success_rate (ok_tasks s) (total_tasks s)); reflexivity. }
  unfold report_failures. destruct (0 <? failed_tasks s); reflexivity.
Qed.

Lemma failure_lines_length l :
  length (List.concat (map (failure_lines py_str) l)) = (4 * length l)%nat.
Proof. induction l as [|f l IH]; simpl in *; lia. Qed.

(** The number of texts of the report. *)
Lemma report_length log_file s :
  0 <= ok_tasks s <= total_tasks s ->
  length (report_texts py_str now log_file s) =
  (14 + (if (0 <? failed_tasks s)%Z
         then 2 + 4 * length (failed_details s) else 0)
      + (if (0 <? total_tasks s)%Z then 1 else 0))%nat.
Proof.
  intros H. unfold report_texts, success_rate.
  rewrite !length_app.
  assert (length (report_failures py_str s) =
          if 0 <? failed_tasks s
          then (2 + 4 * length (failed_details s))%nat else 0%nat) as ->.
  { unfold report_failures. destruct (0 <? failed_tasks s); [|reflexivity].
    rewrite length_app, failure_lines_length. reflexivity. }
  destruct (0 <? total_tasks s) eqn:Ht.
  - apply Z.ltb_lt in Ht.
    destruct (true_div_returns (ok_tasks s) (total_tasks s) H Ht) as [q ->].
    simpl length. lia.
  - simpl length. lia.
Qed.


End MoreRuns.

(** ** The success rate at its ends *)

(** A positive integer divided by itself is the float 1.0. *)
Lemma true_div_same p :
  true_div (Z.pos p) (Z.pos p) = Ok (S754_finite false 4503599627370496 (-52)).
Proof.
  unfold true_div. simpl int_as_float.
  change (Z.pos p =? 0) with false. cbv iota.
  unfold SFdiv, SFdiv_core_binary.
  replace (Zdigits2 (Z.pos p) + 0 - (Zdigits2 (Z.pos p) + 0)) with 0 by lia.
  change (Z.min (fexp prec emax 0) (0 - 0)) with (-53).
  change (0 - 0 - -53) with 53.
  cbv iota.
  destruct (Z.div_eucl (Z.shiftl (Z.pos p) 53) (Z.pos p)) as [q r] eqn:Hdiv.
  assert (q = 2 ^ 53 /\ r = 0) as [-> ->].
  { pose proof (Z.div_eucl_eq (Z.shiftl (Z.pos p) 53) (Z.pos p) ltac:(lia))
      as Heq.
    rewrite Hdiv in Heq.
    pose proof (Z.mod_pos_bound (Z.shiftl (Z.pos p) 53) (Z.pos p) ltac:(lia))
      as Hmod.
    unfold Z.modulo in Hmod. rewrite Hdiv in Hmod.
    rewrite Z.shiftl_mul_pow2 in Heq by lia.
    assert (Z.pos p * (2 ^ 53 - q) = r) as Hr by lia.
    assert (q = 2 ^ 53) by nia. subst q. lia. }
  unfold new_location.
  destruct (Z.even (Z.pos p)); vm_compute; reflexivity.
Qed.

Lemma success_rate_all n : 0 < n -> success_rate n n = Ok hundred.
Proof.
  intros H. destruct n as [|p|p]; try lia.
  unfold success_rate. rewrite true_div_same. vm_compute. reflexivity.
Qed.

Lemma success_rate_none n : 0 < n -> success_rate 0 n = Ok (S754_zero false).
Proof.
  intros H. destruct n as [|p|p]; try lia. reflexivity.
Qed.

(** * Reading more than once, and reading nothing *)

(** Values that are already represented in the set leave it as it is. *)
Lemma add_all_absorbed addrs : forall h,
  (forall x, In x addrs -> existsb (hash_eq x) h = true) ->
  add_all addrs h = h.
Proof.
  induction addrs as [|a addrs IH]; intros h H; [reflexivity|].
  unfold add_all. simpl. fold (add_all addrs (set_add a h)).
  unfold set_add. rewrite (H a (or_introl eq_refl)).
  apply IH. intros x Hx. apply H. right. exact Hx.
Qed.

Lemma add_all_twice addrs :
  Forall (fun a => hashable a = true) addrs ->
  add_all addrs (add_all addrs []) = add_all addrs [].
Proof.
  intros Hh. apply add_all_absorbed. intros x Hx.
  apply add_all_represents; [exact Hx|].
  rewrite Forall_forall in Hh. apply Hh, list_elem_of_In, Hx.
Qed.

Section Again.

Variable loads : str -> decoded.
Variable exn_str : exn -> str.
Variable py_str : json -> str.
Variable now : str.
Variable encodes : str -> bool.

(** Whether the loop ends normally, and with what exception if not,
    depends on the lines alone. *)
Lemma read_lines_outcome lines : forall s1 s2,
  fst (read_lines loads lines s1) = fst (read_lines loads lines s2).
Proof.
  induction lines as [|line rest IH]; intros s1 s2; [reflexivity|].
  rewrite !read_lines_cons.
  destruct (loads (strip line)) as [v| |e]; [|apply IH|reflexivity].
  pose proof (process_entry_outcome v s1 s2) as H.
  destruct (_process_entry v s1) as [[[]|e1] t1],
           (_process_entry v s2) as [[[]|e2] t2];
    simpl in H; try discriminate; [apply IH|exact H].
Qed.

(** Lines that carry no event data leave the statistics alone. *)
Lemma read_lines_without_event_data lines : forall s,
  forallb (without_event_data loads) lines = true ->
  read_lines loads lines s = (Ok tt, s).
Proof.
  induction lines as [|line rest IH]; intros s H; [reflexivity|].
  simpl in H. apply andb_true_iff in H as [Hl Hr].
  rewrite read_lines_cons. unfold without_event_data in Hl.
  destruct (loads (strip line)) as [v| |e]; [|apply IH, Hr|discriminate].
  assert (_process_entry v s = (Ok tt, s)) as ->.
  { unfold _process_entry, bind, lift, ret.
    destruct (contains event_data_key v) as [[]|]; try discriminate.
    reflexivity. }
  apply IH, Hr.
Qed.

End Again.

(** * The success rate lies between 0 and 100 *)

(** ** Shifting and rounding, with their error *)

Lemma shr_1_le mrs :
  0 <= shr_m mrs ->
  0 <= shr_m (shr_1 mrs) /\ 2 * shr_m (shr_1 mrs) <= shr_m mrs.
Proof.
  destruct mrs as [m r s]. simpl.
  destruct m as [|[p|p|]|[p|p|]]; simpl; lia.
Qed.

Lemma iter_shr_1_le p : forall mrs,
  0 <= shr_m mrs ->
  0 <= shr_m (SpecFloat.iter_pos shr_1 p mrs) /\
  2 ^ Z.pos p * shr_m (SpecFloat.iter_pos shr_1 p mrs) <= shr_m mrs.
Proof.
  induction p as [p IH|p IH|]; intros mrs H; simpl SpecFloat.iter_pos.
  - destruct (shr_1_le mrs H) as [H1 H1'].
    destruct (IH (shr_1 mrs) H1) as [H2 H2'].
    destruct (IH _ H2) as [H3 H3'].
    split; [exact H3|].
    replace (Z.pos p~1) with (Z.pos p + Z.pos p + 1) by lia.
    rewrite !Z.pow_add_r, Z.pow_1_r by lia.
    assert (0 < 2 ^ Z.pos p) as HP by (apply Z.pow_pos_nonneg; lia).
    set (P := 2 ^ Z.pos p) in *.
    set (m3 := shr_m (SpecFloat.iter_pos shr_1 p
                        (SpecFloat.iter_pos shr_1 p (shr_1 mrs)))) in *.
    set (m2 := shr_m (SpecFloat.iter_pos shr_1 p (shr_1 mrs))) in *.
    assert (P * (P * m3) <= P * m2) by (apply Z.mul_le_mono_nonneg_l; lia).
    lia.
  - destruct (IH mrs H) as [H2 H2'].
    destruct (IH _ H2) as [H3 H3'].
    split; [exact H3|].
    replace (Z.pos p~0) with (Z.pos p + Z.pos p) by lia.
    rewrite !Z.pow_add_r by lia.
    assert (0 < 2 ^ Z.pos p) as HP by (apply Z.pow_pos_nonneg; lia).
    set (P := 2 ^ Z.pos p) in *.
    set (m3 := shr_m (SpecFloat.iter_pos shr_1 p
                        (SpecFloat.iter_pos shr_1 p mrs))) in *.
    set (m2 := shr_m (SpecFloat.iter_pos shr_1 p mrs)) in *.
    assert (P * (P * m3) <= P * m2) by (apply Z.mul_le_mono_nonneg_l; lia).
    lia.
  - destruct (shr_1_le mrs H) as [H1 H1']. split; [exact H1|].
    change (2 ^ 1) with 2. exact H1'.
Qed.

(** Shifting a mantissa to its format exponent rounds its value down. *)
Lemma shr_fexp_le m e l :
  0 <= m ->
  0 <= shr_m (fst (shr_fexp prec emax m e l)) /\
  snd (shr_fexp prec emax m e l) =
    Z.max e (fexp prec emax (Zdigits2 m + e)) /\
  shr_m (fst (shr_fexp prec emax m e l)) *
    2 ^ (snd (shr_fexp prec emax m e l) - e) <= m.
Proof.
  intros Hm. unfold shr_fexp, shr.
  destruct (fexp prec emax (Zdigits2 m + e) - e) as [|p|p] eqn:Hn; simpl.
  - rewrite shr_record_of_loc_m, Z.sub_diag. simpl. lia.
  - pose proof (iter_shr_1_le p (shr_record_of_loc m l)) as H.
    rewrite shr_record_of_loc_m in H. specialize (H Hm).
    replace (e + Z.pos p - e) with (Z.pos p) by lia. lia.
  - rewrite shr_record_of_loc_m, Z.sub_diag. simpl. lia.
Qed.

(** Rounding a mantissa at exponent [e] gives zero or a mantissa whose
    value exceeds the exact one by at most one unit of the format
    exponent. *)
Lemma round_aux_bound sx m e l :
  0 <= m ->
  binary_round_aux prec emax sx m e l = S754_zero sx \/
  exists m' e',
    e <= e' /\
    Z.pos m' * 2 ^ (e' - e) <=
      m + 2 ^ (Z.max e (fexp prec emax (Zdigits2 m + e)) - e) /\
    binary_round_aux prec emax sx m e l =
      if e' <=? emax - prec then S754_finite sx m' e' else S754_infinity sx.
Proof.
  intros Hm. unfold binary_round_aux.
  destruct (shr_fexp_le m e l Hm) as (Hm1 & He1 & Hv1).
  destruct (shr_fexp prec emax m e l) as [mrs1 e1]. simpl in Hm1, He1, Hv1.
  set (mr := round_nearest_even (shr_m mrs1) (loc_of_shr_record mrs1)).
  assert (0 <= mr <= shr_m mrs1 + 1) as Hmr
    by (apply round_nearest_even_bound; lia).
  destruct (shr_fexp_le mr e1 loc_Exact) as (Hm2 & He2 & Hv2); [lia|].
  destruct (shr_fexp prec emax mr e1 loc_Exact) as [mrs2 e2].
  simpl in Hm2, He2, Hv2.
  destruct (shr_m mrs2) as [|p|p] eqn:E; [left; reflexivity| |lia].
  right. exists p, e2. split; [lia|]. split; [|reflexivity].
  rewrite <- He1.
  replace (e2 - e) with ((e2 - e1) + (e1 - e)) by lia.
  rewrite Z.pow_add_r by lia.
  assert (0 < 2 ^ (e1 - e)) as HB by (apply Z.pow_pos_nonneg; lia).
  set (A := 2 ^ (e2 - e1)) in *. set (B := 2 ^ (e1 - e)) in *.
  assert (Z.pos p * A * B <= (shr_m mrs1 + 1) * B)
    by (apply Z.mul_le_mono_nonneg_r; lia).
  lia.
Qed.

Lemma digits2_lt p : Z.pos p < 2 ^ Z.pos (digits2_pos p).
Proof.
  induction p as [p IH|p IH|]; simpl digits2_pos;
    rewrite ?Pos2Z.inj_succ, ?Z.pow_succ_r by lia; lia.
Qed.

Lemma Zdigits2_mono pa pb :
  Z.pos pa <= Z.pos pb -> Zdigits2 (Z.pos pa) <= Zdigits2 (Z.pos pb).
Proof.
  intros H. apply Zdigits2_bound; [|simpl; lia].
  pose proof (digits2_lt pb). simpl. lia.
Qed.
(** ** The quotient *)

(** The quotient of two positive integers, the first no larger than the
    second, is zero or a float of value at most [1 + 2^-52]. *)
Lemma div_bound pa pb :
  Z.pos pa <= Z.pos pb ->
  SFdiv prec emax (S754_finite false pa 0) (S754_finite false pb 0) =
    S754_zero false \/
  exists m e s,
    53 <= s /\ - s <= e /\
    SFdiv prec emax (S754_finite false pa 0) (S754_finite false pb 0) =
      S754_finite false m e /\
    Z.pos m * 2 ^ (e + s) <= 2 ^ s + 2 ^ (s - 52).
Proof.
  intros Hab.
  pose proof (fun sg => div_no_overflow pa pb sg Hab) as Hfin.
  unfold SFdiv, SFdiv_core_binary in *.
  set (e' := Z.min _ (0 - 0)) in *.
  assert (-1074 <= e' <= -53) as He'.
  { subst e'. rewrite fexp_eq. pose proof (Zdigits2_mono pa pb Hab). lia. }
  set (s := 0 - 0 - e') in *. assert (s = - e') as Hs by lia.
  set (m' := match s with Z0 => Z.pos pa | Zpos _ => Z.shiftl (Z.pos pa) s
             | Zneg _ => 0 end) in *.
  assert (m' = Z.pos pa * 2 ^ s) as Hm'.
  { subst m'. destruct s as [|p|p] eqn:E; [simpl; lia| |lia].
    apply Z.shiftl_mul_pow2. lia. }
  destruct (Z.div_eucl m' (Z.pos pb)) as [q r] eqn:Hdiv.
  apply div_eucl_div in Hdiv.
  assert (0 < 2 ^ s) as Hpow by (apply Z.pow_pos_nonneg; lia).
  assert (0 <= q <= 2 ^ s) as Hq.
  { subst q. split.
    - apply Z.div_pos; lia.
    - apply Z.div_le_upper_bound; [lia|]. rewrite Hm'. nia. }
  destruct (round_aux_bound (xorb false false) q e'
              (new_location (Z.pos pb) r) ltac:(lia))
    as [Hz|(m & e & He & Hv & Hr)].
  - left. exact Hz.
  - right. exists m, e, s. rewrite Hr in *.
    destruct (e <=? emax - prec); [|exfalso; eapply Hfin; reflexivity].
    split; [lia|]. split; [lia|]. split; [reflexivity|].
    replace (e + s) with (e - e') by lia.
    assert (2 ^ s < 2 ^ (s + 1)) by (apply Z.pow_lt_mono_r; lia).
    assert (Zdigits2 q <= s + 1) by (apply Zdigits2_bound; lia).
    assert (2 ^ (Z.max e' (fexp prec emax (Zdigits2 q + e')) - e')
            <= 2 ^ (s - 52)).
    { apply Z.pow_le_mono_r; [lia|]. rewrite fexp_eq. lia. }
    lia.
Qed.
(** ** The product and its printed tenths *)

Lemma normalize_hundred : binary_normalize prec emax 100 0 false = hundred.
Proof. vm_compute. reflexivity. Qed.

Lemma round_tenths_nonneg m e : 0 <= round_tenths m e.
Proof.
  unfold round_tenths. destruct (0 <=? e) eqn:E.
  - apply Z.leb_le in E.
    assert (0 < 2 ^ e) by (apply Z.pow_pos_nonneg; lia).
    apply Z.mul_nonneg_nonneg; lia.
  - apply Z.leb_gt in E.
    assert (0 < 2 ^ (- e)) by (apply Z.pow_pos_nonneg; lia).
    assert (0 <= Z.pos m * 10 / 2 ^ (- e)) by (apply Z.div_pos; lia).
    destruct (2 * ((Z.pos m * 10) mod 2 ^ (- e)) ?= 2 ^ (- e));
      try destruct (Z.even _); lia.
Qed.

(** A float below 100.05, given at the scale [2^-T], prints as at most
    1000 tenths. *)
Lemma round_tenths_le m e T :
  0 <= e + T -> 0 <= T ->
  20 * (Z.pos m * 2 ^ (e + T)) < 2001 * 2 ^ T ->
  round_tenths m e <= 1000.
Proof.
  intros HeT HT H. unfold round_tenths.
  assert (0 < 2 ^ T) as Ht by (apply Z.pow_pos_nonneg; lia).
  destruct (0 <=? e) eqn:E.
  - apply Z.leb_le in E. rewrite Z.pow_add_r in H by lia.
    assert (0 < 2 ^ e) as Ha by (apply Z.pow_pos_nonneg; lia).
    set (a := 2 ^ e) in *. set (t := 2 ^ T) in *.
    assert (20 * (Z.pos m * a) < 2001) as Hlt.
    { apply (Z.mul_lt_mono_pos_r t); [exact Ht|]. lia. }
    lia.
  - apply Z.leb_gt in E.
    assert (0 < 2 ^ (- e)) as Hd by (apply Z.pow_pos_nonneg; lia).
    assert (0 < 2 ^ (e + T)) as Hw by (apply Z.pow_pos_nonneg; lia).
    assert (2 ^ T = 2 ^ (e + T) * 2 ^ (- e)) as HT2
      by (rewrite <- Z.pow_add_r by lia; f_equal; lia).
    set (d := 2 ^ (- e)) in *. set (w := 2 ^ (e + T)) in *.
    assert (20 * Z.pos m < 2001 * d) as Hlt.
    { apply (Z.mul_lt_mono_pos_r w); [exact Hw|]. lia. }
    pose proof (Z.div_mod (Z.pos m * 10) d ltac:(lia)) as Hdiv.
    pose proof (Z.mod_pos_bound (Z.pos m * 10) d Hd) as Hmod.
    set (q := Z.pos m * 10 / d) in *. set (r := (Z.pos m * 10) mod d) in *.
    assert (q <= 1000) as Hq.
    { destruct (Z.le_gt_cases q 1000) as [|Hgt]; [assumption|].
      assert (1001 * d <= d * q) by nia. lia. }
    assert (q <= 999 \/ 2 * r < d) as Hcase.
    { destruct (Z.le_gt_cases q 999) as [|Hgt]; [left; assumption|].
      right. assert (q = 1000) as Hq1 by lia. rewrite Hq1 in Hdiv. lia. }
    destruct (Z.compare_spec (2 * r) d) as [Hc|Hc|Hc];
      try destruct (Z.even q); lia.
Qed.

(** A float of value at most [1 + 2^-52], times 100, is zero or prints
    as at most 1000 tenths. *)
Lemma mul_hundred_bound m e s :
  53 <= s -> - s <= e ->
  Z.pos m * 2 ^ (e + s) <= 2 ^ s + 2 ^ (s - 52) ->
  float_mul_int (S754_finite false m e) 100 = S754_zero false \/
  exists m4 e4,
    float_mul_int (S754_finite false m e) 100 = S754_finite false m4 e4 /\
    round_tenths m4 e4 <= 1000.
Proof.
  intros Hs He Hq. unfold float_mul_int. rewrite normalize_hundred.
  unfold hundred. cbn [SFmul].
  set (H := 7036874417766400%positive).
  assert (0 < 2 ^ (e + s)) as Hw by (apply Z.pow_pos_nonneg; lia).
  assert (0 < 2 ^ (s - 52)) as Hu by (apply Z.pow_pos_nonneg; lia).
  assert (2 ^ s = 4503599627370496 * 2 ^ (s - 52)) as Hs2.
  { replace s with (52 + (s - 52)) at 1 by lia.
    rewrite Z.pow_add_r by lia. reflexivity. }
  assert (e <= 0) as He0.
  { destruct (Z.le_gt_cases e 0) as [|Hgt]; [assumption|]. exfalso.
    assert (2 ^ (s + 1) <= 2 ^ (e + s)) by (apply Z.pow_le_mono_r; lia).
    assert (2 ^ (s + 1) = 2 ^ s * 2) by (apply Z.pow_add_r; lia).
    assert (2 ^ (e + s) <= Z.pos m * 2 ^ (e + s)) by nia.
    lia. }
  set (w := 2 ^ (e + s)) in *. set (u := 2 ^ (s - 52)) in *.
  set (S' := 2 ^ s) in *.
  destruct (round_aux_bound (xorb false false) (Z.pos (m * H)) (e + -46)
              loc_Exact ltac:(lia)) as [Hz|(m4 & e4 & He4 & Hv & Hr)].
  { left. exact Hz. }
  right. exists m4, e4. rewrite Hr.
  set (E := e + -46) in *.
  assert (Z.pos (m * H) * w <= Z.pos H * (S' + u)) as HM.
  { rewrite Pos2Z.inj_mul.
    replace (Z.pos m * Z.pos H * w) with (Z.pos H * (Z.pos m * w)) by ring.
    apply Z.mul_le_mono_nonneg_l; lia. }
  assert (2 ^ (53 - e) * w = 9007199254740992 * S') as H53.
  { subst w S'. rewrite <- Z.pow_add_r by lia.
    replace (53 - e + (e + s)) with (53 + s) by lia.
    rewrite Z.pow_add_r by lia. reflexivity. }
  assert (Z.pos (m * H) < 2 ^ (53 - e)) as Hdig.
  { apply (Z.mul_lt_mono_pos_r w); [exact Hw|]. subst H. lia. }
  assert (Zdigits2 (Z.pos (m * H)) <= 53 - e)
    by (apply Zdigits2_bound; lia).
  set (e3 := Z.max E (fexp prec emax (Zdigits2 (Z.pos (m * H)) + E))) in *.
  assert (E <= e3 <= -46) as He3 by (subst e3 E; rewrite fexp_eq; lia).
  assert (2 ^ (e3 - E) <= 2 ^ (- e)) as Hc
    by (apply Z.pow_le_mono_r; subst E; lia).
  assert (2 ^ (- e) * w = S') as Hg
    by (subst w S'; rewrite <- Z.pow_add_r by lia; f_equal; lia).
  set (T := s + 46).
  assert (2 ^ (e4 + T) = 2 ^ (e4 - E) * w) as HeT.
  { subst w T E. rewrite <- Z.pow_add_r by lia. f_equal. lia. }
  assert (2 ^ T = 70368744177664 * S') as HT.
  { subst T S'. rewrite Z.pow_add_r by lia. change (2 ^ 46) with 70368744177664.
    lia. }
  assert (0 < 2 ^ (e4 - E)) as HA by (apply Z.pow_pos_nonneg; lia).
  assert (0 < 2 ^ (e3 - E)) as Hc0 by (apply Z.pow_pos_nonneg; lia).
  set (A := 2 ^ (e4 - E)) in *. set (c := 2 ^ (e3 - E)) in *.
  set (g := 2 ^ (- e)) in *.
  assert (Z.pos m4 * A * w <= (Z.pos (m * H) + c) * w) as H1
    by (apply Z.mul_le_mono_nonneg_r; lia).
  assert (c * w <= g * w) as H2 by (apply Z.mul_le_mono_nonneg_r; lia).
  assert (20 * (Z.pos m4 * 2 ^ (e4 + T)) < 2001 * 2 ^ T) as HX.
  { rewrite HeT, HT.
    replace (Z.pos m4 * (A * w)) with (Z.pos m4 * A * w) by ring.
    subst H. lia. }
  assert (e4 < 7) as He7.
  { destruct (Z.lt_ge_cases e4 7) as [|Hge]; [assumption|]. exfalso.
    assert (2 ^ (7 + T) <= 2 ^ (e4 + T))
      by (apply Z.pow_le_mono_r; subst T; lia).
    assert (2 ^ (7 + T) = 128 * 2 ^ T)
      by (rewrite Z.pow_add_r by (subst T; lia); reflexivity).
    assert (2 ^ (e4 + T) <= Z.pos m4 * 2 ^ (e4 + T)).
    { assert (0 < 2 ^ (e4 + T)) by (apply Z.pow_pos_nonneg; subst T E; lia).
      nia. }
    lia. }
  replace (e4 <=? emax - prec) with true
    by (symmetry; apply Z.leb_le; change (emax - prec) with 971; lia).
  split; [reflexivity|].
  apply (round_tenths_le m4 e4 T); [subst T E; lia|subst T; lia|exact HX].
Qed.
(** For counters [0 <= a <= b] with [b] positive, the rate is a float
    that prints as a number of tenths between 0 and 1000. *)
Lemma success_rate_tenths a b :
  0 <= a <= b -> 0 < b ->
  exists x k,
    success_rate a b = Ok x /\ 0 <= k <= 1000 /\
    fmt_1f x = str_of_int (k / 10) ++ lit "." ++ str_of_int (k mod 10) /\
    (x = S754_zero false /\ k = 0 \/
     exists m e, x = S754_finite false m e /\ k = round_tenths m e).
Proof.
  intros Ha Hb.
  assert (float_mul_int (S754_zero false) 100 = S754_zero false) as Hzero
    by (vm_compute; reflexivity).
  assert (fmt_1f (S754_zero false) =
          str_of_int (0 / 10) ++ lit "." ++ str_of_int (0 mod 10)) as Hfmt
    by (vm_compute; reflexivity).
  unfold success_rate, true_div.
  destruct (b =? 0) eqn:Eb; [apply Z.eqb_eq in Eb; lia|].
  destruct (a =? 0) eqn:Ea.
  { replace (b <? 0) with false by (symmetry; apply Z.ltb_ge; lia).
    exists (S754_zero false), 0. rewrite Hzero.
    split; [reflexivity|]. split; [lia|]. split; [exact Hfmt|]. auto. }
  apply Z.eqb_neq in Ea.
  destruct a as [|pa|pa]; try lia. destruct b as [|pb|pb]; try lia.
  simpl int_as_float.
  destruct (div_bound pa pb ltac:(lia)) as [->|(m & e & s & Hs & He & -> & Hq)].
  { exists (S754_zero false), 0. rewrite Hzero.
    split; [reflexivity|]. split; [lia|]. split; [exact Hfmt|]. auto. }
  destruct (mul_hundred_bound m e s Hs He Hq) as [->|(m4 & e4 & -> & Hk)].
  { exists (S754_zero false), 0.
    split; [reflexivity|]. split; [lia|]. split; [exact Hfmt|]. auto. }
  exists (S754_finite false m4 e4), (round_tenths m4 e4).
  split; [reflexivity|].
  split; [pose proof (round_tenths_nonneg m4 e4); lia|].
  split; [reflexivity|]. right. eauto.
Qed.

(** * The success rate is the exact quotient, up to rounding *)

(** ** Shifting and rounding, from below *)





(** ** The quotient *)

(** ** The product *)


(** ** The rate *)



(** * Whole runs *)

Section WholeRuns.

Variable loads : str -> decoded.
Variable exn_str : exn -> str.
Variable py_str : json -> str.
Variable now : str.
Variable encodes : str -> bool.




(** The statistics of a file that was read to its end are
    consistent. *)
Lemma parse_log_true_counters log_file f out s :
  parse_log loads exn_str encodes log_file f init_stats = (Ok true, out, s) ->
  counters_ok s /\ out = [].
Proof.
  intros Hp.
  pose proof (parse_log_counters loads exn_str encodes log_file f) as Hc.
  rewrite Hp in Hc. split; [exact Hc|].
  apply parse_log_true in Hp as (lines & _ & -> & _). reflexivity.
Qed.

(** A run on a file that was read to its end is the printing of the
    report. *)
Lemma run_of_read_file log_file f out s :
  parse_log loads exn_str encodes log_file f init_stats = (Ok true, out, s) ->
  run loads exn_str py_str now encodes log_file f =
  match print_all encodes (report_texts py_str now log_file s) with
  | (out', None) => (out', if failed_tasks s =? 0 then 0 else 1)
  | (out', Some _) => (out', 1)
  end.
Proof.
  intros Hp. destruct (parse_log_true_counters _ _ _ _ Hp) as [Hc ->].
  unfold counters_ok in Hc. unfold run. rewrite Hp.
  rewrite (generate_report_prints py_str now encodes log_file s) by lia.
  destruct (print_all encodes _) as [out' [e|]]; reflexivity.
Qed.

Lemma run_full log_file f out s :
  parse_log loads exn_str encodes log_file f init_stats = (Ok true, out, s) ->
  forallb encodes (report_texts py_str now log_file s) = true ->
  run loads exn_str py_str now encodes log_file f =
    (report_texts py_str now log_file s,
     if failed_tasks s =? 0 then 0 else 1).
Proof.
  intros Hp Henc. rewrite (run_of_read_file _ _ _ _ Hp).
  rewrite (print_all_full _ _ Henc). reflexivity.
Qed.

(** A run that ends with status 0 has printed the whole report of a
    file without failed tasks. *)
Lemma run_status_zero log_file f :
  snd (run loads exn_str py_str now encodes log_file f) = 0 ->
  exists lines s,
    f = Content lines None /\
    read_lines loads lines init_stats = (Ok tt, s) /\
    parse_log loads exn_str encodes log_file f init_stats = (Ok true, [], s) /\
    failed_tasks s = 0 /\
    forallb encodes (report_texts py_str now log_file s) = true /\
    fst (run loads exn_str py_str now encodes log_file f) =
      report_texts py_str now log_file s.
Proof.
  intros H0.
  destruct (parse_log loads exn_str encodes log_file f init_stats)
    as [[flag out] s] eqn:Hp.
  destruct flag as [[|]|e];
    try (unfold run in H0; rewrite Hp in H0; discriminate).
  pose proof (run_of_read_file _ _ _ _ Hp) as Hrun.
  pose proof Hp as Hp'.
  apply parse_log_true in Hp' as (lines & -> & -> & Hr).
  exists lines, s. split; [reflexivity|]. split; [exact Hr|].
  split; [reflexivity|].
  rewrite Hrun in *.
  destruct (print_all encodes _) as [out' [e|]] eqn:Hprint;
    [discriminate|].
  destruct (print_all_none _ _ _ Hprint) as [-> Henc].
  simpl in H0. destruct (failed_tasks s =? 0) eqn:E; [|discriminate].
  apply Z.eqb_eq in E. auto.
Qed.

(** ** The last text of the report *)

(** With a task counted, the report ends with the line of the rate. *)
Lemma report_texts_rate log_file s :
  0 <= ok_tasks s <= total_tasks s -> 0 < total_tasks s ->
  exists x,
    success_rate (ok_tasks s) (total_tasks s) = Ok x /\
    report_texts py_str now log_file s =
      (report_header now log_file ++ report_statistics s ++
       report_failures py_str s) ++
      [lit "Success rate: " ++ fmt_1f x ++ lit "%"].
Proof.
  intros H Ht. unfold report_texts, success_rate.
  destruct (true_div_returns (ok_tasks s) (total_tasks s) H Ht) as [q ->].
  exists (float_mul_int q 100). split; [reflexivity|].
  replace (0 <? total_tasks s) with true by (symmetry; apply Z.ltb_lt; lia).
  rewrite <- !app_assoc. reflexivity.
Qed.



End WholeRuns.

(** * The aggregator *)

(** X18.  Whatever records the aggregator has consumed from the empty
    state, and whether the last step returned or raised,
    [total_tasks = ok_tasks + failed_tasks].  When the records were all
    consumed, [ok_tasks] and [failed_tasks] are the numbers of
    [runner_on_ok] and [runner_on_failed] records that carry [event_data]
    and [total_tasks] is their sum; the same holds for the records decoded
    from the lines of a file.  Records of the documented shape are always
    all consumed.  A [runner_on_skipped] record never changes
    [total_tasks]. *)
Theorem total_is_ok_plus_failed (loads : str -> decoded) :
  (forall entries,
     let s := snd (process_all entries init_stats) in
     total_tasks s = ok_tasks s + failed_tasks s) /\
  (forall entries,
     forallb log_record entries = true ->
     fst (process_all entries init_stats) = Ok tt) /\
  (forall entries s,
     process_all entries init_stats = (Ok tt, s) ->
     total_tasks s = count_events runner_on_ok entries
                     + count_events runner_on_failed entries /\
     ok_tasks s = count_events runner_on_ok entries /\
     failed_tasks s = count_events runner_on_failed entries) /\
  (forall lines s,
     read_lines loads lines init_stats = (Ok tt, s) ->
     let entries := decoded_records loads lines in
     total_tasks s = count_events runner_on_ok entries
                     + count_events runner_on_failed entries /\
     ok_tasks s = count_events runner_on_ok entries /\
     failed_tasks s = count_events runner_on_failed entries) /\
  (forall entry s,
     is_event runner_on_skipped entry = true ->
     total_tasks (snd (_process_entry entry s)) = total_tasks s).
Proof.
  assert (forall entries s,
     process_all entries init_stats = (Ok tt, s) ->
     total_tasks s = count_events runner_on_ok entries
                     + count_events runner_on_failed entries /\
     ok_tasks s = count_events runner_on_ok entries /\
     failed_tasks s = count_events runner_on_failed entries) as Hcount.
  { intros entries s H. apply process_all_counts in H. simpl in H. lia. }
  split; [|split; [|split; [|split]]].
  - intros entries. apply (process_all_counters entries init_stats init_counters).
  - intros entries. apply process_all_returns.
  - apply Hcount.
  - intros lines s H. apply Hcount, read_lines_ok, H.
  - intros entry s. apply process_entry_untouched.
Qed.

(** X19.  After a sequence of records has been aggregated to its end,
    [failed_tasks] is the length of [failed_details], whose entries are
    those of the [runner_on_failed] records in the order met.  Records of the
    documented shape are always all aggregated, and such a
    [runner_on_failed] record adds exactly one entry, made of its [task],
    [remote_addr] and [msg], with ["Unknown"], ["Unknown"] and
    ["No error message"] for the fields that are missing. *)
Theorem failed_tasks_is_length_failed_details :
  (forall entries s,
     process_all entries init_stats = (Ok tt, s) ->
     failed_tasks s = Z.of_nat (length (failed_details s)) /\
     failed_details s = failures_of entries) /\
  (forall entries,
     forallb log_record entries = true ->
     exists s, process_all entries init_stats = (Ok tt, s)) /\
  (forall entry event_data s,
     log_record entry = true ->
     event_data_of entry = Some event_data ->
     is_event runner_on_failed entry = true ->
     exists s',
       _process_entry entry s = (Ok tt, s') /\
       failed_details s' = failed_details s ++ [failure_of event_data] /\
       failed_tasks s' = failed_tasks s + 1) /\
  (forall event_data,
     task (failure_of event_data) =
       default (JStr (lit "Unknown")) (event_data !! task_key) /\
     host (failure_of event_data) =
       default (JStr (lit "Unknown")) (event_data !! remote_addr_key) /\
     error (failure_of event_data) =
       default (JStr (lit "No error message")) (event_data !! msg_key)).
Proof.
  split; [|split; [|split]].
  - intros entries s H. split.
    + apply (process_all_failed_length entries init_stats s H). reflexivity.
    + apply (process_all_details entries init_stats s H).
  - intros entries H.
    pose proof (process_all_returns entries init_stats H) as Hret.
    destruct (process_all entries init_stats) as [r s]. simpl in Hret.
    subst r. exists s. reflexivity.
  - intros entry event_data s Hshape Hdata Hevent.
    pose proof (process_entry_returns entry s Hshape) as Hret.
    destruct (_process_entry entry s) as [r s'] eqn:Hstep.
    simpl in Hret. subst r. exists s'. split; [reflexivity|].
    pose proof (process_entry_details _ _ _ Hstep) as Hd.
    destruct (process_entry_counts _ _ _ Hstep) as (_ & Hf & _).
    simpl in Hd. rewrite Hdata, Hevent in Hd. rewrite Hevent in Hf. auto.
  - intros event_data. repeat split.
Qed.

(** X20.  After a sequence of records has been aggregated to its end,
    [hosts] holds exactly the [remote_addr] values found in the
    [event_data] of the records, whatever their [event], each once: every such value has an
    equal member, every member is such a value, no two members are equal,
    and the size is the number of distinct values.  Records of the
    documented shape are always all aggregated. *)
Theorem hosts_are_distinct_remote_addrs :
  (forall entries s,
     process_all entries init_stats = (Ok tt, s) ->
     (forall addr, In addr (remote_addrs entries) ->
        existsb (hash_eq addr) (hosts s) = true) /\
     (forall h, In h (hosts s) -> In h (remote_addrs entries)) /\
     distinct (hosts s) /\
     length (hosts s) = count_distinct (remote_addrs entries)) /\
  (forall entries,
     forallb log_record entries = true ->
     exists s, process_all entries init_stats = (Ok tt, s)) /\
  (forall entry addr s s',
     remote_addr_of entry = Some addr ->
     _process_entry entry s = (Ok tt, s') ->
     hosts s' = set_add addr (hosts s)).
Proof.
  split; [|split].
  - intros entries s H. apply process_all_hosts in H as [Hh Hf]. simpl in Hh.
    rewrite Hh. split; [|split; [|split]].
    + intros addr Hin. apply add_all_represents; [exact Hin|].
      rewrite Forall_forall in Hf. apply Hf. apply list_elem_of_In, Hin.
    + intros h Hin. apply add_all_members in Hin as [[]|Hin]. exact Hin.
    + apply add_all_distinct. exact I.
    + apply add_all_length_empty.
  - intros entries H.
    pose proof (process_all_returns entries init_stats H) as Hret.
    destruct (process_all entries init_stats) as [r s]. simpl in Hret.
    subst r. exists s. reflexivity.
  - intros entry addr s s' Haddr Hstep.
    apply process_entry_hosts in Hstep as [Hh _].
    unfold remote_addrs in Hh. simpl in Hh. rewrite Haddr in Hh. exact Hh.
Qed.

(** C9.  Whatever records the aggregator has consumed from the empty
    state, [changed_tasks <= ok_tasks <= total_tasks].  Only a
    [runner_on_ok] record can change [changed_tasks]: a [runner_on_failed]
    or [runner_on_skipped] record leaves it alone, whatever its
    [changed] field holds. *)
Theorem changed_le_ok_le_total :
  (forall entries,
     let s := snd (process_all entries init_stats) in
     changed_tasks s <= ok_tasks s <= total_tasks s) /\
  (forall entry s,
     is_event runner_on_ok entry = false ->
     changed_tasks (snd (_process_entry entry s)) = changed_tasks s) /\
  (forall entry s,
     is_event runner_on_failed entry = true \/
     is_event runner_on_skipped entry = true ->
     changed_tasks (snd (_process_entry entry s)) = changed_tasks s).
Proof.
  split; [|split].
  - intros entries.
    pose proof (process_all_counters entries init_stats init_counters) as H.
    unfold counters_ok in H. simpl. lia.
  - intros entry s. apply process_entry_untouched.
  - intros entry s H. apply process_entry_untouched.
    unfold is_event in *. destruct entry as [| | | | |l|d]; try reflexivity.
    destruct (event_kinds_distinct (default JNull (d !! event_key)))
      as (_ & Hfailed & Hskipped).
    destruct H as [H|H]; apply andb_true_iff in H as [_ H];
      [destruct (Hfailed H) as [-> _]|destruct (Hskipped H) as [-> _]];
      apply andb_false_r.
Qed.

(** * The claims *)

Section Claims.

Variable loads : str -> decoded.
Variable exn_str : exn -> str.
Variable py_str : json -> str.
Variable now : str.
Variable encodes : str -> bool.

(** C1 (the code departs from the claim).  In a file whose first line
    decodes to the number 5 and whose second line is a [runner_on_ok]
    record, the valid JSON lines hold one [runner_on_ok] event and no
    [runner_on_failed] one.  The aggregator raises [TypeError] on the
    5, which ends the reading: the record after it is never counted,
    [total_tasks] and [ok_tasks] are 0 and not 1, and the run ends with
    the error message and status 1. *)
Theorem counts_miss_records_after_an_abort
    (log_file line1 line2 : str) (entry : json) :
  loads (strip line1) = Decoded (JInt 5) ->
  loads (strip line2) = Decoded entry ->
  is_event runner_on_ok entry = true ->
  let lines := [line1; line2] in
  let entries := decoded_records loads lines in
  let s := snd (parse_log loads exn_str encodes log_file
                  (Content lines None) init_stats) in
  count_events runner_on_ok entries = 1 /\
  count_events runner_on_failed entries = 0 /\
  process_all entries init_stats =
    (Raise (TypeError (JInt 5)), init_stats) /\
  total_tasks s = 0 /\ ok_tasks s = 0 /\ failed_tasks s = 0 /\
  run loads exn_str py_str now encodes log_file (Content lines None) =
    ([lit "Error reading log file: " ++ exn_str (TypeError (JInt 5))], 1).
Proof.
  intros H1 H2 Hok lines entries s.
  assert (entries = [JInt 5; entry]) as ->
    by (subst entries lines; unfold decoded_records; simpl;
        rewrite H1, H2; reflexivity).
  assert (is_event runner_on_failed entry = false) as Hfailed.
  { unfold is_event in *. destruct entry as [| | | | |l|d]; try reflexivity.
    apply andb_true_iff in Hok as [_ Hok].
    destruct (event_kinds_distinct (default JNull (d !! event_key)))
      as (Hk & _ & _).
    destruct (Hk Hok) as [-> _]. apply andb_false_r. }
  assert (parse_log loads exn_str encodes log_file (Content lines None)
            init_stats =
          (Ok false,
           [lit "Error reading log file: " ++ exn_str (TypeError (JInt 5))],
           init_stats)) as Hp.
  { subst lines. unfold parse_log, read_file. simpl. rewrite H1.
    reflexivity. }
  subst s. unfold run. rewrite Hp. cbn [count_events snd].
  rewrite Hok, Hfailed. repeat split.
Qed.


(** C4.  A line whose text does not decode can be put anywhere in a
    file: the flag, the printed text and the statistics of [parse_log],
    and the output and exit status of the run, are those of the file
    without it. *)
Theorem undecodable_line_leaves_no_trace
    (log_file : str) (before after : list str) (line : str)
    (failure : option exn) :
  loads (strip line) = JSONDecodeError ->
  parse_log loads exn_str encodes log_file
    (Content (before ++ line :: after) failure) init_stats =
  parse_log loads exn_str encodes log_file
    (Content (before ++ after) failure) init_stats /\
  run loads exn_str py_str now encodes log_file
    (Content (before ++ line :: after) failure) =
  run loads exn_str py_str now encodes log_file
    (Content (before ++ after) failure).
Proof.
  intros H.
  destruct (run_skip loads exn_str py_str now encodes log_file before line
              after failure H) as [Hp Hr].
  split; [rewrite Hp; reflexivity|exact Hr].
Qed.

(** C5 (the code departs from the claim).  On the [runner_on_failed]
    record whose [event_data] is the text ["none"] the aggregator
    increments [total_tasks] and [failed_tasks] and then raises
    [AttributeError] on [event_data.get] before anything is appended:
    a file with that line leaves [failed_tasks] at 1 and
    [failed_details] empty, and the run ends with the error message and
    status 1. *)
Theorem failure_counted_without_details (log_file line : str) :
  loads (strip line) = Decoded (JDict sample_text_data) ->
  let culprit := JStr (lit "none") in
  (forall s,
     _process_entry (JDict sample_text_data) s =
       (Raise (AttributeError culprit), incr_failed (incr_total s)) /\
     failed_tasks (incr_failed (incr_total s)) = failed_tasks s + 1 /\
     failed_details (incr_failed (incr_total s)) = failed_details s) /\
  (exists s,
     parse_log loads exn_str encodes log_file (Content [line] None)
       init_stats =
       (Ok false,
        [lit "Error reading log file: " ++
         exn_str (AttributeError culprit)], s) /\
     failed_tasks s = 1 /\ length (failed_details s) = 0%nat) /\
  run loads exn_str py_str now encodes log_file (Content [line] None) =
    ([lit "Error reading log file: " ++ exn_str (AttributeError culprit)],
     1).
Proof.
  intros H culprit.
  assert (forall s,
    _process_entry (JDict sample_text_data) s =
      (Raise (AttributeError culprit), incr_failed (incr_total s))) as Hstep
    by (intros s; vm_compute; reflexivity).
  assert (parse_log loads exn_str encodes log_file (Content [line] None)
            init_stats =
          (Ok false,
           [lit "Error reading log file: " ++
            exn_str (AttributeError culprit)],
           incr_failed (incr_total init_stats))) as Hp.
  { unfold parse_log, read_file. simpl read_lines. rewrite H.
    unfold bind at 1 2. rewrite Hstep. reflexivity. }
  split; [|split].
  - intros s. split; [apply Hstep|]. split; reflexivity.
  - eexists. split; [exact Hp|]. split; reflexivity.
  - unfold run. rewrite Hp. reflexivity.
Qed.



(** C8 (the code departs from the claim).  In a file whose first line
    decodes to the number 5 and whose second line is a record with a
    [remote_addr], the records hold one distinct [remote_addr], yet
    [hosts] is left empty: the aggregator raises [TypeError] on the 5,
    which ends the reading.  And a [remote_addr] that is a JSON array
    never gets into [hosts]: [set.add] raises [TypeError] on it and
    the statistics stay as they were. *)
Theorem hosts_miss_addresses_after_an_abort
    (log_file line1 line2 : str) (entry addr : json) :
  loads (strip line1) = Decoded (JInt 5) ->
  loads (strip line2) = Decoded entry ->
  remote_addr_of entry = Some addr ->
  let lines := [line1; line2] in
  let entries := decoded_records loads lines in
  let s := snd (parse_log loads exn_str encodes log_file
                  (Content lines None) init_stats) in
  (remote_addrs entries = [addr] /\
   count_distinct (remote_addrs entries) = 1%nat /\
   hosts s = [] /\
   run loads exn_str py_str now encodes log_file (Content lines None) =
     ([lit "Error reading log file: " ++ exn_str (TypeError (JInt 5))],
      1)) /\
  (forall d event_data l s0,
     d !! event_data_key = Some (JDict event_data) ->
     event_data !! remote_addr_key = Some (JList l) ->
     remote_addr_of (JDict d) = Some (JList l) /\
     _process_entry (JDict d) s0 = (Raise (TypeError (JList l)), s0)).
Proof.
  intros H1 H2 Haddr lines entries s. split.
  - assert (entries = [JInt 5; entry]) as ->
      by (subst entries lines; unfold decoded_records; simpl;
          rewrite H1, H2; reflexivity).
    assert (parse_log loads exn_str encodes log_file (Content lines None)
              init_stats =
            (Ok false,
             [lit "Error reading log file: " ++
              exn_str (TypeError (JInt 5))],
             init_stats)) as Hp.
    { subst lines. unfold parse_log, read_file. simpl. rewrite H1.
      reflexivity. }
    subst s. unfold run. rewrite Hp.
    unfold remote_addrs. cbn [omap list_omap remote_addr_of snd].
    rewrite Haddr. repeat split.
  - intros d event_data l s0 Hd Hl. split.
    + unfold remote_addr_of. rewrite Hd. exact Hl.
    + unfold _process_entry, bind, lift, ret.
      cbn [contains getitem]. rewrite Hd.
      replace (bool_decide (is_Some (Some (JDict event_data)))) with true
        by (symmetry; apply bool_decide_eq_true; eauto).
      cbn [negb contains getitem]. rewrite Hl.
      replace (bool_decide (is_Some (Some (JList l)))) with true
        by (symmetry; apply bool_decide_eq_true; eauto).
      reflexivity.
Qed.

(** C10.  A line is stripped before it is decoded: whitespace around a
    text that has none at its ends, such as a JSON object, changes
    nothing, and a line of whitespace only is skipped like any text that
    does not decode, the empty text being one. *)
Theorem lines_are_stripped :
  (forall mid, trimmed (lit "{" ++ mid ++ lit "}") = true) /\
  (forall ws1 body ws2 rest,
     forallb isspace ws1 = true -> forallb isspace ws2 = true ->
     trimmed body = true ->
     strip (ws1 ++ body ++ ws2) = body /\
     read_lines loads ((ws1 ++ body ++ ws2) :: rest) =
     read_lines loads (body :: rest) /\
     (forall v, loads body = Decoded v ->
        read_lines loads ((ws1 ++ body ++ ws2) :: rest) =
        (_process_entry v ;;; read_lines loads rest))) /\
  (forall ws log_file before after failure,
     forallb isspace ws = true ->
     loads [] = JSONDecodeError ->
     strip ws = [] /\
     parse_log loads exn_str encodes log_file
       (Content (before ++ ws :: after) failure) init_stats =
     parse_log loads exn_str encodes log_file
       (Content (before ++ after) failure) init_stats /\
     run loads exn_str py_str now encodes log_file
       (Content (before ++ ws :: after) failure) =
     run loads exn_str py_str now encodes log_file
       (Content (before ++ after) failure)).
Proof.
  split; [|split].
  - intros mid. unfold trimmed. simpl.
    rewrite rev_app_distr. reflexivity.
  - intros ws1 body ws2 rest H1 H2 Hb.
    pose proof (strip_surrounded ws1 body ws2 H1 H2 Hb) as Hs.
    pose proof (strip_trimmed body Hb) as Hb'.
    split; [exact Hs|]. split.
    + apply read_lines_same_text. congruence.
    + intros v Hv. simpl. rewrite Hs, Hv. reflexivity.
  - intros ws log_file before after failure Hws Hempty.
    pose proof (strip_spaces ws Hws) as Hs.
    split; [exact Hs|].
    assert (loads (strip ws) = JSONDecodeError) as H
      by (rewrite Hs; exact Hempty).
    destruct (run_skip loads exn_str py_str now encodes log_file before ws
                after failure H) as [Hp Hr].
    split; [rewrite Hp; reflexivity|exact Hr].
Qed.

(** C3 (the code departs from the claim).  A line that decodes to the
    number 5 is well-formed JSON, yet the aggregator raises [TypeError]
    on it; the loader's [except json.JSONDecodeError] does not catch
    that, so [parse_log] gives up on the whole file and the run ends
    with status 1 without a report. *)
Theorem non_object_line_aborts (log_file line : str) (s : stats) :
  loads (strip line) = Decoded (JInt 5) ->
  _process_entry (JInt 5) s = (Raise (TypeError (JInt 5)), s) /\
  parse_log loads exn_str encodes log_file (Content [line] None)
    init_stats =
    (Ok false,
     [lit "Error reading log file: " ++ exn_str (TypeError (JInt 5))],
     init_stats) /\
  run loads exn_str py_str now encodes log_file (Content [line] None) =
    ([lit "Error reading log file: " ++ exn_str (TypeError (JInt 5))], 1).
Proof.
  intros H. split; [reflexivity|].
  unfold run, parse_log, read_file. simpl. rewrite H. simpl. auto.
Qed.

End Claims.

(** * The claims on the sample log *)

Lemma sample_log_read :
  read_lines sample_loads sample_lines init_stats = (Ok tt, sample_stats).
Proof. vm_compute. reflexivity. Qed.

Lemma sample_records_processed :
  process_all [sample_ok; sample_failed; sample_skipped; sample_ok] init_stats
  = (Ok tt,
     Stats 3 2 1 1 2 0 (hosts sample_stats) (failed_details sample_stats)).
Proof. vm_compute. reflexivity. Qed.

Lemma total_is_ok_plus_failed_witness :
  read_lines sample_loads sample_lines init_stats = (Ok tt, sample_stats) /\
  is_event runner_on_skipped sample_skipped = true /\
  (total_tasks sample_stats =
     count_events runner_on_ok (decoded_records sample_loads sample_lines) +
     count_events runner_on_failed (decoded_records sample_loads sample_lines)
   /\ ok_tasks sample_stats =
        count_events runner_on_ok (decoded_records sample_loads sample_lines)
   /\ failed_tasks sample_stats =
        count_events runner_on_failed
          (decoded_records sample_loads sample_lines)) /\
  total_tasks (snd (_process_entry sample_skipped sample_stats)) =
    total_tasks sample_stats.
Proof.
  destruct (total_is_ok_plus_failed sample_loads)
    as (_ & _ & _ & Hlines & Hskip).
  assert (is_event runner_on_skipped sample_skipped = true) as H2
    by (vm_compute; reflexivity).
  split; [exact sample_log_read|]. split; [exact H2|]. split.
  - exact (Hlines sample_lines sample_stats sample_log_read).
  - exact (Hskip sample_skipped sample_stats H2).
Defined.

Lemma failed_tasks_is_length_failed_details_witness :
  log_record sample_failed = true /\
  event_data_of sample_failed = Some sample_failed_data /\
  is_event runner_on_failed sample_failed = true /\
  (failed_tasks sample_stats =
     Z.of_nat (length (failed_details sample_stats)) /\
   failed_details sample_stats = failures_of (decoded_records sample_loads sample_lines)) /\
  (exists s',
     _process_entry sample_failed init_stats = (Ok tt, s') /\
     failed_details s' =
       failed_details init_stats ++ [failure_of sample_failed_data] /\
     failed_tasks s' = failed_tasks init_stats + 1).
Proof.
  destruct failed_tasks_is_length_failed_details as (Hall & _ & Hone & _).
  assert (log_record sample_failed = true) as H1 by (vm_compute; reflexivity).
  assert (event_data_of sample_failed = Some sample_failed_data) as H2
    by (vm_compute; reflexivity).
  assert (is_event runner_on_failed sample_failed = true) as H3
    by (vm_compute; reflexivity).
  split; [exact H1|]. split; [exact H2|]. split; [exact H3|]. split.
  - apply Hall. apply read_lines_ok. exact sample_log_read.
  - exact (Hone sample_failed sample_failed_data init_stats H1 H2 H3).
Defined.

Lemma hosts_are_distinct_remote_addrs_witness :
  let entries := [sample_ok; sample_failed; sample_skipped; sample_ok] in
  let s := Stats 3 2 1 1 2 0 (hosts sample_stats)
             (failed_details sample_stats) in
  process_all entries init_stats = (Ok tt, s) /\
  (forall addr, In addr (remote_addrs entries) ->
     existsb (hash_eq addr) (hosts s) = true) /\
  (forall h, In h (hosts s) -> In h (remote_addrs entries)) /\
  distinct (hosts s) /\
  length (hosts s) = count_distinct (remote_addrs entries).
Proof.
  intros entries s. split; [exact sample_records_processed|].
  exact (proj1 hosts_are_distinct_remote_addrs entries s
           sample_records_processed).
Defined.

Lemma changed_le_ok_le_total_witness :
  is_event runner_on_ok sample_skipped = false /\
  (is_event runner_on_failed sample_failed = true \/
   is_event runner_on_skipped sample_failed = true) /\
  changed_tasks (snd (_process_entry sample_skipped sample_stats)) =
    changed_tasks sample_stats /\
  changed_tasks (snd (_process_entry sample_failed sample_stats)) =
    changed_tasks sample_stats.
Proof.
  destruct changed_le_ok_le_total as (_ & Hnot & Hkind).
  assert (is_event runner_on_ok sample_skipped = false) as H1
    by (vm_compute; reflexivity).
  assert (is_event runner_on_failed sample_failed = true \/
          is_event runner_on_skipped sample_failed = true) as H2
    by (left; vm_compute; reflexivity).
  split; [exact H1|]. split; [exact H2|]. split.
  - exact (Hnot sample_skipped sample_stats H1).
  - exact (Hkind sample_failed sample_stats H2).
Defined.

Lemma undecodable_line_leaves_no_trace_witness :
  let line := lit "not json" ++ newline in
  sample_loads (strip line) = JSONDecodeError /\
  parse_log sample_loads sample_exn_str utf8_strict (lit "a.log")
    (Content ([sample_ok_line] ++ line :: [sample_failed_line]) None)
    init_stats =
  parse_log sample_loads sample_exn_str utf8_strict (lit "a.log")
    (Content ([sample_ok_line] ++ [sample_failed_line]) None) init_stats /\
  run sample_loads sample_exn_str sample_py_str sample_now utf8_strict (lit "a.log")
    (Content ([sample_ok_line] ++ line :: [sample_failed_line]) None) =
  run sample_loads sample_exn_str sample_py_str sample_now utf8_strict (lit "a.log")
    (Content ([sample_ok_line] ++ [sample_failed_line]) None).
Proof.
  intros line.
  assert (sample_loads (strip line) = JSONDecodeError) as H
    by (vm_compute; reflexivity).
  split; [exact H|].
  exact (undecodable_line_leaves_no_trace sample_loads sample_exn_str
           sample_py_str sample_now utf8_strict (lit "a.log")
           [sample_ok_line] [sample_failed_line] line None H).
Defined.



Lemma lines_are_stripped_witness :
  let ws1 := lit "  " in
  let ws := lit " " ++ newline in
  (forallb isspace ws1 = true /\ forallb isspace newline = true /\
   trimmed sample_ok_line = true /\ forallb isspace ws = true /\
   sample_loads [] = JSONDecodeError) /\
  strip (ws1 ++ sample_ok_line ++ newline) = sample_ok_line /\
  strip ws = [] /\
  run sample_loads sample_exn_str sample_py_str sample_now utf8_strict (lit "a.log")
    (Content ([sample_ok_line] ++ ws :: [sample_failed_line]) None) =
  run sample_loads sample_exn_str sample_py_str sample_now utf8_strict (lit "a.log")
    (Content ([sample_ok_line] ++ [sample_failed_line]) None).
Proof.
  intros ws1 ws.
  destruct (lines_are_stripped sample_loads sample_exn_str sample_py_str
              sample_now utf8_strict) as (_ & Hbody & Hblank).
  assert (forallb isspace ws1 = true) as H1 by (vm_compute; reflexivity).
  assert (forallb isspace newline = true) as H2 by (vm_compute; reflexivity).
  assert (trimmed sample_ok_line = true) as H3 by (vm_compute; reflexivity).
  assert (forallb isspace ws = true) as H4 by (vm_compute; reflexivity).
  assert (sample_loads [] = JSONDecodeError) as H5
    by (vm_compute; reflexivity).
  split; [auto|]. split.
  - exact (proj1 (Hbody ws1 sample_ok_line newline [] H1 H2 H3)).
  - pose proof (Hblank ws (lit "a.log") [sample_ok_line] [sample_failed_line]
                  None H4 H5) as (Hs & _ & Hr).
    split; [exact Hs|exact Hr].
Defined.

Lemma non_object_line_aborts_witness :
  let line := lit "5" ++ newline in
  sample_loads (strip line) = Decoded (JInt 5) /\
  run sample_loads sample_exn_str sample_py_str sample_now utf8_strict (lit "a.log")
    (Content [line] None) =
  ([lit "Error reading log file: TypeError"], 1).
Proof.
  intros line.
  assert (sample_loads (strip line) = Decoded (JInt 5)) as H
    by (vm_compute; reflexivity).
  split; [exact H|].
  exact (proj2 (proj2 (non_object_line_aborts sample_loads sample_exn_str
                         sample_py_str sample_now utf8_strict (lit "a.log")
                         line init_stats H))).
Defined.

Lemma counts_miss_records_after_an_abort_witness :
  let line1 := lit "5" ++ newline in
  let line2 := sample_ok_line ++ newline in
  let lines := [line1; line2] in
  let entries := decoded_records sample_loads lines in
  let s := snd (parse_log sample_loads sample_exn_str utf8_strict
                  (lit "a.log") (Content lines None) init_stats) in
  sample_loads (strip line1) = Decoded (JInt 5) /\
  sample_loads (strip line2) = Decoded sample_ok /\
  is_event runner_on_ok sample_ok = true /\
  count_events runner_on_ok entries = 1 /\
  count_events runner_on_failed entries = 0 /\
  process_all entries init_stats =
    (Raise (TypeError (JInt 5)), init_stats) /\
  total_tasks s = 0 /\ ok_tasks s = 0 /\ failed_tasks s = 0 /\
  run sample_loads sample_exn_str sample_py_str sample_now utf8_strict
    (lit "a.log") (Content lines None) =
    ([lit "Error reading log file: TypeError"], 1).
Proof.
  intros line1 line2 lines entries s.
  assert (sample_loads (strip line1) = Decoded (JInt 5)) as H1
    by (vm_compute; reflexivity).
  assert (sample_loads (strip line2) = Decoded sample_ok) as H2
    by (vm_compute; reflexivity).
  assert (is_event runner_on_ok sample_ok = true) as H3
    by (vm_compute; reflexivity).
  split; [exact H1|]. split; [exact H2|]. split; [exact H3|].
  exact (counts_miss_records_after_an_abort sample_loads sample_exn_str
           sample_py_str sample_now utf8_strict (lit "a.log") line1 line2
           sample_ok H1 H2 H3).
Defined.

Lemma failure_counted_without_details_witness :
  let line := sample_text_line ++ newline in
  sample_loads_more (strip line) = Decoded (JDict sample_text_data) /\
  (exists s,
     parse_log sample_loads_more sample_exn_str utf8_strict (lit "a.log")
       (Content [line] None) init_stats =
       (Ok false, [lit "Error reading log file: AttributeError"], s) /\
     failed_tasks s = 1 /\ length (failed_details s) = 0%nat) /\
  run sample_loads_more sample_exn_str sample_py_str sample_now utf8_strict
    (lit "a.log") (Content [line] None) =
    ([lit "Error reading log file: AttributeError"], 1).
Proof.
  intros line.
  assert (sample_loads_more (strip line) = Decoded (JDict sample_text_data))
    as H by (vm_compute; reflexivity).
  split; [exact H|].
  exact (proj2 (failure_counted_without_details sample_loads_more
                  sample_exn_str sample_py_str sample_now utf8_strict
                  (lit "a.log") line H)).
Defined.

Lemma hosts_miss_addresses_after_an_abort_witness :
  let line1 := lit "5" ++ newline in
  let line2 := sample_ok_line ++ newline in
  let lines := [line1; line2] in
  let entries := decoded_records sample_loads lines in
  let s := snd (parse_log sample_loads sample_exn_str utf8_strict
                  (lit "a.log") (Content lines None) init_stats) in
  let d : gmap str json :=
    list_to_map
      [(event_key, JStr runner_on_ok);
       (event_data_key,
        obj [(remote_addr_key, JList [JStr (lit "10.0.0.1")])])] in
  let event_data : gmap str json :=
    list_to_map [(remote_addr_key, JList [JStr (lit "10.0.0.1")])] in
  sample_loads (strip line1) = Decoded (JInt 5) /\
  sample_loads (strip line2) = Decoded sample_ok /\
  remote_addr_of sample_ok = Some (JStr (lit "10.0.0.1")) /\
  d !! event_data_key = Some (JDict event_data) /\
  event_data !! remote_addr_key = Some (JList [JStr (lit "10.0.0.1")]) /\
  (remote_addrs entries = [JStr (lit "10.0.0.1")] /\
   count_distinct (remote_addrs entries) = 1%nat /\
   hosts s = [] /\
   run sample_loads sample_exn_str sample_py_str sample_now utf8_strict
     (lit "a.log") (Content lines None) =
     ([lit "Error reading log file: TypeError"], 1)) /\
  _process_entry sample_list_addr sample_stats =
    (Raise (TypeError (JList [JStr (lit "10.0.0.1")])), sample_stats).
Proof.
  intros line1 line2 lines entries s d event_data.
  assert (sample_loads (strip line1) = Decoded (JInt 5)) as H1
    by (vm_compute; reflexivity).
  assert (sample_loads (strip line2) = Decoded sample_ok) as H2
    by (vm_compute; reflexivity).
  assert (remote_addr_of sample_ok = Some (JStr (lit "10.0.0.1"))) as H3
    by (vm_compute; reflexivity).
  assert (d !! event_data_key = Some (JDict event_data)) as H4
    by (vm_compute; reflexivity).
  assert (event_data !! remote_addr_key =
            Some (JList [JStr (lit "10.0.0.1")])) as H5
    by (vm_compute; reflexivity).
  destruct (hosts_miss_addresses_after_an_abort sample_loads sample_exn_str
              sample_py_str sample_now utf8_strict (lit "a.log") line1 line2
              sample_ok (JStr (lit "10.0.0.1")) H1 H2 H3) as [Hfile Hlist].
  split; [exact H1|]. split; [exact H2|]. split; [exact H3|].
  split; [exact H4|]. split; [exact H5|]. split; [exact Hfile|].
  exact (proj2 (Hlist d event_data [JStr (lit "10.0.0.1")] sample_stats
                  H4 H5)).
Defined.


(** ** Where standard output refuses a text *)




(** The aggregator on single records: a step that returns, a value that
    is not a [dict], and a [runner_on_failed] record whose [event_data] is
    a list, where the step raises after it has counted the failure. *)
Example process_entry_ok :
  _process_entry sample_ok init_stats =
  (Ok tt, Stats 1 1 0 0 1 0 [JStr (lit "10.0.0.1")] []).
Proof. vm_compute. reflexivity. Qed.

Example process_entry_int :
  _process_entry (JInt 5) init_stats =
  (Raise (TypeError (JInt 5)), init_stats).
Proof. reflexivity. Qed.

Example process_entry_failed_list :
  _process_entry
    (obj [(event_key, JStr runner_on_failed); (event_data_key, JList [])])
    init_stats
  = (Raise (AttributeError (JList [])), Stats 1 0 1 0 0 0 [] []).
Proof. vm_compute. reflexivity. Qed.

(** The documentation's scenarios, run. *)
Example sample_log_run :
  parse_log sample_loads sample_exn_str utf8_strict (lit "a.log")
    (Content sample_lines None) init_stats = (Ok true, [], sample_stats) /\
  snd (run sample_loads sample_exn_str sample_py_str sample_now utf8_strict (lit "a.log")
         (Content sample_lines None)) = 1 /\
  last (fst (run sample_loads sample_exn_str sample_py_str sample_now utf8_strict
               (lit "a.log") (Content sample_lines None))) =
    Some (lit "Success rate: 50.0%").
Proof. vm_compute. auto. Qed.

Example empty_log_run :
  parse_log sample_loads sample_exn_str utf8_strict (lit "a.log") (Content [] None)
    init_stats = (Ok true, [], init_stats) /\
  snd (run sample_loads sample_exn_str sample_py_str sample_now utf8_strict (lit "a.log")
         (Content [] None)) = 0 /\
  existsb is_rate_line
    (fst (run sample_loads sample_exn_str sample_py_str sample_now utf8_strict
            (lit "a.log") (Content [] None))) = false.
Proof. vm_compute. auto. Qed.

Example success_rates :
  success_rate 1 3 = Ok (S754_finite false 4691249611844266 (-47)) /\
  fmt_1f (S754_finite false 4691249611844266 (-47)) = lit "33.3" /\
  (forall q, success_rate 2 3 = Ok q -> fmt_1f q = lit "66.7") /\
  (forall q, success_rate 5 5 = Ok q -> fmt_1f q = lit "100.0") /\
  (forall q, success_rate 0 7 = Ok q -> fmt_1f q = lit "0.0") /\
  (forall q, success_rate 1 2000 = Ok q -> fmt_1f q = lit "0.1").
Proof.
  repeat split; try (vm_compute; reflexivity);
    intros q H; vm_compute in H; injection H as <-; vm_compute; reflexivity.
Qed.

(** * Further properties: the theorems *)

(** X1.  After a sequence of records has been aggregated,
    [skipped_tasks] is the number of [runner_on_skipped] records that
    carry [event_data], and [changed_tasks] is the number of
    [runner_on_ok] records whose [changed] field is true as an [if]
    tests it (absent counts as false); the same holds for the records
    decoded from the lines of a file.  A non-empty string such as
    ["false"] or a non-zero number in [changed] therefore counts as a
    change. *)
Theorem skipped_and_changed_are_counted (loads : str -> decoded) :
  (forall entries s,
     process_all entries init_stats = (Ok tt, s) ->
     skipped_tasks s = count_events runner_on_skipped entries /\
     changed_tasks s = count_where is_changed entries) /\
  (forall lines s,
     read_lines loads lines init_stats = (Ok tt, s) ->
     let entries := decoded_records loads lines in
     skipped_tasks s = count_events runner_on_skipped entries /\
     changed_tasks s = count_where is_changed entries) /\
  (forall d event_data,
     d !! event_data_key = Some (JDict event_data) ->
     d !! event_key = Some (JStr runner_on_ok) ->
     is_changed (JDict d) =
     match event_data !! changed_key with
     | None | Some JNull => false
     | Some (JBool b) => b
     | Some (JInt n) => negb (n =? 0)
     | Some (JStr t) => negb (bool_decide (t = []))
     | Some v => truthy v
     end).
Proof.
  assert (forall entries s,
     process_all entries init_stats = (Ok tt, s) ->
     skipped_tasks s = count_events runner_on_skipped entries /\
     changed_tasks s = count_where is_changed entries) as Hcount.
  { intros entries s H.
    pose proof (process_all_counts entries _ _ H) as (_ & _ & Hs & _).
    pose proof (process_all_changed entries _ _ H) as Hc.
    simpl in Hs, Hc. lia. }
  split; [exact Hcount|]. split.
  - intros lines s H. apply Hcount, read_lines_ok, H.
  - intros d event_data Hd He. unfold is_changed, is_event, event_data_of.
    rewrite Hd, He. simpl.
    destruct (event_data !! changed_key) as [[]|]; reflexivity.
Qed.

(** X2.  Whatever records the aggregator consumes, from whatever state,
    and whether it returns or raises, it only adds: no counter gets
    lower, [hosts] and [failed_details] keep what they held, in place,
    and [execution_time] is never touched.  A record is counted at most
    once, so the tasks counted, the hosts and the failure entries gained
    are each at most as many as the records. *)
Theorem statistics_only_grow (entries : list json) (s : stats) :
  let s' := snd (process_all entries s) in
  grows s s' /\
  execution_time s' = execution_time s /\
  total_tasks s' + skipped_tasks s' <=
    total_tasks s + skipped_tasks s + Z.of_nat (length entries) /\
  (length (hosts s') <= length (hosts s) + length entries)%nat /\
  (length (failed_details s') <=
     length (failed_details s) + length entries)%nat.
Proof.
  intros s'. destruct (process_all_grows entries s) as (Hg & H).
  split; [exact Hg|]. split; [|exact H].
  unfold grows in Hg. tauto.
Qed.

(** X4.  A value that is a JSON string or array is looked into with
    [in]: when the text ['event_data'] does not occur in the string, or
    is no element of the array, the value is passed over and nothing
    changes; when it does, indexing raises [TypeError] and nothing has
    changed.  An object without the key ['event_data'] is passed over,
    whatever else it holds. *)
Theorem values_without_event_data_are_passed_over (s : stats) :
  (forall t,
     _process_entry (JStr t) s =
     if substring event_data_key t
     then (Raise (TypeError (JStr t)), s) else (Ok tt, s)) /\
  (forall l,
     _process_entry (JList l) s =
     if existsb (fun x => eq_str x event_data_key) l
     then (Raise (TypeError (JList l)), s) else (Ok tt, s)) /\
  (forall d,
     d !! event_data_key = None -> _process_entry (JDict d) s = (Ok tt, s)).
Proof.
  split; [|split].
  - intros t. unfold_step. simpl.
    destruct (substring event_data_key t); reflexivity.
  - intros l. unfold_step. simpl.
    destruct (existsb (fun x => eq_str x event_data_key) l); reflexivity.
  - intros d H. unfold_step. simpl. rewrite H. reflexivity.
Qed.

(** X5.  When [event_data] is not an object but a string or array in
    which ['remote_addr'] does not occur, a [runner_on_ok] or
    [runner_on_failed] record is counted first and only then fails:
    [AttributeError] is raised with [total_tasks] and [ok_tasks], or
    [total_tasks] and [failed_tasks], already incremented, and no failure
    entry added.  With any other event the record is accepted. *)
Theorem counted_before_abort (d : gmap str json) (ed : json) (s : stats) :
  d !! event_data_key = Some ed ->
  (forall g, ed <> JDict g) ->
  contains remote_addr_key ed = Ok false ->
  let ev := default JNull (d !! event_key) in
  (eq_str ev runner_on_ok = true ->
   _process_entry (JDict d) s =
     (Raise (AttributeError ed), incr_ok (incr_total s))) /\
  (eq_str ev runner_on_failed = true ->
   _process_entry (JDict d) s =
     (Raise (AttributeError ed), incr_failed (incr_total s)) /\
   failed_tasks (incr_failed (incr_total s)) = failed_tasks s + 1 /\
   failed_details (incr_failed (incr_total s)) = failed_details s) /\
  (eq_str ev runner_on_skipped = true ->
   _process_entry (JDict d) s = (Ok tt, incr_skipped s)) /\
  (eq_str ev runner_on_ok = false -> eq_str ev runner_on_failed = false ->
   eq_str ev runner_on_skipped = false ->
   _process_entry (JDict d) s = (Ok tt, s)).
Proof.
  intros Hd Hnot Hc ev.
  destruct (event_kinds_distinct ev) as (Hok & Hfailed & Hskipped).
  assert (forall k dflt, dict_get ed k dflt = Raise (AttributeError ed))
    as Hget.
  { intros k dflt. destruct ed; try reflexivity. destruct (Hnot d0 eq_refl). }
  assert (bool_decide (is_Some (Some ed)) = true) as Hsome
    by (apply bool_decide_eq_true; eauto).
  unfold _process_entry, bind, lift, ret, modify, failed_details_append.
  cbn [contains getitem dict_get]. rewrite Hd, Hsome. cbn [negb].
  rewrite Hc, !Hget. fold ev.
  split; [|split; [|split]].
  - intros E. rewrite E. reflexivity.
  - intros E. destruct (Hfailed E) as [-> _]. rewrite E. repeat split.
  - intros E. destruct (Hskipped E) as [-> ->]. rewrite E. reflexivity.
  - intros -> -> ->. reflexivity.
Qed.

(** X6.  A step can only end in one of two ways other than returning:
    with [TypeError], and then the statistics are exactly as before, or
    with [AttributeError] raised on an [event_data] that is not an
    object, and then the record was a [runner_on_ok] or
    [runner_on_failed] one and only its two counters have been
    incremented.  [KeyError] is never raised. *)
Theorem raises_only_type_or_attribute_error
    (entry : json) (s s' : stats) (e : exn) :
  _process_entry entry s = (Raise e, s') ->
  (exists v, e = TypeError v /\ s' = s) \/
  (exists d ed,
     entry = JDict d /\ d !! event_data_key = Some ed /\
     (forall g, ed <> JDict g) /\ e = AttributeError ed /\
     ((is_event runner_on_ok entry = true /\ s' = incr_ok (incr_total s)) \/
      (is_event runner_on_failed entry = true /\
       s' = incr_failed (incr_total s)))).
Proof.
  intros H. unfold is_event.
  destruct entry as [| | | | |l|d]; try (step_cases; left; eauto; fail).
  unfold_step; simpl in H.
  destruct (d !! event_data_key) as [ed|] eqn:Hd; simpl in H;
    [|discriminate].
  replace (bool_decide (is_Some (Some ed))) with true
    by (symmetry; apply bool_decide_eq_true; eauto).
  set (ev := default JNull (d !! event_key)) in *.
  destruct (event_kinds_distinct ev) as (Hok & Hfailed & Hskipped).
  destruct (eq_str ev runner_on_ok) eqn:E1.
  { clearbody ev. step_cases; try (left; eauto; fail);
      right; eexists _, _; repeat split; eauto; discriminate. }
  destruct (eq_str ev runner_on_failed) eqn:E2.
  { clearbody ev. step_cases; try (left; eauto; fail);
      right; eexists _, _; repeat split; eauto; discriminate. }
  clearbody ev. step_cases; left; eauto.
Qed.

(** X7.  A record whose event is none of [runner_on_ok],
    [runner_on_failed] and [runner_on_skipped] (or that has no event, or
    no [event_data]) changes no counter and adds no failure entry,
    whether the step returns or raises; only [hosts] can gain its
    [remote_addr]. *)
Theorem other_events_are_not_counted (entry : json) (s : stats) :
  is_event runner_on_ok entry = false ->
  is_event runner_on_failed entry = false ->
  is_event runner_on_skipped entry = false ->
  let s' := snd (_process_entry entry s) in
  total_tasks s' = total_tasks s /\ ok_tasks s' = ok_tasks s /\
  changed_tasks s' = changed_tasks s /\ failed_tasks s' = failed_tasks s /\
  skipped_tasks s' = skipped_tasks s /\
  failed_details s' = failed_details s /\
  (forall s1, _process_entry entry s = (Ok tt, s1) ->
     hosts s1 = add_all (remote_addrs [entry]) (hosts s)).
Proof.
  intros H1 H2 H3 s'.
  assert (total_tasks s' = total_tasks s /\ ok_tasks s' = ok_tasks s /\
          changed_tasks s' = changed_tasks s /\
          failed_tasks s' = failed_tasks s /\
          skipped_tasks s' = skipped_tasks s /\
          failed_details s' = failed_details s) as Hc.
  { subst s'. unfold is_event in *.
    destruct entry as [| | | | |l|d];
      step_cases; repeat split; reflexivity. }
  destruct Hc as (? & ? & ? & ? & ? & ?).
  do 6 (split; [assumption|]).
  intros s1 Hs1. apply (process_entry_hosts _ _ _ Hs1).
Qed.
(** X8.  Aggregating one sequence of records after another gives the sum
    of what each gives on its own: when both are aggregated to their
    ends, so is their concatenation, every counter is the sum of the two,
    [failed_details] is the first list followed by the second, and
    [hosts] begins with the hosts of the first and has at least as many
    members as either and at most as many as both together. *)
Theorem logs_concatenate (a b : list json) (sa sb : stats) :
  process_all a init_stats = (Ok tt, sa) ->
  process_all b init_stats = (Ok tt, sb) ->
  exists s,
    process_all (a ++ b) init_stats = (Ok tt, s) /\
    total_tasks s = total_tasks sa + total_tasks sb /\
    ok_tasks s = ok_tasks sa + ok_tasks sb /\
    changed_tasks s = changed_tasks sa + changed_tasks sb /\
    failed_tasks s = failed_tasks sa + failed_tasks sb /\
    skipped_tasks s = skipped_tasks sa + skipped_tasks sb /\
    failed_details s = failed_details sa ++ failed_details sb /\
    hosts sa `prefix_of` hosts s /\
    (length (hosts sb) <= length (hosts s)
     <= length (hosts sa) + length (hosts sb))%nat.
Proof.
  intros Ha Hb.
  pose proof (process_all_outcome b sa init_stats) as Hout.
  rewrite Hb in Hout.
  destruct (process_all b sa) as [r s] eqn:Hs. simpl in Hout. subst r.
  exists s.
  assert (process_all (a ++ b) init_stats = (Ok tt, s)) as Hab
    by (rewrite process_all_app, Ha; exact Hs).
  split; [exact Hab|].
  pose proof (process_all_counts _ _ _ Hs) as (? & ? & ? & ?).
  pose proof (process_all_counts _ _ _ Hb) as (? & ? & ? & ?).
  pose proof (process_all_changed _ _ _ Hs).
  pose proof (process_all_changed _ _ _ Hb).
  pose proof (process_all_details _ _ _ Hs) as Hd.
  pose proof (process_all_details _ _ _ Hb) as Hdb.
  simpl in *.
  do 5 (split; [lia|]).
  split; [rewrite Hd, Hdb; reflexivity|].
  split.
  - pose proof (process_all_grows b sa) as (Hg & _).
    rewrite Hs in Hg. unfold grows in Hg. simpl in Hg. tauto.
  - pose proof (process_all_hosts _ _ _ Hs) as [Hh _].
    pose proof (process_all_hosts _ _ _ Hb) as [Hhb _].
    pose proof (process_all_hosts _ _ _ Hab) as [Hhab _].
    simpl in Hhb, Hhab. split.
    + rewrite Hhab, Hhb, !add_all_length_empty, remote_addrs_app.
      apply count_distinct_app_r.
    + rewrite Hh, Hhb, add_all_length, add_all_length_empty.
      pose proof (count_distinct_without (hosts sa) (remote_addrs b)). lia.
Qed.

(** X9.  The statistics do not depend on the order of the records: when
    a sequence is aggregated to its end, so is every rearrangement of
    it, with the same five counters and the same number of hosts, and
    with the same failure entries in the rearranged order. *)
Theorem statistics_do_not_depend_on_order
    (entries entries' : list json) (s : stats) :
  Permutation entries entries' ->
  process_all entries init_stats = (Ok tt, s) ->
  exists s',
    process_all entries' init_stats = (Ok tt, s') /\
    total_tasks s' = total_tasks s /\ ok_tasks s' = ok_tasks s /\
    changed_tasks s' = changed_tasks s /\
    failed_tasks s' = failed_tasks s /\
    skipped_tasks s' = skipped_tasks s /\
    length (hosts s') = length (hosts s) /\
    Permutation (failed_details s') (failed_details s) /\
    failed_details s' = failures_of entries'.
Proof.
  intros Hp H.
  assert (fst (process_all entries' init_stats) = Ok tt) as Hret.
  { apply process_all_returns_iff.
    apply (Permutation_Forall Hp).
    apply (process_all_returns_iff entries init_stats).
    rewrite H. reflexivity. }
  destruct (process_all entries' init_stats) as [r s'] eqn:H'.
  simpl in Hret. subst r. exists s'. split; [reflexivity|].
  pose proof (process_all_counts _ _ _ H) as (? & ? & ? & ?).
  pose proof (process_all_counts _ _ _ H') as (? & ? & ? & ?).
  pose proof (process_all_changed _ _ _ H).
  pose proof (process_all_changed _ _ _ H').
  pose proof (process_all_details _ _ _ H) as Hd.
  pose proof (process_all_details _ _ _ H') as Hd'.
  pose proof (process_all_hosts _ _ _ H) as [Hh _].
  pose proof (process_all_hosts _ _ _ H') as [Hh' _].
  simpl in *.
  rewrite !count_events_where in *.
  pose proof (count_where_perm (is_event runner_on_ok) _ _ Hp).
  pose proof (count_where_perm (is_event runner_on_failed) _ _ Hp).
  pose proof (count_where_perm (is_event runner_on_skipped) _ _ Hp).
  pose proof (count_where_perm is_changed _ _ Hp).
  do 5 (split; [lia|]).
  split; [|split].
  - rewrite Hh, Hh', !add_all_length_empty. symmetry.
    apply count_distinct_perm, remote_addrs_perm, Hp.
  - rewrite Hd, Hd'. symmetry. apply failures_of_perm, Hp.
  - exact Hd'.
Qed.
Section Extras.

Variable loads : str -> decoded.
Variable exn_str : exn -> str.
Variable py_str : json -> str.
Variable now : str.
Variable encodes : str -> bool.

(** X3.  However the reading of a file ends, the statistics it leaves
    hold at most one count per line: the tasks counted and skipped
    together, the hosts and the failure entries are each at most as
    many as the lines, every one of the five counters is non-negative,
    and [execution_time] is still 0, as [__init__] set it. *)
Theorem at_most_one_count_per_line
    (log_file : str) (lines : list str) (failure : option exn) :
  let s := snd (parse_log loads exn_str encodes log_file
                  (Content lines failure) init_stats) in
  0 <= total_tasks s /\ 0 <= ok_tasks s /\ 0 <= changed_tasks s /\
  0 <= failed_tasks s /\ 0 <= skipped_tasks s /\
  changed_tasks s <= ok_tasks s /\
  total_tasks s + skipped_tasks s <= Z.of_nat (length lines) /\
  (length (hosts s) <= length lines)%nat /\
  (length (failed_details s) <= length lines)%nat /\
  execution_time s = 0.
Proof.
  intros s.
  pose proof (parse_log_counters loads exn_str encodes log_file
                (Content lines failure)) as Hc.
  fold s in Hc. unfold counters_ok in Hc.
  subst s. rewrite parse_log_stats in *.
  destruct (read_lines_grows loads lines init_stats) as (Hg & Ht & Hh & Hd).
  unfold grows in Hg. simpl in *. repeat split; lia.
Qed.

(** X10.  The exit status is 0 exactly when the file exists, is read
    to its end with every decoded record accepted by the aggregator,
    none of the records decoded from its lines is a [runner_on_failed]
    record with [event_data], and standard output encodes every text
    of the report. *)
Theorem exit_status_zero_iff (log_file : str) (f : file) :
  snd (run loads exn_str py_str now encodes log_file f) = 0 <->
  exists lines s,
    f = Content lines None /\
    read_lines loads lines init_stats = (Ok tt, s) /\
    count_events runner_on_failed (decoded_records loads lines) = 0 /\
    forallb encodes (report_texts py_str now log_file s) = true.
Proof.
  assert (forall lines s,
    read_lines loads lines init_stats = (Ok tt, s) ->
    failed_tasks s =
      count_events runner_on_failed (decoded_records loads lines)) as Hf.
  { intros lines s Hr. apply read_lines_ok in Hr.
    pose proof (process_all_counts _ _ _ Hr) as (_ & Hf & _). exact Hf. }
  split.
  - intros H0.
    destruct (run_status_zero loads exn_str py_str now encodes _ _ H0)
      as (lines & s & -> & Hr & _ & Hz & Henc & _).
    exists lines, s. rewrite <- (Hf _ _ Hr). auto.
  - intros (lines & s & -> & Hr & Hnone & Henc).
    assert (parse_log loads exn_str encodes log_file (Content lines None)
              init_stats = (Ok true, [], s)) as Hp
      by (apply parse_log_true; eauto).
    rewrite (run_full loads exn_str py_str now encodes _ _ _ _ Hp Henc).
    cbn [snd]. rewrite (Hf _ _ Hr), Hnone. reflexivity.
Qed.

(** X11.  The first line whose record the aggregator rejects, or on
    which [json.loads] raises something other than a
    [JSONDecodeError], ends the reading: [parse_log] prints the one
    line with the error and returns [False], the lines after it and
    the way the file would have ended play no part, and the run ends
    with status 1 without reporting what was gathered before. *)
Theorem first_failing_line_ends_the_run
    (log_file : str) (before after : list str) (line : str)
    (failure : option exn) (s1 : stats) :
  read_lines loads before init_stats = (Ok tt, s1) ->
  (forall v e s2,
     loads (strip line) = Decoded v ->
     _process_entry v s1 = (Raise e, s2) ->
     parse_log loads exn_str encodes log_file
       (Content (before ++ line :: after) failure) init_stats =
       (Ok false, [lit "Error reading log file: " ++ exn_str e], s2) /\
     run loads exn_str py_str now encodes log_file
       (Content (before ++ line :: after) failure) =
       ([lit "Error reading log file: " ++ exn_str e], 1)) /\
  (forall e,
     loads (strip line) = DecodeRaises e ->
     parse_log loads exn_str encodes log_file
       (Content (before ++ line :: after) failure) init_stats =
       (Ok false, [lit "Error reading log file: " ++ exn_str e], s1) /\
     run loads exn_str py_str now encodes log_file
       (Content (before ++ line :: after) failure) =
       ([lit "Error reading log file: " ++ exn_str e], 1)).
Proof.
  intros Hb. split.
  - intros v e s2 Hv He.
    assert (read_lines loads (before ++ line :: after) init_stats =
            (Raise e, s2)) as Hr.
    { rewrite read_lines_app, Hb, read_lines_cons, Hv, He. reflexivity. }
    unfold run, parse_log, read_file, bind. rewrite Hr. auto.
  - intros e He.
    assert (read_lines loads (before ++ line :: after) init_stats =
            (Raise e, s1)) as Hr.
    { rewrite read_lines_app, Hb, read_lines_cons, He. reflexivity. }
    unfold run, parse_log, read_file, bind. rewrite Hr. auto.
Qed.


(** X13.  For a file that [parse_log] has read to its end and whose
    report standard output encodes in full, the report lists the
    failed tasks exactly when the exit status is 1: the heading
    ["FAILED TASKS DETAILS:"] is printed if and only if the status is
    1, and the report is made of 14 calls of [print], plus 2 and 4 per
    failed task when there is one, plus the one for the success rate
    when a task was counted. *)
Theorem failures_listed_iff_exit_one
    (log_file : str) (f : file) (s : stats) :
  parse_log loads exn_str encodes log_file f init_stats =
    (Ok true, [], s) ->
  forallb encodes (report_texts py_str now log_file s) = true ->
  let out := fst (run loads exn_str py_str now encodes log_file f) in
  let status := snd (run loads exn_str py_str now encodes log_file f) in
  (existsb is_failures_heading out = true <-> status = 1) /\
  (status = 0 \/ status = 1) /\
  length out =
    (14 + (if (failed_tasks s =? 0)%Z then 0
           else 2 + 4 * Z.to_nat (failed_tasks s))
        + (if (total_tasks s =? 0)%Z then 0 else 1))%nat.
Proof.
  intros Hp Henc.
  destruct (parse_log_true_counters loads exn_str encodes _ _ _ _ Hp)
    as [Hc _].
  unfold counters_ok in Hc.
  pose proof (report_heading py_str now log_file s) as Hh.
  pose proof (report_length py_str now log_file s ltac:(lia)) as Hl.
  assert (failed_tasks s = Z.of_nat (length (failed_details s))) as Hf.
  { apply parse_log_true in Hp as (lines & _ & _ & Hr).
    apply read_lines_ok in Hr.
    apply (process_all_failed_length _ _ _ Hr). reflexivity. }
  rewrite (run_full loads exn_str py_str now encodes _ _ _ _ Hp Henc).
  cbv zeta. cbn [fst snd].
  rewrite Hh, Hl.
  destruct (Z.ltb_spec 0 (failed_tasks s)) as [Hpos|Hzero].
  - replace (failed_tasks s =? 0) with false
      by (symmetry; apply Z.eqb_neq; lia).
    split; [tauto|]. split; [auto|].
    replace (total_tasks s =? 0) with false
      by (symmetry; apply Z.eqb_neq; lia).
    replace (0 <? total_tasks s) with true
      by (symmetry; apply Z.ltb_lt; lia).
    rewrite Hf, Nat2Z.id. reflexivity.
  - assert (failed_tasks s = 0) as Hz by lia. rewrite Hz. simpl Z.eqb.
    cbv iota.
    split; [split; discriminate|]. split; [auto|].
    destruct (Z.ltb_spec 0 (total_tasks s)).
    + replace (total_tasks s =? 0) with false
        by (symmetry; apply Z.eqb_neq; lia). reflexivity.
    + replace (total_tasks s =? 0) with true
        by (symmetry; apply Z.eqb_eq; lia). reflexivity.
Qed.

(** X14.  When every counted task succeeded the last text of the
    report is ["Success rate: 100.0%"], whatever the number of tasks,
    and when none did it is ["Success rate: 0.0%"]; the report is
    printed up to that line when standard output encodes all its
    texts.  A run that counted a task and ends with status 0 has always
    printed the whole report, ending with ["Success rate: 100.0%"]. *)
Theorem all_ok_is_100_percent (log_file : str) :
  (forall s,
     0 < total_tasks s ->
     let body := report_header now log_file ++ report_statistics s ++
                 report_failures py_str s in
     let texts := report_texts py_str now log_file s in
     (ok_tasks s = total_tasks s ->
      texts = body ++ [lit "Success rate: 100.0%"] /\
      (forallb encodes texts = true ->
       fst (generate_report py_str now encodes log_file s) = texts)) /\
     (ok_tasks s = 0 ->
      texts = body ++ [lit "Success rate: 0.0%"] /\
      (forallb encodes texts = true ->
       fst (generate_report py_str now encodes log_file s) = texts))) /\
  (forall f s,
     parse_log loads exn_str encodes log_file f init_stats =
       (Ok true, [], s) ->
     0 < total_tasks s ->
     snd (run loads exn_str py_str now encodes log_file f) = 0 ->
     exists body,
       fst (run loads exn_str py_str now encodes log_file f) =
         body ++ [lit "Success rate: 100.0%"]).
Proof.
  assert (forall s,
     0 < total_tasks s -> ok_tasks s = total_tasks s ->
     report_texts py_str now log_file s =
       (report_header now log_file ++ report_statistics s ++
        report_failures py_str s) ++ [lit "Success rate: 100.0%"]) as Hall.
  { intros s Ht Hok. unfold report_texts.
    replace (0 <? total_tasks s) with true
      by (symmetry; apply Z.ltb_lt; lia).
    rewrite Hok, (success_rate_all _ Ht), <- !app_assoc. reflexivity. }
  assert (forall s,
     0 <= ok_tasks s <= total_tasks s ->
     forallb encodes (report_texts py_str now log_file s) = true ->
     fst (generate_report py_str now encodes log_file s) =
       report_texts py_str now log_file s) as Hfull.
  { intros s Hc Henc.
    rewrite (generate_report_full py_str now encodes log_file s Hc Henc).
    reflexivity. }
  split.
  - intros s Ht body texts. split.
    + intros Hok. split; [apply Hall; assumption|].
      apply Hfull. lia.
    + intros Hok. split; [|apply Hfull; lia].
      subst texts body. unfold report_texts.
      replace (0 <? total_tasks s) with true
        by (symmetry; apply Z.ltb_lt; lia).
      rewrite Hok, (success_rate_none _ Ht), <- !app_assoc. reflexivity.
  - intros f s Hp Ht H0.
    destruct (parse_log_true_counters loads exn_str encodes _ _ _ _ Hp)
      as [Hc _].
    unfold counters_ok in Hc.
    destruct (run_status_zero loads exn_str py_str now encodes _ _ H0)
      as (lines & s' & _ & _ & Hp' & Hz & _ & Hout).
    rewrite Hp in Hp'. injection Hp' as <-.
    rewrite Hout. eexists. apply Hall; lia.
Qed.

End Extras.

(** * The further properties on the sample records *)

Lemma skipped_and_changed_are_counted_witness :
  let entries := [sample_ok; sample_failed; sample_skipped; sample_ok] in
  let s := Stats 3 2 1 1 2 0 (hosts sample_stats)
             (failed_details sample_stats) in
  process_all entries init_stats = (Ok tt, s) /\
  read_lines sample_loads sample_lines init_stats = (Ok tt, sample_stats) /\
  sample_ok_text !! event_data_key = Some (JDict sample_changed_text) /\
  sample_ok_text !! event_key = Some (JStr runner_on_ok) /\
  (skipped_tasks s = count_events runner_on_skipped entries /\
   changed_tasks s = count_where is_changed entries) /\
  (skipped_tasks sample_stats =
     count_events runner_on_skipped
       (decoded_records sample_loads sample_lines) /\
   changed_tasks sample_stats =
     count_where is_changed (decoded_records sample_loads sample_lines)) /\
  is_changed (JDict sample_ok_text) = true.
Proof.
  intros entries s.
  destruct (skipped_and_changed_are_counted sample_loads)
    as (Hall & Hlines & Hchanged).
  assert (sample_ok_text !! event_data_key = Some (JDict sample_changed_text))
    as H1 by (vm_compute; reflexivity).
  assert (sample_ok_text !! event_key = Some (JStr runner_on_ok)) as H2
    by (vm_compute; reflexivity).
  split; [exact sample_records_processed|].
  split; [exact sample_log_read|].
  split; [exact H1|]. split; [exact H2|]. split; [|split].
  - exact (Hall entries s sample_records_processed).
  - exact (Hlines sample_lines sample_stats sample_log_read).
  - rewrite (Hchanged sample_ok_text sample_changed_text H1 H2).
    vm_compute. reflexivity.
Defined.

Lemma values_without_event_data_are_passed_over_witness :
  (list_to_map [(event_key, JStr runner_on_ok)] : gmap str json)
    !! event_data_key = None /\
  _process_entry (obj [(event_key, JStr runner_on_ok)]) sample_stats =
    (Ok tt, sample_stats).
Proof.
  assert ((list_to_map [(event_key, JStr runner_on_ok)] : gmap str json)
            !! event_data_key = None) as H by (vm_compute; reflexivity).
  split; [exact H|].
  exact (proj2 (proj2 (values_without_event_data_are_passed_over
                         sample_stats)) _ H).
Defined.

Lemma counted_before_abort_witness :
  let ed := JStr (lit "none") in
  sample_text_data !! event_data_key = Some ed /\
  (forall g, ed <> JDict g) /\
  contains remote_addr_key ed = Ok false /\
  eq_str (default JNull (sample_text_data !! event_key)) runner_on_failed
    = true /\
  _process_entry (JDict sample_text_data) init_stats =
    (Raise (AttributeError ed), incr_failed (incr_total init_stats)) /\
  failed_tasks (incr_failed (incr_total init_stats)) =
    failed_tasks init_stats + 1 /\
  failed_details (incr_failed (incr_total init_stats)) =
    failed_details init_stats.
Proof.
  intros ed.
  assert (sample_text_data !! event_data_key = Some ed) as H1
    by (vm_compute; reflexivity).
  assert (forall g, ed <> JDict g) as H2 by (intros g; discriminate).
  assert (contains remote_addr_key ed = Ok false) as H3
    by (vm_compute; reflexivity).
  assert (eq_str (default JNull (sample_text_data !! event_key))
            runner_on_failed = true) as H4 by (vm_compute; reflexivity).
  split; [exact H1|]. split; [exact H2|]. split; [exact H3|].
  split; [exact H4|].
  exact (proj1 (proj2 (counted_before_abort sample_text_data ed init_stats
                         H1 H2 H3)) H4).
Defined.

Lemma raises_only_type_or_attribute_error_witness :
  _process_entry (JInt 5) sample_stats =
    (Raise (TypeError (JInt 5)), sample_stats) /\
  ((exists v, TypeError (JInt 5) = TypeError v /\ sample_stats = sample_stats)
   \/
   (exists d ed,
      JInt 5 = JDict d /\ d !! event_data_key = Some ed /\
      (forall g, ed <> JDict g) /\ TypeError (JInt 5) = AttributeError ed /\
      ((is_event runner_on_ok (JInt 5) = true /\
        sample_stats = incr_ok (incr_total sample_stats)) \/
       (is_event runner_on_failed (JInt 5) = true /\
        sample_stats = incr_failed (incr_total sample_stats))))).
Proof.
  assert (_process_entry (JInt 5) sample_stats =
            (Raise (TypeError (JInt 5)), sample_stats)) as H
    by reflexivity.
  split; [exact H|].
  exact (raises_only_type_or_attribute_error (JInt 5) sample_stats
           sample_stats (TypeError (JInt 5)) H).
Defined.

Lemma other_events_are_not_counted_witness :
  is_event runner_on_ok sample_unreachable = false /\
  is_event runner_on_failed sample_unreachable = false /\
  is_event runner_on_skipped sample_unreachable = false /\
  let s' := snd (_process_entry sample_unreachable sample_stats) in
  total_tasks s' = total_tasks sample_stats /\
  ok_tasks s' = ok_tasks sample_stats /\
  changed_tasks s' = changed_tasks sample_stats /\
  failed_tasks s' = failed_tasks sample_stats /\
  skipped_tasks s' = skipped_tasks sample_stats /\
  failed_details s' = failed_details sample_stats /\
  (forall s1, _process_entry sample_unreachable sample_stats = (Ok tt, s1) ->
     hosts s1 = add_all (remote_addrs [sample_unreachable])
                  (hosts sample_stats)).
Proof.
  assert (is_event runner_on_ok sample_unreachable = false) as H1
    by (vm_compute; reflexivity).
  assert (is_event runner_on_failed sample_unreachable = false) as H2
    by (vm_compute; reflexivity).
  assert (is_event runner_on_skipped sample_unreachable = false) as H3
    by (vm_compute; reflexivity).
  split; [exact H1|]. split; [exact H2|]. split; [exact H3|].
  exact (other_events_are_not_counted sample_unreachable sample_stats
           H1 H2 H3).
Defined.

Lemma logs_concatenate_witness :
  let a := [sample_ok; sample_skipped] in
  let b := [sample_failed; sample_ok] in
  let sa := snd (process_all a init_stats) in
  let sb := snd (process_all b init_stats) in
  process_all a init_stats = (Ok tt, sa) /\
  process_all b init_stats = (Ok tt, sb) /\
  exists s,
    process_all (a ++ b) init_stats = (Ok tt, s) /\
    total_tasks s = total_tasks sa + total_tasks sb /\
    ok_tasks s = ok_tasks sa + ok_tasks sb /\
    changed_tasks s = changed_tasks sa + changed_tasks sb /\
    failed_tasks s = failed_tasks sa + failed_tasks sb /\
    skipped_tasks s = skipped_tasks sa + skipped_tasks sb /\
    failed_details s = failed_details sa ++ failed_details sb /\
    hosts sa `prefix_of` hosts s /\
    (length (hosts sb) <= length (hosts s)
     <= length (hosts sa) + length (hosts sb))%nat.
Proof.
  intros a b sa sb.
  assert (process_all a init_stats = (Ok tt, sa)) as Ha
    by (vm_compute; reflexivity).
  assert (process_all b init_stats = (Ok tt, sb)) as Hb
    by (vm_compute; reflexivity).
  split; [exact Ha|]. split; [exact Hb|].
  exact (logs_concatenate a b sa sb Ha Hb).
Defined.

Lemma statistics_do_not_depend_on_order_witness :
  let entries := [sample_ok; sample_failed] in
  let entries' := [sample_failed; sample_ok] in
  let s := snd (process_all entries init_stats) in
  Permutation entries entries' /\
  process_all entries init_stats = (Ok tt, s) /\
  exists s',
    process_all entries' init_stats = (Ok tt, s') /\
    total_tasks s' = total_tasks s /\ ok_tasks s' = ok_tasks s /\
    changed_tasks s' = changed_tasks s /\
    failed_tasks s' = failed_tasks s /\
    skipped_tasks s' = skipped_tasks s /\
    length (hosts s') = length (hosts s) /\
    Permutation (failed_details s') (failed_details s) /\
    failed_details s' = failures_of entries'.
Proof.
  intros entries entries' s.
  assert (Permutation entries entries') as Hp by apply perm_swap.
  assert (process_all entries init_stats = (Ok tt, s)) as H
    by (vm_compute; reflexivity).
  split; [exact Hp|]. split; [exact H|].
  exact (statistics_do_not_depend_on_order entries entries' s Hp H).
Defined.

Lemma exit_status_zero_iff_witness :
  let lines := [sample_ok_line ++ newline; lit "not json" ++ newline] in
  let s := snd (read_lines sample_loads lines init_stats) in
  read_lines sample_loads lines init_stats = (Ok tt, s) /\
  count_events runner_on_failed (decoded_records sample_loads lines) = 0 /\
  forallb utf8_strict
    (report_texts sample_py_str sample_now (lit "a.log") s) = true /\
  snd (run sample_loads sample_exn_str sample_py_str sample_now utf8_strict
         (lit "a.log") (Content lines None)) = 0.
Proof.
  intros lines s.
  assert (read_lines sample_loads lines init_stats = (Ok tt, s)) as H1
    by (vm_compute; reflexivity).
  assert (count_events runner_on_failed (decoded_records sample_loads lines)
          = 0) as H2 by (vm_compute; reflexivity).
  assert (forallb utf8_strict
            (report_texts sample_py_str sample_now (lit "a.log") s) = true)
    as H3 by (vm_compute; reflexivity).
  split; [exact H1|]. split; [exact H2|]. split; [exact H3|].
  apply (proj2 (exit_status_zero_iff sample_loads sample_exn_str
                  sample_py_str sample_now utf8_strict (lit "a.log")
                  (Content lines None))).
  exists lines, s. split; [reflexivity|]. split; [exact H1|].
  split; [exact H2|exact H3].
Defined.

Lemma first_failing_line_ends_the_run_witness :
  let before := [sample_ok_line ++ newline] in
  let after := [sample_failed_line ++ newline] in
  let s1 := snd (read_lines sample_loads before init_stats) in
  read_lines sample_loads before init_stats = (Ok tt, s1) /\
  sample_loads (strip (lit "5" ++ newline)) = Decoded (JInt 5) /\
  _process_entry (JInt 5) s1 = (Raise (TypeError (JInt 5)), s1) /\
  read_lines sample_failing_loads [] init_stats = (Ok tt, init_stats) /\
  sample_failing_loads (strip (lit "[[")) =
    DecodeRaises (OtherError (lit "maximum recursion depth exceeded")) /\
  run sample_loads sample_exn_str sample_py_str sample_now utf8_strict
    (lit "a.log") (Content (before ++ (lit "5" ++ newline) :: after) None) =
    ([lit "Error reading log file: TypeError"], 1) /\
  run sample_failing_loads sample_exn_str sample_py_str sample_now
    utf8_strict (lit "a.log") (Content ([] ++ lit "[[" :: after) None) =
    ([lit "Error reading log file: maximum recursion depth exceeded"], 1).
Proof.
  intros before after s1.
  assert (read_lines sample_loads before init_stats = (Ok tt, s1)) as H1
    by (vm_compute; reflexivity).
  assert (sample_loads (strip (lit "5" ++ newline)) = Decoded (JInt 5)) as H2
    by (vm_compute; reflexivity).
  assert (_process_entry (JInt 5) s1 = (Raise (TypeError (JInt 5)), s1))
    as H3 by reflexivity.
  assert (read_lines sample_failing_loads [] init_stats =
            (Ok tt, init_stats)) as H4 by reflexivity.
  assert (sample_failing_loads (strip (lit "[[")) =
            DecodeRaises (OtherError (lit "maximum recursion depth exceeded")))
    as H5 by reflexivity.
  split; [exact H1|]. split; [exact H2|]. split; [exact H3|].
  split; [exact H4|]. split; [exact H5|]. split.
  - exact (proj2 (proj1 (first_failing_line_ends_the_run sample_loads
             sample_exn_str sample_py_str sample_now utf8_strict
             (lit "a.log") before after (lit "5" ++ newline) None s1 H1)
             _ _ _ H2 H3)).
  - exact (proj2 (proj2 (first_failing_line_ends_the_run
             sample_failing_loads sample_exn_str sample_py_str sample_now
             utf8_strict (lit "a.log") [] after (lit "[[") None init_stats
             H4) _ H5)).
Defined.


Lemma failures_listed_iff_exit_one_witness :
  let f := Content sample_lines None in
  let out := fst (run sample_loads sample_exn_str sample_py_str sample_now
                    utf8_strict (lit "a.log") f) in
  let status := snd (run sample_loads sample_exn_str sample_py_str
                       sample_now utf8_strict (lit "a.log") f) in
  parse_log sample_loads sample_exn_str utf8_strict (lit "a.log") f
    init_stats = (Ok true, [], sample_stats) /\
  forallb utf8_strict
    (report_texts sample_py_str sample_now (lit "a.log") sample_stats)
    = true /\
  (existsb is_failures_heading out = true <-> status = 1) /\
  (status = 0 \/ status = 1) /\
  length out = 21%nat.
Proof.
  intros f out status.
  assert (parse_log sample_loads sample_exn_str utf8_strict (lit "a.log") f
            init_stats = (Ok true, [], sample_stats)) as H
    by (vm_compute; reflexivity).
  assert (forallb utf8_strict
            (report_texts sample_py_str sample_now (lit "a.log")
               sample_stats) = true) as H2 by (vm_compute; reflexivity).
  split; [exact H|]. split; [exact H2|].
  exact (failures_listed_iff_exit_one sample_loads sample_exn_str
           sample_py_str sample_now utf8_strict (lit "a.log") f sample_stats
           H H2).
Defined.

Lemma all_ok_is_100_percent_witness :
  let s3 := Stats 3 1 0 0 3 0 [] [] in
  let s0 := Stats 2 0 2 0 0 0 [] [] in
  let f := Content [sample_ok_line; sample_ok_line; sample_ok_line] None in
  let s := snd (parse_log sample_loads sample_exn_str utf8_strict
                  (lit "a.log") f init_stats) in
  0 < total_tasks s3 /\ ok_tasks s3 = total_tasks s3 /\
  0 < total_tasks s0 /\ ok_tasks s0 = 0 /\
  forallb utf8_strict
    (report_texts sample_py_str sample_now (lit "a.log") s3) = true /\
  parse_log sample_loads sample_exn_str utf8_strict (lit "a.log") f
    init_stats = (Ok true, [], s) /\
  0 < total_tasks s /\
  snd (run sample_loads sample_exn_str sample_py_str sample_now utf8_strict
         (lit "a.log") f) = 0 /\
  report_texts sample_py_str sample_now (lit "a.log") s3 =
    (report_header sample_now (lit "a.log") ++ report_statistics s3 ++
     report_failures sample_py_str s3) ++ [lit "Success rate: 100.0%"] /\
  fst (generate_report sample_py_str sample_now utf8_strict (lit "a.log") s3)
    = report_texts sample_py_str sample_now (lit "a.log") s3 /\
  report_texts sample_py_str sample_now (lit "a.log") s0 =
    (report_header sample_now (lit "a.log") ++ report_statistics s0 ++
     report_failures sample_py_str s0) ++ [lit "Success rate: 0.0%"] /\
  exists body,
    fst (run sample_loads sample_exn_str sample_py_str sample_now utf8_strict
           (lit "a.log") f) = body ++ [lit "Success rate: 100.0%"].
Proof.
  intros s3 s0 f s.
  destruct (all_ok_is_100_percent sample_loads sample_exn_str sample_py_str
              sample_now utf8_strict (lit "a.log")) as [Hstats Hrun].
  assert (0 < total_tasks s3) as H1 by (simpl; lia).
  assert (ok_tasks s3 = total_tasks s3) as H2 by reflexivity.
  assert (0 < total_tasks s0) as H3 by (simpl; lia).
  assert (ok_tasks s0 = 0) as H4 by reflexivity.
  assert (forallb utf8_strict
            (report_texts sample_py_str sample_now (lit "a.log") s3) = true)
    as Henc by (vm_compute; reflexivity).
  assert (parse_log sample_loads sample_exn_str utf8_strict (lit "a.log") f
            init_stats = (Ok true, [], s)) as H5
    by (vm_compute; reflexivity).
  assert (0 < total_tasks s) as H6 by (vm_compute; reflexivity).
  assert (snd (run sample_loads sample_exn_str sample_py_str sample_now
                 utf8_strict (lit "a.log") f) = 0) as H7
    by (vm_compute; reflexivity).
  split; [exact H1|]. split; [exact H2|]. split; [exact H3|].
  split; [exact H4|]. split; [exact Henc|]. split; [exact H5|].
  split; [exact H6|]. split; [exact H7|].
  split; [|split; [|split]].
  - exact (proj1 (proj1 (Hstats s3 H1) H2)).
  - exact (proj2 (proj1 (Hstats s3 H1) H2) Henc).
  - exact (proj1 (proj2 (Hstats s0 H3) H4)).
  - exact (Hrun f s H5 H6 H7).
Defined.

(** * Further properties of the analyzer as a whole *)

Section MoreExtras.

Variable loads : str -> decoded.
Variable exn_str : exn -> str.
Variable py_str : json -> str.
Variable now : str.
Variable encodes : str -> bool.

(** X15.  [parse_log] does not reset the statistics: after a file was
    read to its end, reading further lines with the same analyzer
    gives what reading all the lines at once gives.  Reading the same
    file a second time doubles every counter and repeats the failure
    entries, while [hosts], being a set, stays as it is. *)
Theorem parse_log_accumulates (log_file : str) :
  (forall lines1 lines2 failure s1,
     parse_log loads exn_str encodes log_file (Content lines1 None)
       init_stats = (Ok true, [], s1) ->
     parse_log loads exn_str encodes log_file (Content lines2 failure) s1 =
     parse_log loads exn_str encodes log_file
       (Content (lines1 ++ lines2) failure) init_stats) /\
  (forall lines s,
     parse_log loads exn_str encodes log_file (Content lines None)
       init_stats = (Ok true, [], s) ->
     exists s2,
       parse_log loads exn_str encodes log_file (Content lines None) s =
         (Ok true, [], s2) /\
       total_tasks s2 = 2 * total_tasks s /\
       ok_tasks s2 = 2 * ok_tasks s /\
       changed_tasks s2 = 2 * changed_tasks s /\
       failed_tasks s2 = 2 * failed_tasks s /\
       skipped_tasks s2 = 2 * skipped_tasks s /\
       hosts s2 = hosts s /\
       failed_details s2 = failed_details s ++ failed_details s).
Proof.
  split.
  - intros lines1 lines2 failure s1 H.
    apply parse_log_true in H as (lines & [= <-] & _ & Hr).
    unfold parse_log, read_file, bind.
    rewrite read_lines_app, Hr. reflexivity.
  - intros lines s H.
    apply parse_log_true in H as (lines' & [= <-] & _ & Hr).
    pose proof (read_lines_outcome loads lines s init_stats) as Hout.
    rewrite Hr in Hout.
    destruct (read_lines loads lines s) as [r s2] eqn:Hr2.
    simpl in Hout. subst r. exists s2. split.
    { unfold parse_log, read_file, bind, ret. rewrite Hr2. reflexivity. }
    apply read_lines_ok in Hr, Hr2.
    pose proof (process_all_counts _ _ _ Hr) as (? & ? & ? & ?).
    pose proof (process_all_counts _ _ _ Hr2) as (? & ? & ? & ?).
    pose proof (process_all_changed _ _ _ Hr).
    pose proof (process_all_changed _ _ _ Hr2).
    pose proof (process_all_details _ _ _ Hr) as Hd.
    pose proof (process_all_details _ _ _ Hr2) as Hd2.
    pose proof (process_all_hosts _ _ _ Hr) as [Hh Hf].
    pose proof (process_all_hosts _ _ _ Hr2) as [Hh2 _].
    simpl in *.
    do 5 (split; [lia|]). split.
    + rewrite Hh2, Hh. apply add_all_twice, Hf.
    + rewrite Hd2, Hd. reflexivity.
Qed.

(** X16.  A log in which no line carries event data (every line fails
    to decode, or decodes to a value in which ['event_data'] does not
    occur) is a success: [parse_log] returns [True] with the
    statistics untouched, the report is the header and the statistics,
    all zero, with no failure list and no success rate, and when
    standard output encodes these texts the run prints them and ends
    with status 0. *)
Theorem log_without_event_data_is_a_success
    (log_file : str) (lines : list str) :
  forallb (without_event_data loads) lines = true ->
  parse_log loads exn_str encodes log_file (Content lines None)
    init_stats = (Ok true, [], init_stats) /\
  report_texts py_str now log_file init_stats =
    report_header now log_file ++ report_statistics init_stats /\
  (forallb encodes
     (report_header now log_file ++ report_statistics init_stats) = true ->
   run loads exn_str py_str now encodes log_file (Content lines None) =
     (report_header now log_file ++ report_statistics init_stats, 0)).
Proof.
  intros H.
  pose proof (read_lines_without_event_data loads lines init_stats H) as Hr.
  assert (parse_log loads exn_str encodes log_file (Content lines None)
            init_stats = (Ok true, [], init_stats)) as Hp.
  { unfold parse_log, read_file, bind, ret. rewrite Hr. reflexivity. }
  assert (report_texts py_str now log_file init_stats =
          report_header now log_file ++ report_statistics init_stats)
    as Htexts by reflexivity.
  split; [exact Hp|]. split; [exact Htexts|].
  intros Henc. rewrite <- Htexts in *.
  rewrite (run_full loads exn_str py_str now encodes _ _ _ _ Hp Henc).
  reflexivity.
Qed.

(** X17.  The success rate that is printed lies between 0.0 and 100.0:
    for counters [0 <= ok_tasks <= total_tasks] with [total_tasks]
    positive the floating-point rate is never negative, infinite or
    not a number, and it is printed as [k / 10], a point and
    [k mod 10] for a number of tenths [k] from 0 to 1000; so it is in
    the last text of the report for the statistics of every file that
    counted a task, which is printed when standard output encodes all
    the texts of the report. *)
Theorem success_rate_within_0_and_100 (log_file : str) :
  (forall ok total,
     0 <= ok <= total -> 0 < total ->
     exists x k,
       success_rate ok total = Ok x /\ 0 <= k <= 1000 /\
       fmt_1f x =
         str_of_int (k / 10) ++ lit "." ++ str_of_int (k mod 10) /\
       (x = S754_zero false /\ k = 0 \/
        exists m e, x = S754_finite false m e /\ k = round_tenths m e)) /\
  (forall f,
     let s := snd (parse_log loads exn_str encodes log_file f init_stats) in
     let texts := report_texts py_str now log_file s in
     0 < total_tasks s ->
     (exists k,
        0 <= k <= 1000 /\
        texts =
          (report_header now log_file ++ report_statistics s ++
           report_failures py_str s) ++
          [lit "Success rate: " ++ str_of_int (k / 10) ++ lit "." ++
           str_of_int (k mod 10) ++ lit "%"]) /\
     (forallb encodes texts = true ->
      fst (generate_report py_str now encodes log_file s) = texts)).
Proof.
  split; [exact success_rate_tenths|].
  intros f s texts Ht.
  pose proof (parse_log_counters loads exn_str encodes log_file f) as Hc.
  fold s in Hc. unfold counters_ok in Hc.
  assert (0 <= ok_tasks s <= total_tasks s) as Hok by lia.
  split.
  - destruct (success_rate_tenths (ok_tasks s) (total_tasks s) Hok Ht)
      as (x & k & Hx & Hk & Hfmt & _).
    destruct (report_texts_rate py_str now log_file s Hok Ht)
      as (x' & Hx' & Htexts).
    rewrite Hx in Hx'. injection Hx' as <-.
    exists k. split; [exact Hk|].
    subst texts. rewrite Htexts, Hfmt, <- !app_assoc. reflexivity.
  - intros Henc.
    rewrite (generate_report_full py_str now encodes log_file s Hok Henc).
    reflexivity.
Qed.

End MoreExtras.

(** * The analyzer as a whole on the sample log *)

Lemma parse_log_accumulates_witness :
  let lines1 := [sample_ok_line ++ newline] in
  let lines2 := [sample_failed_line ++ newline] in
  let s1 := snd (parse_log sample_loads sample_exn_str utf8_strict
                   (lit "a.log") (Content lines1 None) init_stats) in
  parse_log sample_loads sample_exn_str utf8_strict (lit "a.log")
    (Content lines1 None) init_stats = (Ok true, [], s1) /\
  parse_log sample_loads sample_exn_str utf8_strict (lit "a.log")
    (Content sample_lines None) init_stats = (Ok true, [], sample_stats) /\
  parse_log sample_loads sample_exn_str utf8_strict (lit "a.log")
    (Content lines2 None) s1 =
  parse_log sample_loads sample_exn_str utf8_strict (lit "a.log")
    (Content (lines1 ++ lines2) None) init_stats /\
  exists s2,
    parse_log sample_loads sample_exn_str utf8_strict (lit "a.log")
      (Content sample_lines None) sample_stats = (Ok true, [], s2) /\
    total_tasks s2 = 2 * total_tasks sample_stats /\
    ok_tasks s2 = 2 * ok_tasks sample_stats /\
    changed_tasks s2 = 2 * changed_tasks sample_stats /\
    failed_tasks s2 = 2 * failed_tasks sample_stats /\
    skipped_tasks s2 = 2 * skipped_tasks sample_stats /\
    hosts s2 = hosts sample_stats /\
    failed_details s2 =
      failed_details sample_stats ++ failed_details sample_stats.
Proof.
  intros lines1 lines2 s1.
  destruct (parse_log_accumulates sample_loads sample_exn_str utf8_strict
              (lit "a.log")) as [Hmore Htwice].
  assert (parse_log sample_loads sample_exn_str utf8_strict (lit "a.log")
            (Content lines1 None) init_stats = (Ok true, [], s1)) as H1
    by (vm_compute; reflexivity).
  assert (parse_log sample_loads sample_exn_str utf8_strict (lit "a.log")
            (Content sample_lines None) init_stats =
            (Ok true, [], sample_stats)) as H2
    by (vm_compute; reflexivity).
  split; [exact H1|]. split; [exact H2|]. split.
  - exact (Hmore lines1 lines2 None s1 H1).
  - exact (Htwice sample_lines sample_stats H2).
Defined.

Lemma log_without_event_data_is_a_success_witness :
  let lines := [lit "not json" ++ newline; newline] in
  forallb (without_event_data sample_loads) lines = true /\
  forallb utf8_strict
    (report_header sample_now (lit "a.log") ++ report_statistics init_stats)
    = true /\
  parse_log sample_loads sample_exn_str utf8_strict (lit "a.log")
    (Content lines None) init_stats = (Ok true, [], init_stats) /\
  run sample_loads sample_exn_str sample_py_str sample_now utf8_strict
    (lit "a.log") (Content lines None) =
    (report_header sample_now (lit "a.log") ++ report_statistics init_stats,
     0).
Proof.
  intros lines.
  assert (forallb (without_event_data sample_loads) lines = true) as H
    by (vm_compute; reflexivity).
  assert (forallb utf8_strict
            (report_header sample_now (lit "a.log") ++
             report_statistics init_stats) = true) as Henc
    by (vm_compute; reflexivity).
  destruct (log_without_event_data_is_a_success sample_loads sample_exn_str
              sample_py_str sample_now utf8_strict (lit "a.log") lines H)
    as (Hp & _ & Hrun).
  split; [exact H|]. split; [exact Henc|]. split; [exact Hp|].
  exact (Hrun Henc).
Defined.

Lemma success_rate_within_0_and_100_witness :
  let f := Content sample_lines None in
  let s := snd (parse_log sample_loads sample_exn_str utf8_strict
                  (lit "a.log") f init_stats) in
  let texts := report_texts sample_py_str sample_now (lit "a.log") s in
  0 <= 1 <= 3 /\ 0 < 3 /\ 0 < total_tasks s /\
  forallb utf8_strict texts = true /\
  (exists x k,
     success_rate 1 3 = Ok x /\ 0 <= k <= 1000 /\
     fmt_1f x = str_of_int (k / 10) ++ lit "." ++ str_of_int (k mod 10) /\
     (x = S754_zero false /\ k = 0 \/
      exists m e, x = S754_finite false m e /\ k = round_tenths m e)) /\
  (exists k,
     0 <= k <= 1000 /\
     texts =
       (report_header sample_now (lit "a.log") ++ report_statistics s ++
        report_failures sample_py_str s) ++
       [lit "Success rate: " ++ str_of_int (k / 10) ++ lit "." ++
        str_of_int (k mod 10) ++ lit "%"]) /\
  fst (generate_report sample_py_str sample_now utf8_strict (lit "a.log") s)
    = texts.
Proof.
  intros f s texts.
  destruct (success_rate_within_0_and_100 sample_loads sample_exn_str
              sample_py_str sample_now utf8_strict (lit "a.log"))
    as [Hrate Hrun].
  assert (0 <= 1 <= 3) as H1 by lia.
  assert (0 < 3) as H2 by lia.
  assert (0 < total_tasks s) as H3 by (vm_compute; reflexivity).
  assert (forallb utf8_strict texts = true) as H4
    by (vm_compute; reflexivity).
  split; [exact H1|]. split; [exact H2|]. split; [exact H3|].
  split; [exact H4|]. split; [exact (Hrate 1 3 H1 H2)|].
  split.
  - exact (proj1 (Hrun f H3)).
  - exact (proj2 (Hrun f H3) H4).
Defined.

(** ** The rate on small counts *)

(** One task in sixteen is 6.25 percent, exactly half way between two
    numbers of tenths: it is printed as 6.2, and three in sixteen, 18.75
    percent, as 18.8. *)
Example success_rate_ties :
  success_rate 1 16 = Ok (S754_finite false 7036874417766400 (-50)) /\
  fmt_1f (S754_finite false 7036874417766400 (-50)) = lit "6.2" /\
  (forall x, success_rate 3 16 = Ok x -> fmt_1f x = lit "18.8").
Proof.
  split; [vm_compute; reflexivity|]. split; [vm_compute; reflexivity|].
  intros x H. vm_compute in H. injection H as <-. vm_compute. reflexivity.
Qed.
